(** * greatai-backend: the request/response shaping layer of [main.py]

    A shallow embedding of the handlers of [src/main.py] (a FastAPI façade
    over Gmail and Google Calendar) and the properties its specification
    states about them.

    Conventions of the embedding:
    - Python [str] is [string], a text of ASCII characters; [str.lower],
      [str.startswith], [str.replace], [str.split] and [repr] are written
      out on it.
    - a Python exception is a value of [exn]; code that may raise returns
      [result A]; a handler that talks to Gmail or Calendar returns the list
      of remote calls it issued together with its outcome ([io A]).
    - the remote services are records of functions answering each call with
      a value or an exception.
    - [dict]s built by the handlers are [gmap string pyval]. *)

From Stdlib Require Import ZArith Ascii String List Lia Bool DecimalString.
From stdpp Require Import base option list gmap strings fin_maps.

Local Open Scope Z_scope.

(** ** Python string methods *)

Module PyStr.

Definition is_upper (c : ascii) : bool :=
  let n := N_of_ascii c in ((65 <=? n) && (n <=? 90))%N.

Definition lower_ascii (c : ascii) : ascii :=
  if is_upper c then ascii_of_N (N_of_ascii c + 32) else c.

(** [s.lower()] *)
Fixpoint lower (s : string) : string :=
  match s with
  | EmptyString => EmptyString
  | String c s' => String (lower_ascii c) (lower s')
  end.

(** [s.startswith(p)] *)
Definition startswith (s p : string) : bool := String.prefix p s.

(** [bool(s)]: a string is truthy when it is not empty. *)
Definition truthy (s : string) : bool :=
  match s with
  | EmptyString => false
  | String _ _ => true
  end.

(** [s.replace(c, t)] for a pattern [c] of one character. *)
Fixpoint replace_char (c : ascii) (t : string) (s : string) : string :=
  match s with
  | EmptyString => EmptyString
  | String a s' =>
      if Ascii.eqb a c then t +:+ replace_char c t s'
      else String a (replace_char c t s')
  end.

(** [s.split(c)[0]]: the text before the first [c], all of [s] without. *)
Fixpoint split_head (c : ascii) (s : string) : string :=
  match s with
  | EmptyString => EmptyString
  | String a s' => if Ascii.eqb a c then EmptyString else String a (split_head c s')
  end.

(** [c in s] for one character (used to say where a sign cannot occur). *)
Fixpoint contains (c : ascii) (s : string) : bool :=
  match s with
  | EmptyString => false
  | String a s' => Ascii.eqb a c || contains c s'
  end.

(** [s.isascii()] *)
Fixpoint isascii (s : string) : bool :=
  match s with
  | EmptyString => true
  | String c s' => (N_of_ascii c <? 128)%N && isascii s'
  end.

Definition hex_digit (n : N) : ascii :=
  ascii_of_N (if (n <? 10)%N then 48 + n else 87 + n).

(** One character of [repr(s)] between the quotes [q]: the backslash and
    the quote are escaped, a tab, a line feed and a carriage return are
    written with their letter, every other control character with its
    code. *)
Definition repr_char (q c : ascii) : string :=
  let n := N_of_ascii c in
  if Ascii.eqb c "092" || Ascii.eqb c q then String "092" (String c EmptyString)
  else if Ascii.eqb c "009" then String "092" "t"
  else if Ascii.eqb c "010" then String "092" "n"
  else if Ascii.eqb c "013" then String "092" "r"
  else if (n <? 32)%N || (n =? 127)%N then
    String "092" (String "x" (String (hex_digit (n / 16))
                                     (String (hex_digit (n mod 16)) EmptyString)))
  else String c EmptyString.

Fixpoint repr_chars (q : ascii) (s : string) : string :=
  match s with
  | EmptyString => String q EmptyString
  | String c s' => repr_char q c +:+ repr_chars q s'
  end.

(** [repr(s)] of a text of ASCII characters: between single quotes, or
    between double quotes when the text has a single quote and no double
    one. *)
Definition repr (s : string) : string :=
  let q := if contains "'" s && negb (contains "034" s) then "034"%char
           else "'"%char in
  String q (repr_chars q s).

End PyStr.

(** ** Exceptions and results *)

Inductive exn : Type :=
| KeyError (key : string)
| AttributeError (msg : string)
| ValueError (msg : string)
| TypeError (msg : string)
| OverflowError (msg : string)
| IndexError (msg : string)
| HttpError (status : Z) (msg : string)
| RequestException (msg : string)
| TransportError (msg : string)
| HTTPException (status_code : Z) (detail : string).

(** [str(e)], as the handlers embed it in the detail of an [HTTPException];
    an exception carries its message, an [HttpError] its status besides. *)
Definition str_exn (e : exn) : string :=
  match e with
  | KeyError k => PyStr.repr k
  | AttributeError m | ValueError m | TypeError m | OverflowError m
  | IndexError m | RequestException m | TransportError m => m
  | HttpError st m => m
  | HTTPException st d => d
  end.

Inductive result (A : Type) : Type :=
| Ok (a : A)
| Raise (e : exn).
Arguments Ok {A} a.
Arguments Raise {A} e.

Definition rbind {A B} (r : result A) (f : A → result B) : result B :=
  match r with
  | Ok a => f a
  | Raise e => Raise e
  end.

(** [d[k]] on a value that may be missing: [KeyError] when it is. *)
Definition subscript {A} (key : string) (o : option A) : result A :=
  match o with
  | Some a => Ok a
  | None => Raise (KeyError key)
  end.

(** ** Remote calls and the handler monad *)

(** A handler's outcome together with the remote calls it made, in order. *)
Definition io (call A : Type) : Type := list call * result A.

Section IO.
Context {call : Type}.

Definition ret {A} (a : A) : io call A := ([], Ok a).
Definition raise {A} (e : exn) : io call A := ([], Raise e).
Definition lift {A} (r : result A) : io call A := ([], r).

Definition bind {A B} (m : io call A) (f : A → io call B) : io call B :=
  match m with
  | (t, Ok a) => let '(t', r) := f a in (t ++ t', r)
  | (t, Raise e) => (t, Raise e)
  end.

(** [.execute()] of a prepared request: one logged call and its answer. *)
Definition execute {A} (c : call) (answer : result A) : io call A :=
  ([c], answer).

(** [try: m  except <handles> as e: h e]. *)
Definition try_except {A} (m : io call A) (handles : exn → bool)
    (h : exn → io call A) : io call A :=
  match m with
  | (t, Raise e) =>
      if handles e then let '(t', r) := h e in (t ++ t', r) else (t, Raise e)
  | ok => ok
  end.

Definition calls {A} (m : io call A) : list call := fst m.
Definition outcome {A} (m : io call A) : result A := snd m.
End IO.

#[global] Instance result_ret : MRet result := @Ok.
#[global] Instance result_bind : MBind result := λ A B f r, rbind r f.
#[global] Instance result_fmap : FMap result := λ A B f r, rbind r (λ a, Ok (f a)).
#[global] Instance io_ret {call} : MRet (io call) := @ret call.
#[global] Instance io_bind {call} : MBind (io call) := λ A B f m, bind m f.

(** ** Gmail: raw messages and their summaries *)

(** One entry of [payload.headers]; a key that is missing is [None]. *)
Record Header : Type := mkHeader {
  name : option string;
  value : option string
}.

Record Payload : Type := mkPayload {
  headers : option (list Header)
}.

(** A message resource of the Gmail API. *)
Record Message : Type := mkMessage {
  id : option string;
  snippet : option string;
  payload : option Payload
}.

Record EmailSummary : Type := mkEmailSummary {
  email_id : string;
  es_snippet : string;
  subject : string;
  from_ : string
}.

(** The [for header in ...] loop of [get_message_data], with the two local
    variables [subject] and [from_email] as accumulators; the [break] is the
    branch that returns without the recursive call. *)
Fixpoint scan_headers (hs : list Header) (subject from_email : string)
    : string * string :=
  match hs with
  | [] => (subject, from_email)
  | header :: rest =>
      let name := PyStr.lower (default "" (name header)) in
      let value := default "" (value header) in
      if String.eqb name "subject" then scan_headers rest value from_email
      else if String.eqb name "from" then
        if PyStr.truthy subject && PyStr.truthy value
        then (subject, value)
        else scan_headers rest subject value
      else scan_headers rest subject from_email
  end.

(** [message.get("payload", {}).get("headers", [])] *)
Definition message_headers (message : Message) : list Header :=
  match payload message with
  | Some p => default [] (headers p)
  | None => []
  end.

Definition get_message_data (message : Message) : result EmailSummary :=
  let '(subject, from_email) := scan_headers (message_headers message) "" "" in
  i ← subscript "id" (id message);
  Ok {| email_id := i;
        es_snippet := default "" (snippet message);
        subject := subject;
        from_ := from_email |}.

(** ** Gmail service *)

Record ListResponse : Type := mkListResponse {
  messages : option (list Message)
}.

(** An [EmailMessage] as a handler has built it: the text given to
    [set_content] and, in the order of the assignments, the header names
    and the texts assigned to them. What the [email] library makes of a
    text it is given (the header it stores for it, the bytes it writes) is
    the library's, see [EmailLibrary]. *)
Record EmailMessage : Type := mkEmailMessage {
  content : option string;
  assigned : list (string * string)
}.

(** The body of [users.messages.send]: [raw] stands for
    [base64.urlsafe_b64encode(message.as_bytes()).decode()] of the message
    it carries. *)

Record SendBody : Type := mkSendBody {
  raw : EmailMessage;
  threadId : string
}.

Inductive gmail_call : Type :=
| MessagesList (userId q : string) (maxResults : Z)
| MessagesGet (userId id : string) (format : option string)
| MessagesSend (userId : string) (body : SendBody).

(** The answer of [users.messages.send]: a message resource as a dict. *)
Record GmailService : Type := mkGmailService {
  messages_list : string → string → Z → result ListResponse;
  messages_get : string → string → option string → result Message;
  messages_send : string → SendBody → result (gmap string string)
}.

Record EmailsResponse : Type := mkEmailsResponse {
  emails : list EmailSummary;
  count : nat
}.

Definition is_RequestException (e : exn) : bool :=
  match e with RequestException _ => true | _ => false end.

Definition is_HttpError (e : exn) : bool :=
  match e with HttpError _ _ => true | _ => false end.

(** [f"label:{label}" if label else ""] *)
Definition label_query (label : option string) : string :=
  match label with
  | Some l => if PyStr.truthy l then "label:" +:+ l else ""
  | None => ""
  end.

(** The [for message in messages] loop of [get_emails]. *)
Fixpoint fetch_details (service : GmailService) (messages : list Message)
    (detailed_messages : list EmailSummary) : io gmail_call (list EmailSummary) :=
  match messages with
  | [] => ret detailed_messages
  | message :: rest =>
      i ← lift (subscript "id" (id message));
      msg ← execute (MessagesGet "me" i (Some "full"))
                    (messages_get service "me" i (Some "full"));
      d ← lift (get_message_data msg);
      fetch_details service rest (detailed_messages ++ [d])
  end.

Definition get_emails (service : GmailService) (label : option string)
    : io gmail_call EmailsResponse :=
  try_except
    (results ← execute (MessagesList "me" (label_query label) 10)
                       (messages_list service "me" (label_query label) 10);
     let messages := default [] (messages results) in
     match messages with
     | [] => mret {| emails := []; count := 0 |}
     | _ =>
         detailed_messages ← fetch_details service messages [];
         mret {| emails := detailed_messages;
                 count := length detailed_messages |}
     end)
    (λ _, true)
    (λ e, raise (if is_RequestException e
                 then HTTPException 500 ("Gmail API error: " +:+ str_exn e)
                 else HTTPException 500 ("Unexpected error: " +:+ str_exn e))).

(** ** Reply composition *)

Record ReplyRequest : Type := mkReplyRequest {
  message_id : string;
  to : string;
  body : string;
  reply_all : bool
}.

(** The [email] library as [reply_to_email] meets it. Under its default
    policy an assignment [message[name] = value] parses the text: it may
    refuse it with an exception (a [ValueError] for a text of several
    lines, an [IndexError] for some malformed addresses), and the header it
    stores may read differently from the text assigned (an RFC 2047 encoded
    word is stored decoded, an address list is rendered anew). These
    answers are the library's and are taken as given:
    - [set_content_error message body]: the exception of
      [message.set_content(body)], when it raises;
    - [setitem_error message name value]: the exception of
      [message[name] = value], when it raises;
    - [stored_text name value]: [str(message[name])] once [value] was
      assigned to [name];
    - [as_bytes_error message]: the exception of [message.as_bytes()],
      when it raises. *)
Record EmailLibrary : Type := mkEmailLibrary {
  set_content_error : EmailMessage → string → option exn;
  setitem_error : EmailMessage → string → string → option exn;
  stored_text : string → string → string;
  as_bytes_error : EmailMessage → option exn
}.

Module email.

(** [EmailMessage()] *)
Definition new : EmailMessage := {| content := None; assigned := [] |}.

(** [message.set_content(body)]; the MIME headers the library adds for the
    content are part of the serialised form and are not listed. *)
Definition set_content (library : EmailLibrary) (message : EmailMessage)
    (body : string) : result EmailMessage :=
  match set_content_error library message body with
  | Some e => Raise e
  | None => Ok {| content := Some body; assigned := assigned message |}
  end.

(** [message[name] = value] *)
Definition setitem (library : EmailLibrary) (message : EmailMessage)
    (name value : string) : result EmailMessage :=
  match setitem_error library message name value with
  | Some e => Raise e
  | None => Ok {| content := content message;
                  assigned := assigned message ++ [(name, value)] |}
  end.

(** [message[name]]: the first header of that name, compared without case,
    as the library stored it. *)
Definition getitem (library : EmailLibrary) (message : EmailMessage)
    (name : string) : option string :=
  (λ h, stored_text library (fst h) (snd h)) <$>
  List.find (λ h, String.eqb (PyStr.lower (fst h)) (PyStr.lower name))
            (assigned message).

(** [base64.urlsafe_b64encode(message.as_bytes()).decode()], kept as the
    message it encodes. *)
Definition as_bytes_b64 (library : EmailLibrary) (message : EmailMessage)
    : result EmailMessage :=
  match as_bytes_error library message with
  | Some e => Raise e
  | None => Ok message
  end.

End email.

(** The subject rule of [reply_to_email] (lines 161-163). *)
Definition reply_subject (subject : string) : string :=
  if negb (PyStr.startswith (PyStr.lower subject) "re:")
  then "Re: " +:+ subject
  else subject.

Definition reply_to_email (library : EmailLibrary) (service : GmailService)
    (reply_request : ReplyRequest)
    : io gmail_call (option (gmap string string)) :=
  try_except
    (let message := email.new in
     message ← lift (email.set_content library message (body reply_request));
     message ← lift (email.setitem library message "To" (to reply_request));
     message ← lift (email.setitem library message "From" "me");
     msg ← execute (MessagesGet "me" (message_id reply_request) None)
                   (messages_get service "me" (message_id reply_request) None);
     subject ← lift (subscript "snippet" (snippet msg));
     let subject := reply_subject subject in
     message ← lift (email.setitem library message "Subject" subject);
     message ← lift (email.setitem library message "In-Reply-To"
                                   (message_id reply_request));
     message ← lift (email.setitem library message "References"
                                   (message_id reply_request));
     encoded_message ← lift (email.as_bytes_b64 library message);
     let create_message :=
       {| raw := encoded_message; threadId := message_id reply_request |} in
     send_message ← execute (MessagesSend "me" create_message)
                            (messages_send service "me" create_message);
     _ ← lift (subscript "id" (send_message !! "id"));
     mret (Some send_message))
    is_HttpError
    (λ error, mret None).

(** ** Python's [int] on a string *)

Module PyInt.

Definition digit (c : ascii) : option Z :=
  let n := N_of_ascii c in
  if ((48 <=? n) && (n <=? 57))%N then Some (Z.of_N n - 48) else None.

(** The blanks [int] strips from a text of ASCII characters: the tab, the
    line feed, the vertical tab, the form feed, the carriage return and the
    space. *)
Definition is_space (c : ascii) : bool :=
  let n := N_of_ascii c in
  (((9 <=? n) && (n <=? 13)) || (n =? 32))%N.

Fixpoint lstrip (s : string) : string :=
  match s with
  | String c s' => if is_space c then lstrip s' else s
  | EmptyString => EmptyString
  end.

Fixpoint rstrip (s : string) : string :=
  match s with
  | String c s' =>
      match rstrip s' with
      | EmptyString => if is_space c then EmptyString else String c EmptyString
      | r => String c r
      end
  | EmptyString => EmptyString
  end.

(** Decimal digits, single underscores allowed between two digits. *)
Fixpoint digits (s : string) (acc : Z) (after_digit : bool) : option Z :=
  match s with
  | EmptyString => if after_digit then Some acc else None
  | String c s' =>
      match digit c with
      | Some d => digits s' (10 * acc + d) true
      | None =>
          if Ascii.eqb c "_" && after_digit then digits s' acc false else None
      end
  end.

Definition parse (s : string) : option Z :=
  match rstrip (lstrip s) with
  | String "+" r => digits r 0 false
  | String "-" r => Z.opp <$> digits r 0 false
  | r => digits r 0 false
  end.

(** The digits [int] counts before it converts: after the leading blanks
    and a sign, up to the first character that is neither a digit nor an
    underscore; [None] when an underscore is misplaced on the way. *)
Fixpoint count_digits (s : string) (count : Z) (after_underscore : bool)
    : option Z :=
  match s with
  | EmptyString => if after_underscore then None else Some count
  | String c s' =>
      match digit c with
      | Some _ => count_digits s' (count + 1) false
      | None =>
          if Ascii.eqb c "_" then
            if after_underscore || (count =? 0) then None
            else count_digits s' count true
          else if after_underscore then None else Some count
      end
  end.

Definition leading_digits (s : string) : option Z :=
  match lstrip s with
  | String "+" r => count_digits r 0 false
  | String "-" r => count_digits r 0 false
  | r => count_digits r 0 false
  end.

(** [sys.get_int_max_str_digits()], at its default. *)
Definition max_str_digits : Z := 4300.

Definition decimal (n : Z) : string := NilZero.string_of_int (Z.to_int n).

(** The error of a text [int] does not read; it shows the first 200
    characters of [repr(s)]. *)
Definition invalid_literal (s : string) : exn :=
  ValueError ("invalid literal for int() with base 10: " +:+
              String.substring 0 200 (PyStr.repr s)).

(** [int(s)] for a text of ASCII characters. *)
Definition int (s : string) : result Z :=
  match leading_digits s with
  | Some n =>
      if max_str_digits <? n then
        Raise (ValueError
          ("Exceeds the limit (4300 digits) for integer string conversion: " +:+
           "value has " +:+ decimal n +:+
           " digits; use sys.set_int_max_str_digits() to increase the limit"))
      else
        match parse s with
        | Some v => Ok v
        | None => Raise (invalid_literal s)
        end
  | None => Raise (invalid_literal s)
  end.

End PyInt.

(** ** The [datetime] module: dates, times, fixed offsets, ISO 8601 text *)

Module datetime.

Record date : Type := mkDate { year : Z; month : Z; day : Z }.

Record time : Type := mkTime {
  hour : Z; minute : Z; second : Z; microsecond : Z
}.

(** An aware or naive [datetime]; [tzinfo] is the fixed offset from UTC of
    a [timezone], in microseconds. *)
Record datetime : Type := mkDatetime {
  dt_date : date;
  dt_time : time;
  tzinfo : option Z
}.

Definition us_per_second : Z := 1000000.
Definition us_per_hour : Z := 3600 * us_per_second.

Definition is_leap (y : Z) : bool :=
  (y mod 4 =? 0) && (negb (y mod 100 =? 0) || (y mod 400 =? 0)).

Definition days_in_month (y m : Z) : Z :=
  if m =? 2 then (if is_leap y then 29 else 28)
  else if (m =? 4) || (m =? 6) || (m =? 9) || (m =? 11) then 30
  else 31.

Definition valid_date (d : date) : bool :=
  (1 <=? year d) && (year d <=? 9999) &&
  (1 <=? month d) && (month d <=? 12) &&
  (1 <=? day d) && (day d <=? days_in_month (year d) (month d)).

Definition valid_time (t : time) : bool :=
  (0 <=? hour t) && (hour t <? 24) &&
  (0 <=? minute t) && (minute t <? 60) &&
  (0 <=? second t) && (second t <? 60) &&
  (0 <=? microsecond t) && (microsecond t <? us_per_second).

(** [timezone(offset)] accepts offsets strictly between -24h and 24h. *)
Definition valid_offset (off : Z) : bool :=
  (- (24 * us_per_hour) <? off) && (off <? 24 * us_per_hour).

(** [timedelta(hours=h)], in microseconds. A [timedelta] holds at most
    999999999 days either way, and the constructor reads the days into a C
    [int] first. *)
Definition timedelta_of_hours (h : Z) : result Z :=
  let days := h / 24 in
  if (days <? - 2 ^ 31) || (2 ^ 31 <=? days) then
    Raise (OverflowError "Python int too large to convert to C int")
  else if 999999999 <? Z.abs days then
    Raise (OverflowError
      ("days=" +:+ PyInt.decimal days +:+ "; must have magnitude <= 999999999"))
  else Ok (h * us_per_hour).

Definition us_per_day : Z := 24 * us_per_hour.

(** [repr] of the [timedelta] of [us] microseconds. *)
Definition repr_timedelta (us : Z) : string :=
  let days := us / us_per_day in
  let seconds := (us mod us_per_day) / us_per_second in
  let microseconds := us mod us_per_second in
  let days_arg := if days =? 0 then [] else ["days=" +:+ PyInt.decimal days] in
  let seconds_arg :=
    if seconds =? 0 then [] else ["seconds=" +:+ PyInt.decimal seconds] in
  let microseconds_arg :=
    if microseconds =? 0 then []
    else ["microseconds=" +:+ PyInt.decimal microseconds] in
  "datetime.timedelta(" +:+
  match (days_arg ++ seconds_arg ++ microseconds_arg)%list with
  | [] => "0"
  | args => String.concat ", " args
  end +:+ ")".

(** [timezone(offset)] *)
Definition timezone (offset : Z) : result Z :=
  if valid_offset offset then Ok offset
  else Raise (ValueError
    ("offset must be a timedelta strictly between -timedelta(hours=24) " +:+
     "and timedelta(hours=24), not " +:+ repr_timedelta offset +:+ ".")).

(** [timezone(timedelta(hours=h))] *)
Definition timezone_of_hours (h : Z) : result Z :=
  timedelta_of_hours h ≫= timezone.

(** *** Parsing: [datetime.fromisoformat]

    The method as CPython 3.11 implements it, on the UTF-8 text of the
    string. The implementation reads the text as a C string: a pointer into
    it is the text that remains, and reading at the end gives the NUL
    character. *)

Definition NUL : ascii := "000".

(** [*p] *)
Definition peek (p : string) : ascii :=
  match p with
  | String c _ => c
  | EmptyString => NUL
  end.

(** [p + 1] *)
Definition advance (p : string) : string :=
  match p with
  | String _ r => r
  | EmptyString => EmptyString
  end.

(** [p + n] *)
Fixpoint skip (n : nat) (p : string) : string :=
  match n with
  | O => p
  | S n' => skip n' (advance p)
  end.

(** [dtstr[i]] *)
Definition char_at (i : nat) (dtstr : string) : ascii := peek (skip i dtstr).

Definition is_digit (c : ascii) : bool :=
  match PyInt.digit c with
  | Some _ => true
  | None => false
  end.

(** [parse_digits(p, &var, num_digits)]: the value read and the pointer
    after it. *)
Fixpoint parse_digits (p : string) (num_digits : nat) (var : Z)
    {struct num_digits} : option (Z * string) :=
  match num_digits with
  | O => Some (var, p)
  | S n =>
      match p with
      | String c r => d ← PyInt.digit c; parse_digits r n (10 * var + d)
      | EmptyString => None
      end
  end.

(** The number of digits a text starts with. *)
Fixpoint digits_run (p : string) : nat :=
  match p with
  | String c r => if is_digit c then S (digits_run r) else O
  | EmptyString => O
  end.

(** **** The proleptic Gregorian calendar, for ISO week dates *)

Definition days_before_month (y m : Z) : Z :=
  (if m =? 1 then 0 else if m =? 2 then 31 else if m =? 3 then 59
   else if m =? 4 then 90 else if m =? 5 then 120 else if m =? 6 then 151
   else if m =? 7 then 181 else if m =? 8 then 212 else if m =? 9 then 243
   else if m =? 10 then 273 else if m =? 11 then 304 else if m =? 12 then 334
   else 0) +
  (if (2 <? m) && is_leap y then 1 else 0).

(** The divisions are C's, which round towards zero. *)
Definition days_before_year (year : Z) : Z :=
  let y := year - 1 in
  y * 365 + Z.quot y 4 - Z.quot y 100 + Z.quot y 400.

Definition ymd_to_ord (y m d : Z) : Z :=
  days_before_year y + days_before_month y m + d.

Definition weekday (y m d : Z) : Z := Z.rem (ymd_to_ord y m d + 6) 7.

Definition iso_week1_monday (year : Z) : Z :=
  let first_day := ymd_to_ord year 1 1 in
  let first_weekday := Z.rem (first_day + 6) 7 in
  let week1_monday := first_day - first_weekday in
  if 3 <? first_weekday then week1_monday + 7 else week1_monday.

(** The date of an ordinal, day 1 being 0001-01-01; for an ordinal before
    day 1, which a week of the year 0 gives, the month that is computed
    lies below 1. *)
Definition ord_to_ymd (ordinal : Z) : date :=
  if ordinal <=? 0 then mkDate 1 0 0 else
  let ordinal := ordinal - 1 in
  let n400 := ordinal / 146097 in
  let n := ordinal mod 146097 in
  let n100 := n / 36524 in
  let n := n mod 36524 in
  let n4 := n / 1461 in
  let n := n mod 1461 in
  let n1 := n / 365 in
  let n := n mod 365 in
  let year := n400 * 400 + 1 + n100 * 100 + n4 * 4 + n1 in
  if (n1 =? 4) || (n100 =? 4) then mkDate (year - 1) 12 31 else
  let leapyear := (n1 =? 3) && (negb (n4 =? 24) || (n100 =? 3)) in
  let month := Z.shiftr (n + 50) 5 in
  let preceding :=
    days_before_month 1 month + (if (2 <? month) && leapyear then 1 else 0) in
  if n <? preceding
  then mkDate year (month - 1)
              (n - (preceding - days_in_month year (month - 1)) + 1)
  else mkDate year month (n - preceding + 1).

Definition iso_to_ymd (iso_year iso_week iso_day : Z) : option date :=
  let first_weekday := weekday iso_year 1 1 in
  let has_week_53 :=
    (first_weekday =? 3) || ((first_weekday =? 2) && is_leap iso_year) in
  if ((iso_week <=? 0) || (53 <=? iso_week)) &&
     negb ((iso_week =? 53) && has_week_53) then None
  else if (iso_day <=? 0) || (8 <=? iso_day) then None
  else Some (ord_to_ymd (iso_week1_monday iso_year + (iso_week - 1) * 7 + iso_day - 1)).

(** **** The text *)

(** [_find_isoformat_datetime_separator]: where the date ends, by the
    characters at 4 and 5; [-1] when no date can be there. *)
Definition find_isoformat_datetime_separator (dtstr : string) : Z :=
  let len := String.length dtstr in
  if Nat.eqb len 7 then 7
  else if (4 <? len)%nat && Ascii.eqb (char_at 4 dtstr) "-" then
    if Ascii.eqb (char_at 5 dtstr) "W" then
      if (len <? 8)%nat then -1
      else if (8 <? len)%nat && Ascii.eqb (char_at 8 dtstr) "-" then
        if Nat.eqb len 9 then -1
        else if (10 <? len)%nat && is_digit (char_at 10 dtstr) then 8
        else 10
      else 8
    else 10
  else if Ascii.eqb (char_at 4 dtstr) "W" then
    let idx := (7 + digits_run (skip 7 dtstr))%nat in
    if (idx <? 9)%nat then Z.of_nat idx
    else if Nat.even idx then 7 else 8
  else 8.

(** [parse_isoformat_date(dtstr, len, ...)]: [YYYY-MM-DD], [YYYYMMDD],
    [YYYY-Www[-D]] or [YYYYWww[D]]; the fields are not yet checked against
    their ranges. *)
Definition parse_isoformat_date (dtstr : string) (len : Z) : option date :=
  '(year, p) ← parse_digits dtstr 4 0;
  let uses_separator := Ascii.eqb (peek p) "-" in
  let p := if uses_separator then advance p else p in
  if Ascii.eqb (peek p) "W" then
    '(iso_week, p) ← parse_digits (advance p) 2 0;
    let position := if uses_separator then 8 else 7 in
    if (len <? 0) || (position <? len) then
      if uses_separator && negb (Ascii.eqb (peek p) "-") then None
      else
        '(iso_day, _) ← parse_digits (if uses_separator then advance p else p) 1 0;
        iso_to_ymd year iso_week iso_day
    else iso_to_ymd year iso_week 1
  else
    '(month, p) ← parse_digits p 2 0;
    if uses_separator && negb (Ascii.eqb (peek p) "-") then None
    else
      '(day, _) ← parse_digits (if uses_separator then advance p else p) 2 0;
      Some (mkDate year month day).

Fixpoint skip_digits (p : string) : string :=
  match p with
  | String c r => if is_digit c then skip_digits r else p
  | EmptyString => EmptyString
  end.

(** The fraction of [parse_hh_mm_ss_ff], [remains] characters before the
    end: at most six digits are read, the others skipped. The first part of
    a result tells whether the text goes on after what was read. *)
Definition parse_fraction (p : string) (remains : Z) : option (bool * Z) :=
  let to_parse := if 6 <=? remains then 6%nat else Z.to_nat remains in
  '(microsecond, p) ← parse_digits p to_parse 0;
  let microsecond := microsecond * 10 ^ (6 - Z.of_nat to_parse) in
  Some (negb (Ascii.eqb (peek (skip_digits p)) NUL), microsecond).

Definition set_component (i : nat) (v : Z) (t : time) : time :=
  match i with
  | 0%nat => mkTime v (minute t) (second t) (microsecond t)
  | 1%nat => mkTime (hour t) v (second t) (microsecond t)
  | _ => mkTime (hour t) (minute t) v (microsecond t)
  end.

(** The loop of [parse_hh_mm_ss_ff] from its turn [i], with [left] turns to
    go and [remains] characters before the end: [HH[:MM[:SS]]] or
    [HH[MM[SS]]], then the fraction. *)
Fixpoint parse_hh_mm_ss (left : nat) (i : nat) (p : string) (remains : Z)
    (has_separator : bool) (t : time) : option (bool * time) :=
  match left with
  | O =>
      '(more, us) ← parse_fraction p remains;
      Some (more, mkTime (hour t) (minute t) (second t) us)
  | S left' =>
      '(v, p) ← parse_digits p 2 0;
      let t := set_component i v t in
      let c := peek p in
      let has_separator :=
        match i with 0%nat => Ascii.eqb c ":" | _ => has_separator end in
      if remains - 3 <=? 0 then Some (negb (Ascii.eqb c NUL), t)
      else if has_separator && Ascii.eqb c ":" then
        parse_hh_mm_ss left' (S i) (advance p) (remains - 3) has_separator t
      else if Ascii.eqb c "." || Ascii.eqb c "," then
        '(more, us) ← parse_fraction (advance p) (remains - 3);
        Some (more, mkTime (hour t) (minute t) (second t) us)
      else if negb has_separator then
        parse_hh_mm_ss left' (S i) p (remains - 2) has_separator t
      else None
  end.

(** [parse_hh_mm_ss_ff(tstr, tstr_end, ...)], the end [len] characters
    on. *)
Definition parse_hh_mm_ss_ff (tstr : string) (len : Z) : option (bool * time) :=
  parse_hh_mm_ss 3 0 tstr len true (mkTime 0 0 0 0).

Definition starts_offset (c : ascii) : bool :=
  Ascii.eqb c "Z" || Ascii.eqb c "+" || Ascii.eqb c "-".

(** The characters before the first ["Z"], ["+"] or ["-"]. *)
Fixpoint before_offset (p : string) : nat :=
  match p with
  | String c r => if starts_offset c then O else S (before_offset r)
  | EmptyString => O
  end.

Definition time_in_seconds (t : time) : Z :=
  (hour t * 60 + minute t) * 60 + second t.

(** [parse_isoformat_time]: the time of day and, when the text has one,
    the offset from UTC in microseconds. An offset whose whole seconds are
    none is UTC, whatever its fraction. *)
Definition parse_isoformat_time (dtstr : string) : option (time * option Z) :=
  let tzinfo_pos := before_offset dtstr in
  match parse_hh_mm_ss_ff dtstr (Z.of_nat tzinfo_pos) with
  | None => None
  | Some (more, t) =>
      if Nat.eqb tzinfo_pos (String.length dtstr) then
        if more then None else Some (t, None)
      else
        let tz := skip tzinfo_pos dtstr in
        if Ascii.eqb (peek tz) "Z" then
          if Ascii.eqb (peek (advance tz)) NUL then Some (t, Some 0) else None
        else
          let tzsign := if Ascii.eqb (peek tz) "-" then -1 else 1 in
          match parse_hh_mm_ss_ff (advance tz)
                  (Z.of_nat (String.length (advance tz))) with
          | None => None
          | Some (more, offset) =>
              if more then None
              else if time_in_seconds offset =? 0 then Some (t, Some 0)
              else Some (t, Some (tzsign * (time_in_seconds offset * us_per_second
                                            + microsecond offset)))
          end
  end.

(** The bytes of the UTF-8 character that starts with [c]. *)
Definition utf8_width (c : ascii) : nat :=
  let n := N_of_ascii c in
  if (n <? 128)%N then 1%nat
  else if (N.land n 240 =? 224)%N then 3%nat
  else if (N.land n 240 =? 240)%N then 4%nat
  else 2%nat.

Definition invalid_isoformat (date_string : string) : exn :=
  ValueError ("Invalid isoformat string: " +:+ PyStr.repr date_string).

(** The checks of the constructor, in its order. *)
Definition check_date_args (d : date) : result unit :=
  if (year d <? 1) || (9999 <? year d) then
    Raise (ValueError ("year " +:+ PyInt.decimal (year d) +:+ " is out of range"))
  else if (month d <? 1) || (12 <? month d) then
    Raise (ValueError "month must be in 1..12")
  else if (day d <? 1) || (days_in_month (year d) (month d) <? day d) then
    Raise (ValueError "day is out of range for month")
  else Ok ().

Definition check_time_args (t : time) : result unit :=
  if (hour t <? 0) || (23 <? hour t) then
    Raise (ValueError "hour must be in 0..23")
  else if (minute t <? 0) || (59 <? minute t) then
    Raise (ValueError "minute must be in 0..59")
  else if (second t <? 0) || (59 <? second t) then
    Raise (ValueError "second must be in 0..59")
  else if (microsecond t <? 0) || (999999 <? microsecond t) then
    Raise (ValueError "microsecond must be in 0..999999")
  else Ok ().

(** The date up to the separator, one character of any kind, the time. *)
Definition parse_isoformat (date_string : string) : option datetime :=
  let separator_location := find_isoformat_datetime_separator date_string in
  d ← parse_isoformat_date date_string separator_location;
  if separator_location <? Z.of_nat (String.length date_string) then
    let p := skip (Z.to_nat separator_location) date_string in
    '(t, tz) ← parse_isoformat_time (skip (utf8_width (peek p)) p);
    Some (mkDatetime d t tz)
  else Some (mkDatetime d (mkTime 0 0 0 0) None).

Definition fromisoformat (date_string : string) : result datetime :=
  match parse_isoformat date_string with
  | None => Raise (invalid_isoformat date_string)
  | Some dt =>
      _ ← match tzinfo dt with
          | Some offset => timezone offset
          | None => Ok 0
          end;
      _ ← check_date_args (dt_date dt);
      _ ← check_time_args (dt_time dt);
      Ok dt
  end.

(** *** Printing: [isoformat] *)

Definition digit_char (d : Z) : ascii := ascii_of_N (Z.to_N (48 + d mod 10)).

(** ["%0nd" % d] for a [d] of at most [n] digits: zero padded. *)
Fixpoint pad (n : nat) (d : Z) : string :=
  match n with
  | O => EmptyString
  | S n' => pad n' (d / 10) +:+ String (digit_char d) EmptyString
  end.

Definition isoformat_date (d : date) : string :=
  pad 4 (year d) +:+ "-" +:+ pad 2 (month d) +:+ "-" +:+ pad 2 (day d).

Definition isoformat_hms (h m s us : Z) (always_seconds : bool) : string :=
  pad 2 h +:+ ":" +:+ pad 2 m +:+
  (if always_seconds || negb (s =? 0) || negb (us =? 0)
   then ":" +:+ pad 2 s else "") +:+
  (if us =? 0 then "" else "." +:+ pad 6 us).

Definition isoformat_time (t : time) : string :=
  isoformat_hms (hour t) (minute t) (second t) (microsecond t) true.

(** The UTC offset suffix [+HH:MM[:SS[.ffffff]]]. *)
Definition isoformat_offset (off : Z) : string :=
  let a := Z.abs off in
  (if off <? 0 then "-" else "+") +:+
  isoformat_hms (a / us_per_hour) (a / (60 * us_per_second) mod 60)
                (a / us_per_second mod 60) (a mod us_per_second) false.

Definition isoformat (dt : datetime) : string :=
  isoformat_date (dt_date dt) +:+ "T" +:+ isoformat_time (dt_time dt) +:+
  match tzinfo dt with
  | Some off => isoformat_offset off
  | None => ""
  end.

(** [datetime.combine(d, t).replace(tzinfo=tz)] *)
Definition combine_with_tz (d : date) (t : time) (tz : Z) : datetime :=
  {| dt_date := d; dt_time := t; tzinfo := Some tz |}.

End datetime.

(** ** Python values of request bodies *)

#[warnings="-register-all"]
Inductive pyval : Type :=
| PNone
| PBool (b : bool)
| PInt (n : Z)
| PStr (s : string)
| PList (l : list pyval)
| PDict (d : gmap string pyval).

Definition is_None (v : pyval) : bool :=
  match v with PNone => true | _ => false end.

(** A method of [str] called on a value: [AttributeError] on any other. *)
Definition as_str (method : string) (v : pyval) : result string :=
  match v with
  | PStr s => Ok s
  | PNone =>
      Raise (AttributeError
        ("'NoneType' object has no attribute '" +:+ method +:+ "'"))
  | _ => Raise (AttributeError ("object has no attribute '" +:+ method +:+ "'"))
  end.

(** A field of a pydantic model declared [Optional[...] = Field(None)]:
    [None] when the request did not set it, [Some None] when it set it to
    null, [Some (Some a)] when it set it to [a]. *)
Definition field (A : Type) : Type := option (option A).

(** The entry a field contributes to [.dict(exclude_unset=True)]. *)
Definition set_field {A} (key : string) (conv : A → pyval) (f : field A)
    (d : gmap string pyval) : gmap string pyval :=
  match f with
  | None => d
  | Some None => <[key := PNone]> d
  | Some (Some a) => <[key := conv a]> d
  end.

Record EventDateTime : Type := mkEventDateTime {
  date : field string;
  dateTime : field string;
  timeZone : field string
}.

Definition EventDateTime_dict (e : EventDateTime) : gmap string pyval :=
  set_field "date" PStr (date e)
    (set_field "dateTime" PStr (dateTime e)
      (set_field "timeZone" PStr (timeZone e) ∅)).

Record CalendarEventCreate : Type := mkCalendarEventCreate {
  summary : string;
  location : field string;
  description : field string;
  start : EventDateTime;
  end_ : EventDateTime;
  attendees : field (list (gmap string string));
  reminders : field (gmap string pyval);
  recurrence : field (list string)
}.

Definition CalendarEventCreate_dict (e : CalendarEventCreate) : gmap string pyval :=
  set_field "recurrence" (λ l, PList (PStr <$> l)) (recurrence e)
    (set_field "reminders" PDict (reminders e)
      (set_field "attendees" (λ l, PList ((λ a, PDict (PStr <$> a)) <$> l)) (attendees e)
        (<["end" := PDict (EventDateTime_dict (end_ e))]>
          (<["start" := PDict (EventDateTime_dict (start e))]>
            (set_field "description" PStr (description e)
              (set_field "location" PStr (location e)
                (<["summary" := PStr (summary e)]> ∅))))))).

Record CalendarEventUpdate : Type := mkCalendarEventUpdate {
  u_start : field EventDateTime;
  u_end : field EventDateTime;
  u_summary : field string;
  u_description : field string;
  u_location : field string
}.

Definition CalendarEventUpdate_dict (u : CalendarEventUpdate) : gmap string pyval :=
  set_field "location" PStr (u_location u)
    (set_field "description" PStr (u_description u)
      (set_field "summary" PStr (u_summary u)
        (set_field "end" (λ e, PDict (EventDateTime_dict e)) (u_end u)
          (set_field "start" (λ e, PDict (EventDateTime_dict e)) (u_start u) ∅)))).

(** ** Calendar service *)

(** The [start] or [end] of an event resource; a missing key is [None]. *)
Record EventTime : Type := mkEventTime {
  et_dateTime : option string;
  et_date : option string;
  et_timeZone : option string
}.

(** An event resource of the Calendar API. *)
Record Event : Type := mkEvent {
  ev_id : option string;
  ev_summary : option string;
  ev_start : option EventTime;
  ev_end : option EventTime;
  ev_htmlLink : option string;
  ev_status : option string;
  ev_created : option string;
  ev_updated : option string
}.

Record EventsResult : Type := mkEventsResult {
  items : option (list Event)
}.

Inductive calendar_call : Type :=
| EventsList (calendarId timeMin timeMax : string) (maxResults : Z)
    (singleEvents : bool) (orderBy : string)
| EventsInsert (calendarId : string) (body : gmap string pyval)
    (sendUpdates : string)
| EventsUpdate (calendarId eventId : string) (body : gmap string pyval).

Record CalendarService : Type := mkCalendarService {
  events_list : string → string → string → Z → bool → string → result EventsResult;
  events_insert : string → gmap string pyval → string → result Event;
  events_update : string → string → gmap string pyval → result Event
}.

Record SimplifiedEvent : Type := mkSimplifiedEvent {
  se_eventId : option string;
  se_summary : string;
  se_start : string;
  se_end : option string
}.

(** [a or b] on two optional strings: [a] when it is a non-empty string. *)
Definition py_or (a b : option string) : option string :=
  match a with
  | Some s => if PyStr.truthy s then a else b
  | None => b
  end.

(** A method of [str] called on an optional string: [AttributeError] on
    [None]. *)
Definition str_of (method : string) (o : option string) : result string :=
  match o with
  | Some s => Ok s
  | None =>
      Raise (AttributeError
        ("'NoneType' object has no attribute '" +:+ method +:+ "'"))
  end.

(** The date the listing computes for a start value (lines 234-236). *)
Definition event_date (start : string) : result datetime.date :=
  datetime.dt_date <$> datetime.fromisoformat (PyStr.replace_char "Z" "+00:00" start).

Definition date_eqb (a b : datetime.date) : bool :=
  (datetime.year a =? datetime.year b) &&
  (datetime.month a =? datetime.month b) &&
  (datetime.day a =? datetime.day b).

(** The [for event in events] loop of [get_calendar_events]; [today] is
    [datetime.datetime.now(tz=datetime.timezone.utc)]. *)
Fixpoint simplify_events (today : datetime.datetime) (events : list Event)
    (simplified_events : list SimplifiedEvent) : result (list SimplifiedEvent) :=
  match events with
  | [] => Ok simplified_events
  | event :: rest =>
      st ← subscript "start" (ev_start event);
      start ← str_of "replace" (py_or (et_dateTime st) (et_date st));
      event_date ← event_date start;
      if date_eqb event_date (datetime.dt_date today) then
        en ← subscript "end" (ev_end event);
        simplify_events today rest
          (simplified_events ++
             [{| se_eventId := ev_id event;
                 se_summary := default "No Title" (ev_summary event);
                 se_start := start;
                 se_end := py_or (et_dateTime en) (et_date en) |}])
      else simplify_events today rest simplified_events
  end.

(** [today.replace(hour=h, minute=m, second=s, microsecond=us)] *)
Definition replace_time (dt : datetime.datetime) (h m s us : Z) : datetime.datetime :=
  {| datetime.dt_date := datetime.dt_date dt;
     datetime.dt_time := datetime.mkTime h m s us;
     datetime.tzinfo := datetime.tzinfo dt |}.

Definition get_calendar_events (service : CalendarService)
    (today : datetime.datetime) : io calendar_call (list SimplifiedEvent) :=
  try_except
    (let start_of_day := replace_time today 0 0 0 0 in
     let end_of_day := replace_time start_of_day 23 59 59 999999 in
     events_result ←
       execute (EventsList "primary" (datetime.isoformat start_of_day)
                  (datetime.isoformat end_of_day) 10 true "startTime")
               (events_list service "primary" (datetime.isoformat start_of_day)
                  (datetime.isoformat end_of_day) 10 true "startTime");
     let events := default [] (items events_result) in
     match events with
     | [] => mret []
     | _ => lift (simplify_events today events [])
     end)
    (λ _, true)
    (λ e, raise (HTTPException 500 (str_exn e))).

(** ** Creating an event *)

Definition default_timezone : string := "Asia/Kuala_Lumpur".

(** The local function [adjust_datetime] of [create_calendar_event];
    [today] is the UTC date it closes over. *)
Definition adjust_datetime (today : datetime.date) (dt_str timezone_str : pyval)
    : result string :=
  s ← as_str "replace" dt_str;
  dt ← datetime.fromisoformat (PyStr.replace_char "Z" "+00:00" s);
  z ← as_str "split" timezone_str;
  hours ← PyInt.int (PyStr.split_head ":" z);
  tz ← datetime.timezone_of_hours hours;
  let adjusted_dt := datetime.combine_with_tz today (datetime.dt_time dt) tz in
  Ok (datetime.isoformat adjusted_dt).

(** [d.get(key, default)] *)
Definition dict_get (d : gmap string pyval) (key : string) (dflt : pyval) : pyval :=
  default dflt (d !! key).

(** [event_dict[key]] for [start] and [end]: in the dict of a
    [CalendarEventCreate] these are always the dicts of an [EventDateTime]. *)
Definition sub_dict (event_dict : gmap string pyval) (key : string)
    : option (gmap string pyval) :=
  match event_dict !! key with
  | Some (PDict d) => Some d
  | _ => None
  end.

(** Lines 358-362. *)
Definition adjust_start (today : datetime.date) (event_dict : gmap string pyval)
    : result (gmap string pyval) :=
  match sub_dict event_dict "start" with
  | Some st =>
      match st !! "dateTime" with
      | Some dt =>
          let timezone := dict_get st "timeZone" (PStr default_timezone) in
          adjusted ← adjust_datetime today dt timezone;
          Ok (<["start" := PDict (<["dateTime" := PStr adjusted]> st)]> event_dict)
      | None => Ok event_dict
      end
  | None => Ok event_dict
  end.

(** Lines 364-372. *)
Definition adjust_end (today : datetime.date) (event_dict : gmap string pyval)
    : result (gmap string pyval) :=
  match sub_dict event_dict "end" with
  | Some en =>
      match en !! "dateTime" with
      | Some dt =>
          let timezone :=
            dict_get en "timeZone"
              (dict_get (default ∅ (sub_dict event_dict "start")) "timeZone"
                 (PStr default_timezone)) in
          adjusted ← adjust_datetime today dt timezone;
          Ok (<["end" := PDict (<["dateTime" := PStr adjusted]> en)]> event_dict)
      | None => Ok event_dict
      end
  | None => Ok event_dict
  end.

Record CreatedEvent : Type := mkCreatedEvent {
  ce_eventId : option string;
  ce_htmlLink : option string;
  ce_summary : option string;
  ce_status : option string;
  ce_created : option string;
  ce_updated : option string;
  ce_start : option string;
  ce_end : option string;
  ce_timeZone : option string
}.

(** [now_utc] is [datetime.datetime.now(tz=datetime.timezone.utc)]. *)
Definition create_calendar_event (service : CalendarService)
    (now_utc : datetime.datetime) (event_data : CalendarEventCreate)
    : io calendar_call CreatedEvent :=
  try_except
    (let today := datetime.dt_date now_utc in
     let event_dict := CalendarEventCreate_dict event_data in
     event_dict ← lift (adjust_start today event_dict);
     event_dict ← lift (adjust_end today event_dict);
     event ← execute (EventsInsert "primary" event_dict "all")
                     (events_insert service "primary" event_dict "all");
     mret {| ce_eventId := ev_id event;
             ce_htmlLink := ev_htmlLink event;
             ce_summary := ev_summary event;
             ce_status := ev_status event;
             ce_created := ev_created event;
             ce_updated := ev_updated event;
             ce_start := ev_start event ≫= et_dateTime;
             ce_end := ev_end event ≫= et_dateTime;
             ce_timeZone := ev_start event ≫= et_timeZone |})
    (λ _, true)
    (λ e, raise (HTTPException 500 (str_exn e))).

(** ** Updating an event *)

(** The dict comprehension of lines 431-435. *)
Definition update_dict (update_data : CalendarEventUpdate) : gmap string pyval :=
  filter (λ kv, is_None kv.2 = false) (CalendarEventUpdate_dict update_data).

Definition update_calendar_event (service : CalendarService) (event_id : string)
    (update_data : CalendarEventUpdate) : io calendar_call Event :=
  try_except
    (let update_dict := update_dict update_data in
     updated_event ← execute (EventsUpdate "primary" event_id update_dict)
                             (events_update service "primary" event_id update_dict);
     mret updated_event)
    (λ _, true)
    (λ e, raise (HTTPException 500 (str_exn e))).

(** ** Health check *)

(** What the global [datetime] of [main.py] is bound to: [import datetime]
    binds the module, whose attributes are these objects. *)
Inductive pyobject : Type :=
| Class (qualname : string)
| Constant (n : Z)
| Timezone_utc
| Capsule.

(** [getattr(datetime, attr)] on the module. *)
Definition module_getattr (attr : string) : result pyobject :=
  if String.eqb attr "datetime" then Ok (Class "datetime.datetime")
  else if String.eqb attr "date" then Ok (Class "datetime.date")
  else if String.eqb attr "time" then Ok (Class "datetime.time")
  else if String.eqb attr "timedelta" then Ok (Class "datetime.timedelta")
  else if String.eqb attr "timezone" then Ok (Class "datetime.timezone")
  else if String.eqb attr "tzinfo" then Ok (Class "datetime.tzinfo")
  else if String.eqb attr "UTC" then Ok Timezone_utc
  else if String.eqb attr "MINYEAR" then Ok (Constant 1)
  else if String.eqb attr "MAXYEAR" then Ok (Constant 9999)
  else if String.eqb attr "datetime_CAPI" then Ok Capsule
  else Raise (AttributeError
         ("module 'datetime' has no attribute '" +:+ attr +:+ "'")).

(** [f().isoformat()] for an attribute [f] of the module: only [time] can be
    called without arguments and has the method. *)
Definition call0_isoformat (f : pyobject) : result string :=
  match f with
  | Class "datetime.time" => Ok (datetime.isoformat_time (datetime.mkTime 0 0 0 0))
  | Class "datetime.timedelta" =>
      Raise (AttributeError "'datetime.timedelta' object has no attribute 'isoformat'")
  | Class "datetime.tzinfo" =>
      Raise (AttributeError "'datetime.tzinfo' object has no attribute 'isoformat'")
  | Class _ => Raise (TypeError "function missing required argument")
  | _ => Raise (TypeError "object is not callable")
  end.

Record Health : Type := mkHealth {
  status : string;
  timestamp : string
}.

(** [{"status": "healthy", "timestamp": datetime.now().isoformat()}] with
    the global [datetime] of [main.py]; the handler has no [try]. *)
Definition health_check : result Health :=
  now ← module_getattr "now";
  timestamp ← call0_isoformat now;
  Ok {| status := "healthy"; timestamp := timestamp |}.

(** ** Vocabulary of the statements *)

(** A header is "named [n]" when its name, lowercased, is [n]. *)
Definition header_named (n : string) (h : Header) : bool :=
  String.eqb (PyStr.lower (default "" (name h))) n.

(** The value of the first header named [n], the empty string without one. *)
Definition first_header_value (n : string) (hs : list Header) : string :=
  match List.find (header_named n) hs with
  | Some h => default "" (value h)
  | None => ""
  end.

Definition count_named (n : string) (hs : list Header) : nat :=
  length (List.filter (header_named n) hs).

(** The value a field carries when it was set to something other than null. *)
Definition non_null {A} (f : field A) : option A :=
  match f with
  | Some (Some a) => Some a
  | _ => None
  end.

(** The text [±HH:MM] of an offset. *)
Definition offset_string (negative : bool) (hh mm : Z) : string :=
  (if negative then "-" else "+") +:+ datetime.pad 2 hh +:+ ":" +:+ datetime.pad 2 mm.

(** The offset [±HH:00] as a [timezone] holds it, in microseconds. *)
Definition whole_hours (negative : bool) (hh : Z) : Z :=
  (if negative then - hh else hh) * datetime.us_per_hour.

(** A text starts with "re:" in any case: its first three characters are
    an r, an e and a colon, the letters small or capital. *)
Definition starts_with_re (s : string) : bool :=
  match s with
  | String c1 (String c2 (String c3 _)) =>
      (Ascii.eqb c1 "r" || Ascii.eqb c1 "R") &&
      (Ascii.eqb c2 "e" || Ascii.eqb c2 "E") &&
      Ascii.eqb c3 ":"
  | _ => false
  end.

(** The subject the specification gives a reply to a text. *)
Definition re_prefixed (s : string) : string :=
  if starts_with_re s then s else "Re: " +:+ s.

(** The message of a reply with the headers [hs] assigned so far. *)
Definition reply_message (reply_request : ReplyRequest)
    (hs : list (string * string)) : EmailMessage :=
  {| content := Some (body reply_request); assigned := hs |}.

(** The headers [reply_to_email] assigns, in the order it assigns them,
    for the subject [subject]. *)
Definition reply_headers (reply_request : ReplyRequest) (subject : string)
    : list (string * string) :=
  [ ("To", to reply_request);
    ("From", "me");
    ("Subject", subject);
    ("In-Reply-To", message_id reply_request);
    ("References", message_id reply_request) ].

(** The message [reply_to_email] has composed when it reaches the send call,
    for an original message of snippet [snippet]. *)
Definition composed_reply (reply_request : ReplyRequest) (snippet : string)
    : EmailMessage :=
  reply_message reply_request (reply_headers reply_request (reply_subject snippet)).

(** The first exception of a sequence of library calls, if one raises. *)
Fixpoint first_error (answers : list (option exn)) : option exn :=
  match answers with
  | [] => None
  | Some e :: _ => Some e
  | None :: rest => first_error rest
  end.

(** The exception with which the library stops the composition of a reply
    before the original message is fetched: at [set_content], at the
    assignment of To or at that of From. *)
Definition refused_before_fetch (library : EmailLibrary)
    (reply_request : ReplyRequest) : option exn :=
  let hs := reply_headers reply_request "" in
  first_error
    [ set_content_error library email.new (body reply_request);
      setitem_error library (reply_message reply_request []) "To" (to reply_request);
      setitem_error library (reply_message reply_request (take 1 hs)) "From" "me" ].

(** The exception with which the library stops the composition once the
    original message, of snippet [snippet], is fetched: at the assignment of
    Subject, In-Reply-To or References, or at the serialisation. *)
Definition refused_after_fetch (library : EmailLibrary)
    (reply_request : ReplyRequest) (snippet : string) : option exn :=
  let hs := reply_headers reply_request (reply_subject snippet) in
  first_error
    [ setitem_error library (reply_message reply_request (take 2 hs))
                    "Subject" (reply_subject snippet);
      setitem_error library (reply_message reply_request (take 3 hs))
                    "In-Reply-To" (message_id reply_request);
      setitem_error library (reply_message reply_request (take 4 hs))
                    "References" (message_id reply_request);
      as_bytes_error library (reply_message reply_request hs) ].

(** What the handler makes of the exception of a remote call. *)
Definition swallow_HttpError {A} (e : exn) : result (option A) :=
  if is_HttpError e then Ok None else Raise e.

(** ** Sample values *)

(** A mail service that holds one message, of snippet "meeting notes", and
    accepts what is sent. *)
Definition sample_gmail : GmailService :=
  {| messages_list := λ _ _ _, Ok {| messages := Some [] |};
     messages_get := λ _ i _,
       Ok {| id := Some i; snippet := Some "meeting notes"; payload := None |};
     messages_send := λ _ _, Ok {[ "id" := "sent-1" ]} |}.

(** A mail service whose every call the remote API answers with an error. *)
Definition failing_gmail : GmailService :=
  {| messages_list := λ _ _ _, Raise (HttpError 503 "backend error");
     messages_get := λ _ _ _, Raise (HttpError 404 "not found");
     messages_send := λ _ _, Raise (HttpError 403 "forbidden") |}.

(** A mail service that finds the message but refuses the send. *)
Definition send_failing_gmail : GmailService :=
  {| messages_list := messages_list sample_gmail;
     messages_get := messages_get sample_gmail;
     messages_send := λ _ _, Raise (HttpError 403 "forbidden") |}.

Definition sample_reply : ReplyRequest :=
  {| message_id := "abc123"; to := "x@y.com"; body := "Thanks"; reply_all := false |}.

(** The answers of the [email] library, under its default policy, on the
    texts of the examples: it refuses the recipient "<" with an
    [IndexError], it stores the subject "Re: =?utf-8?q?Hi_there?=", which
    ends in an RFC 2047 encoded word, decoded, and it keeps the other texts
    of the examples as they are. *)
Definition sample_email : EmailLibrary :=
  {| set_content_error := λ _ _, None;
     setitem_error := λ _ name value,
       if String.eqb name "To" && String.eqb value "<"
       then Some (IndexError "string index out of range") else None;
     stored_text := λ name value,
       if String.eqb name "Subject" && String.eqb value "Re: =?utf-8?q?Hi_there?="
       then "Re: Hi there" else value;
     as_bytes_error := λ _, None |}.

(** A mail service whose one message has an encoded word for snippet. *)
Definition encoded_word_gmail : GmailService :=
  {| messages_list := messages_list sample_gmail;
     messages_get := λ _ i _,
       Ok {| id := Some i; snippet := Some "=?utf-8?q?Hi_there?="; payload := None |};
     messages_send := messages_send sample_gmail |}.

(** A reply to a recipient the library refuses. *)
Definition malformed_recipient_reply : ReplyRequest :=
  {| message_id := "abc123"; to := "<"; body := "Thanks"; reply_all := false |}.

(** A calendar that lists three events, two of them starting on
    2025-10-01, and accepts inserts and updates. *)
Definition sample_calendar : CalendarService :=
  {| events_list := λ _ _ _ _ _ _,
       Ok {| items := Some
         [ {| ev_id := Some "e1"; ev_summary := None;
              ev_start := Some {| et_dateTime := Some "2025-10-01T09:00:00Z";
                                  et_date := None; et_timeZone := None |};
              ev_end := Some {| et_dateTime := Some "2025-10-01T10:00:00Z";
                                et_date := None; et_timeZone := None |};
              ev_htmlLink := None; ev_status := None;
              ev_created := None; ev_updated := None |};
           {| ev_id := Some "e2"; ev_summary := Some "Late call";
              ev_start := Some {| et_dateTime := Some "2025-10-02T01:00:00+08:00";
                                  et_date := None; et_timeZone := None |};
              ev_end := Some {| et_dateTime := Some "2025-10-02T02:00:00+08:00";
                                et_date := None; et_timeZone := None |};
              ev_htmlLink := None; ev_status := None;
              ev_created := None; ev_updated := None |};
           {| ev_id := Some "e3"; ev_summary := Some "Holiday";
              ev_start := Some {| et_dateTime := None;
                                  et_date := Some "2025-10-01"; et_timeZone := None |};
              ev_end := Some {| et_dateTime := None;
                                et_date := Some "2025-10-02"; et_timeZone := None |};
              ev_htmlLink := None; ev_status := None;
              ev_created := None; ev_updated := None |} ] |};
     events_insert := λ _ _ _,
       Ok {| ev_id := Some "new-1"; ev_summary := None; ev_start := None;
             ev_end := None; ev_htmlLink := None; ev_status := Some "confirmed";
             ev_created := None; ev_updated := None |};
     events_update := λ _ i _,
       Ok {| ev_id := Some i; ev_summary := None; ev_start := None;
             ev_end := None; ev_htmlLink := None; ev_status := Some "confirmed";
             ev_created := None; ev_updated := None |} |}.

(** The clock at 2025-10-01 12:30:00 UTC. *)
Definition sample_now : datetime.datetime :=
  {| datetime.dt_date := datetime.mkDate 2025 10 1;
     datetime.dt_time := datetime.mkTime 12 30 0 0;
     datetime.tzinfo := Some 0 |}.

(** An update that sets only the summary. *)
Definition only_summary : CalendarEventUpdate :=
  {| u_start := None; u_end := None; u_summary := Some (Some "New Title");
     u_description := None; u_location := None |}.

(** The dict entry of a field: absent, null or a string. *)
Definition field_value (f : field string) : option pyval :=
  match f with
  | None => None
  | Some None => Some PNone
  | Some (Some s) => Some (PStr s)
  end.

(** The dict that goes out for a [start] or an [end]: each of [date],
    [dateTime] and [timeZone] that the request set is in it with the value
    it was given, a null too, and nothing else is. *)
Definition carries_fields (x : EventDateTime) (d : gmap string pyval) : Prop :=
  d !! "date" = field_value (date x) ∧
  d !! "dateTime" = field_value (dateTime x) ∧
  d !! "timeZone" = field_value (timeZone x) ∧
  ∀ k, k ∉ ["date"; "dateTime"; "timeZone"] → d !! k = None.

(** An update that sets only the start, to a time and its zone. *)
Definition only_start : CalendarEventUpdate :=
  {| u_start := Some (Some {| date := None;
                              dateTime := Some (Some "2025-09-22T09:00:00+08:00");
                              timeZone := Some (Some "Asia/Kuala_Lumpur") |});
     u_end := None; u_summary := None; u_description := None; u_location := None |}.

(** The timezone for [end.dateTime] as the specification words it:
    [end.timeZone] when present, otherwise [start.timeZone] when present,
    otherwise the fixed default. *)
Definition end_timezone (e : CalendarEventCreate) : pyval :=
  match field_value (timeZone (end_ e)) with
  | Some v => v
  | None =>
      match field_value (timeZone (start e)) with
      | Some v => v
      | None => PStr default_timezone
      end
  end.

(** The example request of the docstring of [create_calendar_event]. *)
Definition docstring_example : CalendarEventCreate :=
  {| summary := "Test Event";
     location := Some (Some "Meeting Room 1");
     description := Some (Some "Test meeting description");
     start := {| date := None;
                 dateTime := Some (Some "2025-09-22T09:00:00+08:00");
                 timeZone := Some (Some "Asia/Kuala_Lumpur") |};
     end_ := {| date := None;
                dateTime := Some (Some "2025-09-22T10:00:00+08:00");
                timeZone := Some (Some "Asia/Kuala_Lumpur") |};
     attendees := Some (Some [ {[ "email" := "attendee@example.com" ]} ]);
     reminders := None;
     recurrence := None |}.

(** The scenario of the specification: the same times with the offset
    written out as the timezone. *)
Definition offset_example : CalendarEventCreate :=
  {| summary := "Test Event";
     location := None;
     description := None;
     start := {| date := None;
                 dateTime := Some (Some "2025-09-22T09:00:00+08:00");
                 timeZone := Some (Some "+08:00") |};
     end_ := {| date := None;
                dateTime := Some (Some "2025-09-22T10:00:00+08:00");
                timeZone := None |};
     attendees := None;
     reminders := None;
     recurrence := None |}.

(** ** Vocabulary and samples of the further properties *)

(** The error [get_emails] raises for an exception [e] of its body. *)
Definition gmail_error (e : exn) : exn :=
  if is_RequestException e
  then HTTPException 500 ("Gmail API error: " +:+ str_exn e)
  else HTTPException 500 ("Unexpected error: " +:+ str_exn e).

(** The exception that ends the body of [get_emails]: the one the list
    call is answered with, or the one that ends the loop over the listed
    messages. *)
Definition get_emails_ended_by (service : GmailService) (label : option string)
    (cause : exn) : Prop :=
  messages_list service "me" (label_query label) 10 = Raise cause ∨
  ∃ results,
    messages_list service "me" (label_query label) 10 = Ok results ∧
    outcome (fetch_details service (default [] (messages results)) []) = Raise cause.

(** The get call [get_emails] makes for a listed message. *)
Definition detail_call (message : Message) : gmail_call :=
  MessagesGet "me" (default "" (id message)) (Some "full").

(** A listed message is fetched and normalised to [d]. *)
Definition fetched_as (service : GmailService) (message : Message)
    (d : EmailSummary) : Prop :=
  ∃ i msg, id message = Some i ∧
           messages_get service "me" i (Some "full") = Ok msg ∧
           get_message_data msg = Ok d.

(** A mailbox of two messages; the list call answers with their ids. *)
Definition inbox_gmail : GmailService :=
  {| messages_list := λ _ _ _,
       Ok {| messages := Some
         [ {| id := Some "m1"; snippet := None; payload := None |};
           {| id := Some "m2"; snippet := None; payload := None |} ] |};
     messages_get := λ _ i _,
       Ok {| id := Some i; snippet := Some "preview";
             payload := Some {| headers := Some
               [ {| name := Some "Subject"; value := Some ("About " +:+ i) |};
                 {| name := Some "From"; value := Some "a@b.c" |} ] |} |};
     messages_send := λ _ _, Ok {[ "id" := "sent-1" ]} |}.

(** The same mailbox when the second message cannot be fetched. *)
Definition broken_inbox_gmail : GmailService :=
  {| messages_list := messages_list inbox_gmail;
     messages_get := λ u i f,
       if String.eqb i "m2" then Raise (HttpError 404 "not found")
       else messages_get inbox_gmail u i f;
     messages_send := messages_send inbox_gmail |}.

(** A mail service whose list call times out in the HTTP client. *)
Definition timed_out_gmail : GmailService :=
  {| messages_list := λ _ _ _, Raise (RequestException "timed out");
     messages_get := messages_get inbox_gmail;
     messages_send := messages_send inbox_gmail |}.

(** A mail service that cannot be reached. *)
Definition unreachable_gmail : GmailService :=
  {| messages_list := λ _ _ _, Raise (TransportError "connection refused");
     messages_get := λ _ _ _, Raise (TransportError "connection refused");
     messages_send := λ _ _, Raise (TransportError "connection refused") |}.

(** The simplified form of a raw event whose start value is [start] and
    whose end is [en]. *)
Definition simplified (event : Event) (start : string) (en : EventTime)
    : SimplifiedEvent :=
  {| se_eventId := ev_id event;
     se_summary := default "No Title" (ev_summary event);
     se_start := start;
     se_end := py_or (et_dateTime en) (et_date en) |}.

(** The text of the offset of a datetime, empty for a naive one. *)
Definition offset_text (dt : datetime.datetime) : string :=
  match datetime.tzinfo dt with
  | Some off => datetime.isoformat_offset off
  | None => ""
  end.

(** A zone name, as opposed to an offset: a text that starts with a
    letter. *)
Definition starts_with_letter (z : string) : bool :=
  match z with
  | String c _ =>
      let n := N_of_ascii c in
      (((65 <=? n) && (n <=? 90)) || ((97 <=? n) && (n <=? 122)))%N
  | EmptyString => false
  end.

(** A calendar whose list call answers with nothing. *)
Definition empty_calendar : CalendarService :=
  {| events_list := λ _ _ _ _ _ _, Ok {| items := None |};
     events_insert := events_insert sample_calendar;
     events_update := events_update sample_calendar |}.

(** A calendar that lists one event of another day whose start is no
    ISO text. *)
Definition malformed_calendar : CalendarService :=
  {| events_list := λ _ _ _ _ _ _,
       Ok {| items := Some
         [ {| ev_id := Some "e9"; ev_summary := None;
              ev_start := Some {| et_dateTime := Some "tomorrow";
                                  et_date := None; et_timeZone := None |};
              ev_end := None;
              ev_htmlLink := None; ev_status := None;
              ev_created := None; ev_updated := None |} ] |};
     events_insert := events_insert sample_calendar;
     events_update := events_update sample_calendar |}.

(** A calendar that answers every call with an error of the remote API. *)
Definition failing_calendar : CalendarService :=
  {| events_list := λ _ _ _ _ _ _, Raise (HttpError 403 "forbidden");
     events_insert := λ _ _ _, Raise (HttpError 403 "forbidden");
     events_update := λ _ _ _, Raise (HttpError 404 "not found") |}.

(** An all-day event: [date] in start and end, no [dateTime]. *)
Definition all_day_example : CalendarEventCreate :=
  {| summary := "Holiday";
     location := None;
     description := None;
     start := {| date := Some (Some "2025-12-25"); dateTime := None;
                 timeZone := Some (Some "Asia/Kuala_Lumpur") |};
     end_ := {| date := Some (Some "2025-12-26"); dateTime := None;
                timeZone := None |};
     attendees := None;
     reminders := None;
     recurrence := Some (Some ["RRULE:FREQ=YEARLY"]) |}.

(** A payload whose [start.dateTime] is set to null. *)
Definition null_start_example : CalendarEventCreate :=
  {| summary := "Broken";
     location := None;
     description := None;
     start := {| date := None; dateTime := Some None;
                 timeZone := Some (Some "+08:00") |};
     end_ := {| date := None; dateTime := None; timeZone := None |};
     attendees := None;
     reminders := None;
     recurrence := None |}.

(** An update whose [start] carries a null [dateTime]. *)
Definition nested_null_update : CalendarEventUpdate :=
  {| u_start := Some (Some {| date := Some (Some "2025-10-01");
                              dateTime := Some None; timeZone := None |});
     u_end := None; u_summary := None;
     u_description := Some None; u_location := None |}.

(** An update that sets nothing but a null. *)
Definition empty_update : CalendarEventUpdate :=
  {| u_start := None; u_end := None; u_summary := None;
     u_description := Some None; u_location := None |}.

(** The projection [create_calendar_event] returns of a created event. *)
Definition created_projection (event : Event) : CreatedEvent :=
  {| ce_eventId := ev_id event;
     ce_htmlLink := ev_htmlLink event;
     ce_summary := ev_summary event;
     ce_status := ev_status event;
     ce_created := ev_created event;
     ce_updated := ev_updated event;
     ce_start := ev_start event ≫= et_dateTime;
     ce_end := ev_end event ≫= et_dateTime;
     ce_timeZone := ev_start event ≫= et_timeZone |}.

(** * Properties *)

(** ** Message Normalizer *)

Lemma find_none_count_named n hs :
  count_named n hs = 0%nat → List.find (header_named n) hs = None.
Proof.
  unfold count_named. induction hs as [|h hs IH]; simpl; [done|].
  destruct (header_named n h); simpl; [discriminate | exact IH].
Qed.

Lemma count_named_cons n h hs :
  count_named n (h :: hs) =
    ((if header_named n h then 1 else 0) + count_named n hs)%nat.
Proof. unfold count_named. simpl. by destruct (header_named n h). Qed.

(** One turn of the loop. *)
Lemma scan_headers_cons h hs s f :
  scan_headers (h :: hs) s f =
    if header_named "subject" h then scan_headers hs (default "" (value h)) f
    else if header_named "from" h then
      if PyStr.truthy s && PyStr.truthy (default "" (value h))
      then (s, default "" (value h))
      else scan_headers hs s (default "" (value h))
    else scan_headers hs s f.
Proof. reflexivity. Qed.

Lemma header_named_subject_from h :
  header_named "subject" h = true → header_named "from" h = false.
Proof.
  unfold header_named. intros H%String.eqb_eq. by rewrite H.
Qed.

(** The loop under the precondition that neither name occurs twice: each
    accumulator ends as the value of the header of its name, or stays. *)
Lemma scan_headers_unique hs :
  ∀ s f,
    (count_named "subject" hs ≤ 1)%nat →
    (count_named "from" hs ≤ 1)%nat →
    (s ≠ "" → count_named "subject" hs = 0%nat) →
    scan_headers hs s f =
      (match List.find (header_named "subject") hs with
       | Some h => default "" (value h) | None => s end,
       match List.find (header_named "from") hs with
       | Some h => default "" (value h) | None => f end).
Proof.
  induction hs as [|h hs IH]; intros s f Hs Hf Hacc; [done|].
  rewrite scan_headers_cons. rewrite !count_named_cons in *. simpl List.find.
  destruct (header_named "subject" h) eqn:Esub.
  - rewrite (header_named_subject_from h Esub) in *.
    assert (H0 : count_named "subject" hs = 0%nat) by lia.
    rewrite IH; [| lia | exact Hf | intros _; exact H0].
    by rewrite (find_none_count_named _ _ H0).
  - destruct (header_named "from" h) eqn:Efrom.
    + assert (H0 : count_named "from" hs = 0%nat) by lia.
      destruct (PyStr.truthy s && PyStr.truthy (default "" (value h))) eqn:Eb.
      * assert (Hne : s ≠ "") by (intros ->; discriminate).
        by rewrite (find_none_count_named "subject" hs (Hacc Hne)).
      * rewrite IH; [| exact Hs | lia | exact Hacc].
        by rewrite (find_none_count_named _ _ H0).
    + apply IH; assumption.
Qed.

(** C1, as the code has it: when the header list names "subject" at most
    once and "from" at most once (case-insensitively), [get_message_data]
    returns that subject header's value and that from header's value whatever
    the order of the headers, and the empty string for a header that is
    absent; the only failure left is a message without an id. *)
Theorem get_message_data_unique_headers (m : Message) (hs : list Header) :
  payload m = Some {| headers := Some hs |} →
  (count_named "subject" hs ≤ 1)%nat →
  (count_named "from" hs ≤ 1)%nat →
  get_message_data m =
    (i ← subscript "id" (id m);
     Ok {| email_id := i;
           es_snippet := default "" (snippet m);
           subject := first_header_value "subject" hs;
           from_ := first_header_value "from" hs |}).
Proof.
  intros Hp Hs Hf. unfold get_message_data, message_headers. rewrite Hp. simpl.
  rewrite (scan_headers_unique hs "" "" Hs Hf) by done.
  reflexivity.
Qed.

Lemma get_message_data_unique_headers_witness :
  get_message_data
    {| id := Some "m1"; snippet := Some "hello";
       payload := Some {| headers := Some
         [ {| name := Some "From"; value := Some "a@b.c" |};
           {| name := Some "Date"; value := Some "today" |};
           {| name := Some "SUBJECT"; value := Some "Hi" |} ] |} |}
  = Ok {| email_id := "m1"; es_snippet := "hello";
          subject := "Hi"; from_ := "a@b.c" |}.
Proof.
  rewrite (get_message_data_unique_headers _
    [ {| name := Some "From"; value := Some "a@b.c" |};
      {| name := Some "Date"; value := Some "today" |};
      {| name := Some "SUBJECT"; value := Some "Hi" |} ]);
    [reflexivity | reflexivity | vm_compute; lia | vm_compute; lia].
Defined.

(** C1 as stated fails: of two headers named "subject" before the "from"
    header the second one is returned, not the first. *)
Lemma get_message_data_first_subject_counterexample :
  let hs := [ {| name := Some "Subject"; value := Some "A" |};
              {| name := Some "Subject"; value := Some "B" |};
              {| name := Some "From"; value := Some "x@y.com" |} ] in
  let m := {| id := Some "m1"; snippet := Some "";
              payload := Some {| headers := Some hs |} |} in
  first_header_value "subject" hs = "A" ∧
  get_message_data m =
    Ok {| email_id := "m1"; es_snippet := ""; subject := "B"; from_ := "x@y.com" |} ∧
  ¬ (∀ r, get_message_data m = Ok r → subject r = first_header_value "subject" hs).
Proof.
  split; [reflexivity|]. split; [reflexivity|].
  intros H. specialize (H _ eq_refl). discriminate H.
Qed.

(** The loop tests for the [break] only on a "from" header: when "from"
    comes first, a later "from" header is still read and replaces it. *)
Example scan_headers_continues_after_both :
  scan_headers [ {| name := Some "From"; value := Some "x@y.com" |};
                 {| name := Some "Subject"; value := Some "A" |};
                 {| name := Some "From"; value := Some "z@y.com" |} ] "" ""
  = ("A", "z@y.com").
Proof. reflexivity. Qed.

(** ** Reply Composer: the subject rule *)

Lemma lower_Re_prefix s : PyStr.lower ("Re: " +:+ s) = "re: " +:+ PyStr.lower s.
Proof. reflexivity. Qed.

(** C8: the "Re: " rule is idempotent: for every string, applying it twice
    gives what applying it once gives. *)
Theorem reply_subject_idempotent (s : string) :
  reply_subject (reply_subject s) = reply_subject s.
Proof.
  unfold reply_subject at 2 3.
  destruct (PyStr.startswith (PyStr.lower s) "re:") eqn:E; simpl.
  - unfold reply_subject. by rewrite E.
  - unfold reply_subject. by rewrite lower_Re_prefix.
Qed.

(** ** List emails: the label query *)

Lemma calls_try_except_raise {call A} (m : io call A) handles (f : exn → exn) :
  calls (try_except m handles (λ e, raise (f e))) = calls m.
Proof.
  destruct m as [t [a|e]]; simpl; [done|].
  destruct (handles e); simpl; [apply app_nil_r | done].
Qed.

Lemma calls_execute_bind {call A B} (c : call) (answer : result A)
    (k : A → io call B) :
  calls (execute c answer ≫= k) =
    c :: match answer with Ok a => calls (k a) | Raise _ => [] end.
Proof.
  unfold mbind, io_bind, bind, execute, calls.
  destruct answer as [a|e]; simpl; [|done]. by destruct (k a).
Qed.

(** C10: an empty [label] and an absent one give the same, empty, remote
    query string, and the two requests run identically: same remote calls,
    the first of them the list call with [q = ""], and same outcome. *)
Theorem get_emails_empty_label_as_absent (service : GmailService) :
  label_query (Some "") = "" ∧
  label_query None = "" ∧
  get_emails service (Some "") = get_emails service None ∧
  ∃ rest, calls (get_emails service (Some "")) = MessagesList "me" "" 10 :: rest.
Proof.
  repeat split.
  unfold get_emails. rewrite calls_try_except_raise, calls_execute_bind.
  eexists. reflexivity.
Qed.

Example label_query_nonempty : label_query (Some "Work") = "label:Work".
Proof. reflexivity. Qed.

(** ** Reply Composer: the handler *)

Lemma lower_ascii_r (c : ascii) :
  Ascii.eqb (PyStr.lower_ascii c) "r" = Ascii.eqb c "r" || Ascii.eqb c "R".
Proof. by destruct c as [[] [] [] [] [] [] [] []]. Qed.

Lemma lower_ascii_e (c : ascii) :
  Ascii.eqb (PyStr.lower_ascii c) "e" = Ascii.eqb c "e" || Ascii.eqb c "E".
Proof. by destruct c as [[] [] [] [] [] [] [] []]. Qed.

Lemma lower_ascii_colon (c : ascii) :
  Ascii.eqb (PyStr.lower_ascii c) ":" = Ascii.eqb c ":".
Proof. by destruct c as [[] [] [] [] [] [] [] []]. Qed.

Lemma prefix_cons (a c : ascii) (p s : string) :
  String.prefix (String a p) (String c s) = Ascii.eqb a c && String.prefix p s.
Proof.
  change (String.prefix (String a p) (String c s))
    with (if Ascii.ascii_dec a c then String.prefix p s else false).
  destruct (Ascii.ascii_dec a c) as [->|Hne].
  - by rewrite Ascii.eqb_refl.
  - apply Ascii.eqb_neq in Hne. by rewrite Hne.
Qed.

(** The test of line 162 is the test on the first three characters. *)
Lemma startswith_lower_re (s : string) :
  PyStr.startswith (PyStr.lower s) "re:" = starts_with_re s.
Proof.
  unfold PyStr.startswith, starts_with_re.
  destruct s as [|c1 [|c2 [|c3 s]]];
    cbn [PyStr.lower]; rewrite ?prefix_cons; try reflexivity.
  - by rewrite andb_false_r.
  - by rewrite !andb_false_r.
  - rewrite (Ascii.eqb_sym _ (PyStr.lower_ascii c1)),
      (Ascii.eqb_sym _ (PyStr.lower_ascii c2)),
      (Ascii.eqb_sym _ (PyStr.lower_ascii c3)).
    rewrite lower_ascii_r, lower_ascii_e, lower_ascii_colon.
    assert (Hnil : String.prefix "" (PyStr.lower s) = true)
      by (by destruct (PyStr.lower s)).
    by rewrite Hnil, andb_true_r, !andb_assoc.
Qed.

Lemma reply_subject_re_prefixed (s : string) : reply_subject s = re_prefixed s.
Proof.
  unfold reply_subject, re_prefixed. rewrite startswith_lower_re.
  by destruct (starts_with_re s).
Qed.

(** Every run of [reply_to_email], by the answers it meets. *)
Lemma reply_to_email_run (library : EmailLibrary) (service : GmailService)
    (req : ReplyRequest) :
  reply_to_email library service req =
    let get := MessagesGet "me" (message_id req) None in
    match refused_before_fetch library req with
    | Some e => ([], swallow_HttpError e)
    | None =>
        match messages_get service "me" (message_id req) None with
        | Raise e => ([get], swallow_HttpError e)
        | Ok msg =>
            match snippet msg with
            | None => ([get], Raise (KeyError "snippet"))
            | Some s =>
                match refused_after_fetch library req s with
                | Some e => ([get], swallow_HttpError e)
                | None =>
                    let create_message :=
                      {| raw := composed_reply req s; threadId := message_id req |} in
                    let send := MessagesSend "me" create_message in
                    match messages_send service "me" create_message with
                    | Raise e => ([get; send], swallow_HttpError e)
                    | Ok send_message =>
                        match send_message !! "id" with
                        | Some _ => ([get; send], Ok (Some send_message))
                        | None => ([get; send], Raise (KeyError "id"))
                        end
                    end
                end
            end
        end
    end.
Proof.
  unfold reply_to_email, refused_before_fetch, refused_after_fetch,
    email.set_content, email.setitem, email.as_bytes_b64, composed_reply,
    reply_message, reply_headers, swallow_HttpError. simpl.
  destruct (set_content_error library email.new (body req)) as [e|]; simpl;
    [by destruct (is_HttpError e)|].
  destruct (setitem_error library _ "To" (to req)) as [e|]; simpl;
    [by destruct (is_HttpError e)|].
  destruct (setitem_error library _ "From" "me") as [e|]; simpl;
    [by destruct (is_HttpError e)|].
  destruct (messages_get service "me" (message_id req) None) as [msg|e]; simpl;
    [|by destruct (is_HttpError e)].
  destruct (snippet msg) as [s|]; simpl; [|done].
  destruct (setitem_error library _ "Subject" (reply_subject s)) as [e|]; simpl;
    [by destruct (is_HttpError e)|].
  destruct (setitem_error library _ "In-Reply-To" (message_id req)) as [e|]; simpl;
    [by destruct (is_HttpError e)|].
  destruct (setitem_error library _ "References" (message_id req)) as [e|]; simpl;
    [by destruct (is_HttpError e)|].
  destruct (as_bytes_error library _) as [e|]; simpl;
    [by destruct (is_HttpError e)|].
  destruct (messages_send service "me" _) as [res|e]; simpl;
    [|by destruct (is_HttpError e)].
  by destruct (res !! "id").
Qed.

(** C4, as the code has it: whatever message [reply_to_email] hands to the
    send call, the handler has assigned to its Subject the original
    message's snippet, with "Re: " put before it unless the snippet already
    starts with "re:" in any case, and to its In-Reply-To and References the
    request's [message_id]; what the message holds for each of the three is
    what the [email] library stores of the text assigned; and the
    [threadId] sent along is that same [message_id]. *)
Theorem reply_to_email_threading (library : EmailLibrary) (service : GmailService)
    (req : ReplyRequest) (u : string) (b : SendBody) :
  In (MessagesSend u b) (calls (reply_to_email library service req)) →
  ∃ msg s,
    messages_get service "me" (message_id req) None = Ok msg ∧
    snippet msg = Some s ∧
    assigned (raw b) =
      [ ("To", to req); ("From", "me"); ("Subject", re_prefixed s);
        ("In-Reply-To", message_id req); ("References", message_id req) ] ∧
    email.getitem library (raw b) "Subject" =
      Some (stored_text library "Subject" (re_prefixed s)) ∧
    email.getitem library (raw b) "In-Reply-To" =
      Some (stored_text library "In-Reply-To" (message_id req)) ∧
    email.getitem library (raw b) "References" =
      Some (stored_text library "References" (message_id req)) ∧
    threadId b = message_id req.
Proof.
  rewrite reply_to_email_run. cbv zeta.
  destruct (refused_before_fetch library req); [intros []|].
  destruct (messages_get service "me" (message_id req) None) as [msg|e];
    [|intros [H|[]]; discriminate H].
  destruct (snippet msg) as [s|] eqn:Hs; [|intros [H|[]]; discriminate H].
  destruct (refused_after_fetch library req s); [intros [H|[]]; discriminate H|].
  intros Hin. exists msg, s.
  assert (Hb : b = {| raw := composed_reply req s; threadId := message_id req |}).
  { destruct (messages_send service "me" _) as [res|e];
      [destruct (res !! "id")|];
      destruct Hin as [H|[H|[]]]; try discriminate H; by injection H. }
  subst b. unfold email.getitem, composed_reply, reply_message, reply_headers.
  rewrite reply_subject_re_prefixed. by repeat split.
Qed.

(** The scenario of C4: for the request that replies to "abc123" and an
    original message of snippet "meeting notes", texts the library keeps as
    they are. *)
Lemma reply_to_email_threading_witness :
  ∃ b, In (MessagesSend "me" b)
          (calls (reply_to_email sample_email sample_gmail sample_reply)) ∧
       email.getitem sample_email (raw b) "Subject" = Some "Re: meeting notes" ∧
       email.getitem sample_email (raw b) "In-Reply-To" = Some "abc123" ∧
       email.getitem sample_email (raw b) "References" = Some "abc123" ∧
       threadId b = "abc123".
Proof.
  eexists. split; [right; left; reflexivity|].
  destruct (reply_to_email_threading sample_email sample_gmail sample_reply "me" _
              (or_intror (or_introl eq_refl)))
    as (msg & s & Hget & Hs & _ & Hsub & Hirt & Href & Htid).
  injection Hget as <-. injection Hs as <-.
  repeat split; assumption.
Defined.

(** C4 as it is worded fails on the code: the Subject of the outgoing
    message need not equal the snippet with "Re: " before it. For a snippet
    that is an RFC 2047 encoded word, "=?utf-8?q?Hi_there?=", the handler
    assigns "Re: =?utf-8?q?Hi_there?=" and the message that is sent holds the
    Subject "Re: Hi there". *)
Lemma reply_to_email_subject_counterexample :
  ∃ b msg,
    In (MessagesSend "me" b)
       (calls (reply_to_email sample_email encoded_word_gmail sample_reply)) ∧
    messages_get encoded_word_gmail "me" (message_id sample_reply) None = Ok msg ∧
    snippet msg = Some "=?utf-8?q?Hi_there?=" ∧
    starts_with_re "=?utf-8?q?Hi_there?=" = false ∧
    email.getitem sample_email (raw b) "Subject" = Some "Re: Hi there" ∧
    email.getitem sample_email (raw b) "Subject" ≠
      Some ("Re: " +:+ "=?utf-8?q?Hi_there?=").
Proof.
  eexists. eexists.
  split; [right; left; reflexivity|].
  split; [reflexivity|].
  repeat split. discriminate.
Qed.

(** Membership in an explicit list of calls, split into its cases. *)
Ltac in_calls :=
  repeat match goal with
  | H : In _ (calls _) |- _ => unfold calls in H; simpl in H
  | H : _ ∨ _ |- _ => destruct H as [H|H]
  | H : False |- _ => destruct H
  | H : MessagesGet _ _ _ = MessagesGet _ _ _ |- _ => injection H as <- <- <-
  | H : MessagesSend _ _ = MessagesSend _ _ |- _ => injection H as <- <-
  | H : MessagesGet _ _ _ = MessagesSend _ _ |- _ => discriminate H
  | H : MessagesSend _ _ = MessagesGet _ _ _ |- _ => discriminate H
  end.

(** C6: when the remote API answers a call of [reply_to_email] with an
    error, the handler returns [None]: for the get call, for the send call;
    when the send call is answered with a message resource, that resource is
    returned; and no run of the handler ends in an [HttpError]. *)
Theorem reply_to_email_swallows_HttpError (library : EmailLibrary)
    (service : GmailService) (req : ReplyRequest) :
  (∀ u i f st m,
     In (MessagesGet u i f) (calls (reply_to_email library service req)) →
     messages_get service u i f = Raise (HttpError st m) →
     outcome (reply_to_email library service req) = Ok None) ∧
  (∀ u b st m,
     In (MessagesSend u b) (calls (reply_to_email library service req)) →
     messages_send service u b = Raise (HttpError st m) →
     outcome (reply_to_email library service req) = Ok None) ∧
  (∀ u b send_message,
     In (MessagesSend u b) (calls (reply_to_email library service req)) →
     messages_send service u b = Ok send_message →
     is_Some (send_message !! "id") →
     outcome (reply_to_email library service req) = Ok (Some send_message)) ∧
  (∀ st m, outcome (reply_to_email library service req) ≠ Raise (HttpError st m)).
Proof.
  rewrite reply_to_email_run. cbv zeta. unfold swallow_HttpError.
  destruct (refused_before_fetch library req) as [e|];
    [|destruct (messages_get service "me" (message_id req) None) as [msg|e] eqn:Hget;
      [destruct (snippet msg) as [s|];
       [destruct (refused_after_fetch library req s) as [e|];
        [|destruct (messages_send service "me" _) as [res|e] eqn:Hsnd;
          [destruct (res !! "id") as [i|] eqn:Hid|]]|]|]];
    (split; [|split; [|split]]);
    try (intros st m; simpl; try destruct e; simpl; congruence);
    intros; in_calls; simpl; try congruence.
  - match goal with H : is_Some _ |- _ => destruct H as [x Hx] end. congruence.
  - replace e with (HttpError st m) by congruence. reflexivity.
  - replace e with (HttpError st m) by congruence. reflexivity.
Qed.

Lemma reply_to_email_swallows_HttpError_witness :
  outcome (reply_to_email sample_email failing_gmail sample_reply) = Ok None ∧
  outcome (reply_to_email sample_email send_failing_gmail sample_reply) = Ok None ∧
  outcome (reply_to_email sample_email sample_gmail sample_reply) =
    Ok (Some {[ "id" := "sent-1" ]}).
Proof.
  split; [|split].
  - exact (proj1 (reply_to_email_swallows_HttpError sample_email failing_gmail
                    sample_reply)
             "me" "abc123" None 404 "not found" (or_introl eq_refl) eq_refl).
  - exact (proj1 (proj2 (reply_to_email_swallows_HttpError sample_email
                           send_failing_gmail sample_reply))
             "me" _ 403 "forbidden" (or_intror (or_introl eq_refl)) eq_refl).
  - exact (proj1 (proj2 (proj2 (reply_to_email_swallows_HttpError sample_email
                                  sample_gmail sample_reply)))
             "me" _ _ (or_intror (or_introl eq_refl)) eq_refl
             (ex_intro _ "sent-1" eq_refl)).
Defined.

(** ** Update event: the forwarded body *)

Lemma set_field_lookup {A} key (conv : A → pyval) (f : field A) d k :
  set_field key conv f d !! k =
    if decide (key = k) then
      match f with
      | None => d !! k
      | Some None => Some PNone
      | Some (Some a) => Some (conv a)
      end
    else d !! k.
Proof.
  unfold set_field. destruct f as [[a|]|]; case_decide; subst;
    by rewrite ?lookup_insert_eq, ?lookup_insert_ne.
Qed.

Lemma update_dict_lookup (u : CalendarEventUpdate) (k : string) :
  update_dict u !! k =
    CalendarEventUpdate_dict u !! k ≫= λ v, if is_None v then None else Some v.
Proof.
  unfold update_dict. rewrite map_lookup_filter.
  destruct (CalendarEventUpdate_dict u !! k) as [v|]; simpl; [|done].
  by destruct v.
Qed.

(** What [.dict(exclude_unset=True)] holds for an [EventDateTime]. *)
Lemma EventDateTime_dict_carries_fields (x : EventDateTime) :
  carries_fields x (EventDateTime_dict x).
Proof.
  unfold carries_fields, EventDateTime_dict.
  repeat split; try intros k Hk; rewrite !set_field_lookup, lookup_empty;
    repeat case_decide; subst; try done.
  all: try (exfalso; apply Hk; set_solver).
  all: by destruct (date x) as [[?|]|], (dateTime x) as [[?|]|], (timeZone x) as [[?|]|].
Qed.

(** C7: the body [update_calendar_event] forwards to the remote update call
    holds exactly the fields of the request that carry a non-null value:
    each of the five fields is in the body, with its value, when the request
    set it to something other than null, and is not when it was left out or
    set to null; and no other key is in the body. The value of a [start] or
    an [end] is the dict of what the request set inside it: its [date],
    [dateTime] and [timeZone] as given, and no other key. The remote call
    is the one update call with that body. *)
Theorem update_calendar_event_forwards_non_null (service : CalendarService)
    (event_id : string) (u : CalendarEventUpdate) :
  calls (update_calendar_event service event_id u) =
    [EventsUpdate "primary" event_id (update_dict u)] ∧
  update_dict u !! "start" = (λ e, PDict (EventDateTime_dict e)) <$> non_null (u_start u) ∧
  update_dict u !! "end" = (λ e, PDict (EventDateTime_dict e)) <$> non_null (u_end u) ∧
  update_dict u !! "summary" = PStr <$> non_null (u_summary u) ∧
  update_dict u !! "description" = PStr <$> non_null (u_description u) ∧
  update_dict u !! "location" = PStr <$> non_null (u_location u) ∧
  (∀ k, k ∉ ["start"; "end"; "summary"; "description"; "location"] →
        update_dict u !! k = None) ∧
  (∀ x, non_null (u_start u) = Some x →
        ∃ d, update_dict u !! "start" = Some (PDict d) ∧ carries_fields x d) ∧
  (∀ x, non_null (u_end u) = Some x →
        ∃ d, update_dict u !! "end" = Some (PDict d) ∧ carries_fields x d).
Proof.
  split.
  { unfold update_calendar_event. rewrite calls_try_except_raise, calls_execute_bind.
    by destruct (events_update service "primary" event_id (update_dict u)). }
  assert (Hstart : update_dict u !! "start" =
                     (λ e, PDict (EventDateTime_dict e)) <$> non_null (u_start u)).
  { rewrite update_dict_lookup. unfold CalendarEventUpdate_dict.
    rewrite !set_field_lookup, lookup_empty. simpl. by destruct (u_start u) as [[e|]|]. }
  assert (Hend : update_dict u !! "end" =
                   (λ e, PDict (EventDateTime_dict e)) <$> non_null (u_end u)).
  { rewrite update_dict_lookup. unfold CalendarEventUpdate_dict.
    rewrite !set_field_lookup, lookup_empty. simpl. by destruct (u_end u) as [[e|]|]. }
  split; [exact Hstart|]. split; [exact Hend|].
  split; [|split; [|split; [|split; [|split]]]].
  - rewrite update_dict_lookup. unfold CalendarEventUpdate_dict.
    rewrite !set_field_lookup, lookup_empty. simpl. by destruct (u_summary u) as [[e|]|].
  - rewrite update_dict_lookup. unfold CalendarEventUpdate_dict.
    rewrite !set_field_lookup, lookup_empty. simpl. by destruct (u_description u) as [[e|]|].
  - rewrite update_dict_lookup. unfold CalendarEventUpdate_dict.
    rewrite !set_field_lookup, lookup_empty. simpl. by destruct (u_location u) as [[e|]|].
  - intros k Hk. rewrite update_dict_lookup. unfold CalendarEventUpdate_dict.
    rewrite !set_field_lookup, lookup_empty.
    repeat case_decide; subst; try done; exfalso; apply Hk; set_solver.
  - intros x Hx. exists (EventDateTime_dict x). rewrite Hstart, Hx.
    split; [done|apply EventDateTime_dict_carries_fields].
  - intros x Hx. exists (EventDateTime_dict x). rewrite Hend, Hx.
    split; [done|apply EventDateTime_dict_carries_fields].
Qed.

(** The scenario of C7, a request that sets only [summary]; and a request
    that sets only [start], whose time and zone go out inside it. *)
Lemma update_calendar_event_forwards_non_null_witness :
  (calls (update_calendar_event sample_calendar "evt-1" only_summary) =
     [EventsUpdate "primary" "evt-1" {[ "summary" := PStr "New Title" ]}] ∧
   update_dict only_summary !! "id" = None) ∧
  ∃ d, update_dict only_start !! "start" = Some (PDict d) ∧
       d !! "dateTime" = Some (PStr "2025-09-22T09:00:00+08:00") ∧
       d !! "timeZone" = Some (PStr "Asia/Kuala_Lumpur") ∧
       d !! "date" = None.
Proof.
  split.
  - destruct (update_calendar_event_forwards_non_null sample_calendar "evt-1" only_summary)
      as (Hc & _ & _ & _ & _ & _ & Hk & _).
    split; [rewrite Hc; reflexivity|].
    apply Hk. intros H. repeat (apply elem_of_cons in H as [H|H]; [discriminate H|]).
    by apply elem_of_nil in H.
  - destruct (update_calendar_event_forwards_non_null sample_calendar "evt-1" only_start)
      as (_ & _ & _ & _ & _ & _ & _ & Hs & _).
    destruct (Hs _ eq_refl) as (d & Hd & Hdate & Hdt & Htz & _).
    exists d. repeat split; assumption.
Defined.

(** ** Health check *)

(** C9 fails on the code: [health_check] reads the attribute [now] of the
    module [datetime], which has none, so every invocation raises
    [AttributeError] instead of returning the body. *)
Theorem health_check_raises :
  health_check = Raise (AttributeError "module 'datetime' has no attribute 'now'").
Proof. reflexivity. Qed.

(** The class one level down is where [now] lives (lines 205 and 340 go
    through it). *)
Example module_has_datetime_class :
  module_getattr "datetime" = Ok (Class "datetime.datetime").
Proof. reflexivity. Qed.

(** ** Event Normalizer: only today's events *)

Lemma outcome_try_except_raise_Ok {call A} (m : io call A) handles
    (f : exn → exn) (a : A) :
  outcome (try_except m handles (λ e, raise (f e))) = Ok a → outcome m = Ok a.
Proof.
  destruct m as [t [x|e]]; simpl; [done|]. by destruct (handles e).
Qed.

Lemma outcome_execute_bind_Ok {call A B} (c : call) (answer : result A)
    (k : A → io call B) (b : B) :
  outcome (execute c answer ≫= k) = Ok b →
  ∃ a, answer = Ok a ∧ outcome (k a) = Ok b.
Proof.
  unfold mbind, io_bind, bind, execute, outcome.
  destruct answer as [a|e]; simpl; [|done].
  destruct (k a) as [t r] eqn:Hk. simpl. intros ->. exists a. by rewrite Hk.
Qed.

Lemma date_eqb_eq (a b : datetime.date) : date_eqb a b = true → a = b.
Proof.
  destruct a, b. unfold date_eqb. simpl.
  rewrite !andb_true_iff, !Z.eqb_eq. by intros [[-> ->] ->].
Qed.

(** What the loop keeps: besides what it started with, only events whose
    favoured start value parses to today's date. *)
Lemma simplify_events_only_today (today : datetime.datetime) (events : list Event) :
  ∀ acc out e,
    simplify_events today events acc = Ok out → In e out →
    In e acc ∨
    (event_date (se_start e) = Ok (datetime.dt_date today) ∧
     ∃ raw st, In raw events ∧ ev_start raw = Some st ∧
               py_or (et_dateTime st) (et_date st) = Some (se_start e)).
Proof.
  induction events as [|event rest IH]; intros acc out e Hrun Hin.
  { simpl in Hrun. injection Hrun as <-. by left. }
  simpl in Hrun.
  destruct (ev_start event) as [st|] eqn:Hst; [|discriminate Hrun]. simpl in Hrun.
  destruct (py_or (et_dateTime st) (et_date st)) as [start|] eqn:Hstart;
    [|discriminate Hrun]. simpl in Hrun.
  destruct (event_date start) as [d|] eqn:Hdate; [|discriminate Hrun]. simpl in Hrun.
  destruct (date_eqb d (datetime.dt_date today)) eqn:Heq.
  - destruct (ev_end event) as [en|]; [|discriminate Hrun]. simpl in Hrun.
    destruct (IH _ _ _ Hrun Hin) as [Hacc|(Hd & raw & st' & Hraw & Hs & Hor)].
    + apply in_app_or in Hacc as [Hacc|[<-|[]]]; [by left|]. right. simpl.
      apply date_eqb_eq in Heq as <-. split; [done|].
      exists event, st. repeat split; [by left | done | done].
    + right. split; [done|]. exists raw, st'. repeat split; [by right | done | done].
  - destruct (IH _ _ _ Hrun Hin) as [Hacc|(Hd & raw & st' & Hraw & Hs & Hor)];
      [by left|].
    right. split; [done|]. exists raw, st'. repeat split; [by right | done | done].
Qed.

(** C3: every event in the response of [get_calendar_events] has a start
    value whose computed date (["Z"] read as ["+00:00"], parsed, date part
    taken) is the current UTC date; that start value is the [dateTime] of
    one of the events the remote query for the day returned, or its [date]
    when it has no [dateTime]. *)
Theorem get_calendar_events_only_today (service : CalendarService)
    (today : datetime.datetime) (response : list SimplifiedEvent)
    (e : SimplifiedEvent) :
  outcome (get_calendar_events service today) = Ok response →
  In e response →
  event_date (se_start e) = Ok (datetime.dt_date today) ∧
  ∃ events_result raw st,
    events_list service "primary"
      (datetime.isoformat (replace_time today 0 0 0 0))
      (datetime.isoformat (replace_time today 23 59 59 999999))
      10 true "startTime" = Ok events_result ∧
    In raw (default [] (items events_result)) ∧
    ev_start raw = Some st ∧
    py_or (et_dateTime st) (et_date st) = Some (se_start e).
Proof.
  unfold get_calendar_events. intros Hrun Hin.
  apply outcome_try_except_raise_Ok in Hrun.
  apply outcome_execute_bind_Ok in Hrun as (events_result & Hans & Hrun).
  destruct (default [] (items events_result)) as [|ev evs] eqn:Hitems.
  { injection Hrun as <-. destruct Hin. }
  change (simplify_events today (ev :: evs) [] = Ok response) in Hrun.
  destruct (simplify_events_only_today _ _ _ _ _ Hrun Hin)
    as [[]|(Hd & raw & st & Hraw & Hs & Hor)].
  split; [done|]. rewrite <- Hitems in Hraw.
  exists events_result, raw, st. eauto.
Qed.

Lemma get_calendar_events_only_today_witness :
  outcome (get_calendar_events sample_calendar sample_now) =
    Ok [ {| se_eventId := Some "e1"; se_summary := "No Title";
            se_start := "2025-10-01T09:00:00Z";
            se_end := Some "2025-10-01T10:00:00Z" |};
         {| se_eventId := Some "e3"; se_summary := "Holiday";
            se_start := "2025-10-01"; se_end := Some "2025-10-02" |} ] ∧
  event_date "2025-10-01T09:00:00Z" = Ok (datetime.mkDate 2025 10 1).
Proof.
  split; [reflexivity|].
  exact (proj1 (get_calendar_events_only_today sample_calendar sample_now _
                  {| se_eventId := Some "e1"; se_summary := "No Title";
                     se_start := "2025-10-01T09:00:00Z";
                     se_end := Some "2025-10-01T10:00:00Z" |}
                  eq_refl (or_introl eq_refl))).
Defined.

(** ** Event Time Adjuster *)

Lemma small_nat_of_Z (n : nat) (z : Z) :
  0 ≤ z < Z.of_nat n → ∃ k : nat, (k < n)%nat ∧ z = Z.of_nat k.
Proof. intros H. exists (Z.to_nat z). lia. Qed.

(** [int(timezone_str.split(":")[0])] on a text [±HH:00]. *)
Lemma int_of_offset_string (negative : bool) (hh : Z) :
  0 ≤ hh ≤ 23 →
  PyInt.int (PyStr.split_head ":" (offset_string negative hh 0)) =
    Ok (if negative then - hh else hh).
Proof.
  intros H. destruct (small_nat_of_Z 24 hh) as (k & Hk & ->); [lia|].
  do 24 (destruct k as [|k]; [destruct negative; vm_compute; reflexivity|]). lia.
Qed.

Lemma timezone_of_whole_hours (negative : bool) (hh : Z) :
  0 ≤ hh ≤ 23 →
  datetime.timezone_of_hours (if negative then - hh else hh) =
    Ok (whole_hours negative hh).
Proof.
  intros H. destruct (small_nat_of_Z 24 hh) as (k & Hk & ->); [lia|].
  do 24 (destruct k as [|k]; [destruct negative; vm_compute; reflexivity|]). lia.
Qed.

(** [adjust_datetime] on an offset text: today's date, the time-of-day of
    the input, the offset of the text. *)
Lemma adjust_datetime_whole_hours (today : datetime.date) (s : string)
    (dt : datetime.datetime) (negative : bool) (hh : Z) :
  datetime.fromisoformat (PyStr.replace_char "Z" "+00:00" s) = Ok dt →
  0 ≤ hh ≤ 23 →
  adjust_datetime today (PStr s) (PStr (offset_string negative hh 0)) =
    Ok (datetime.isoformat
          {| datetime.dt_date := today;
             datetime.dt_time := datetime.dt_time dt;
             datetime.tzinfo := Some (whole_hours negative hh) |}).
Proof.
  intros Hparse Hhh. unfold adjust_datetime. simpl as_str.
  unfold mbind, result_bind, rbind at 1. unfold rbind at 1. rewrite Hparse.
  unfold rbind at 1. rewrite (int_of_offset_string _ _ Hhh).
  unfold rbind at 1. rewrite (timezone_of_whole_hours _ _ Hhh).
  reflexivity.
Qed.

(** The text of a whole-hour offset is the text it was read from, but for
    ["-00:00"], printed as ["+00:00"]. *)
Lemma isoformat_offset_whole_hours (negative : bool) (hh : Z) :
  0 ≤ hh ≤ 23 →
  datetime.isoformat_offset (whole_hours negative hh) =
    offset_string (negative && negb (hh =? 0)) hh 0.
Proof.
  intros H. destruct (small_nat_of_Z 24 hh) as (k & Hk & ->); [lia|].
  do 24 (destruct k as [|k]; [destruct negative; vm_compute; reflexivity|]). lia.
Qed.

(** *** Reading back what [isoformat] prints *)

Lemma digit_char_cases (d : Z) :
  ∃ k : nat, (k < 10)%nat ∧ d mod 10 = Z.of_nat k.
Proof.
  exists (Z.to_nat (d mod 10)). pose proof (Z.mod_pos_bound d 10). lia.
Qed.

Lemma digit_digit_char (d : Z) : PyInt.digit (datetime.digit_char d) = Some (d mod 10).
Proof.
  destruct (digit_char_cases d) as (k & Hk & E). unfold datetime.digit_char.
  rewrite E. do 10 (destruct k as [|k]; [reflexivity|]). lia.
Qed.

Lemma digit_char_not (c : ascii) (d : Z) :
  PyInt.digit c = None → Ascii.eqb (datetime.digit_char d) c = false.
Proof.
  intros Hc. destruct (Ascii.eqb _ c) eqn:E; [|done].
  apply Ascii.eqb_eq in E. subst c. by rewrite digit_digit_char in Hc.
Qed.

Lemma str_app_nil (s : string) : "" +:+ s = s.
Proof. reflexivity. Qed.
Lemma str_app_cons c (a b : string) : String c a +:+ b = String c (a +:+ b).
Proof. reflexivity. Qed.
Lemma str_app_assoc (a b c : string) : (a +:+ b) +:+ c = a +:+ (b +:+ c).
Proof. induction a as [|x a IH]; [done|]. by rewrite !str_app_cons, IH. Qed.
Lemma str_app_nil_r (s : string) : s +:+ "" = s.
Proof. induction s as [|x s IH]; [done|]. by rewrite str_app_cons, IH. Qed.

Ltac norm_app := rewrite ?str_app_assoc, ?str_app_cons, ?str_app_nil.

(** [parse_digits] on the digits [isoformat] prints. *)
Lemma parse_digits_pad_more (n m : nat) (d : Z) (rest : string) (acc : Z) :
  0 ≤ d →
  datetime.parse_digits (datetime.pad n d +:+ rest) (n + m) acc =
    datetime.parse_digits rest m (acc * 10 ^ Z.of_nat n + d mod 10 ^ Z.of_nat n).
Proof.
  revert m d rest acc. induction n as [|n IH]; intros m d rest acc Hd.
  { simpl. f_equal. rewrite Z.mod_1_r. lia. }
  cbn [datetime.pad]. rewrite str_app_assoc, str_app_cons, str_app_nil.
  replace (S n + m)%nat with (n + S m)%nat by lia.
  rewrite IH by (apply Z.div_pos; lia).
  cbn [datetime.parse_digits]. rewrite digit_digit_char. simpl. f_equal.
  rewrite Nat2Z.inj_succ, Z.pow_succ_r by lia.
  set (p := 10 ^ Z.of_nat n). assert (0 < p) by (apply Z.pow_pos_nonneg; lia).
  rewrite Z.rem_mul_r by lia.
  lia.
Qed.

Lemma parse_digits_pad (n : nat) (d : Z) (rest : string) :
  0 ≤ d < 10 ^ Z.of_nat n →
  datetime.parse_digits (datetime.pad n d +:+ rest) n 0 = Some (d, rest).
Proof.
  intros Hd. replace n with (n + 0)%nat at 2 by lia.
  rewrite parse_digits_pad_more by lia. cbn [datetime.parse_digits].
  by rewrite Z.mod_small, Z.mul_0_l by lia.
Qed.

Lemma peek_pad (n : nat) (d : Z) (rest : string) :
  datetime.is_digit (datetime.peek (datetime.pad (S n) d +:+ rest)) = true.
Proof.
  revert d rest. induction n as [|n IH]; intros d rest.
  - cbn [datetime.pad]. norm_app. unfold datetime.is_digit. simpl.
    by rewrite digit_digit_char.
  - cbn [datetime.pad] in *. rewrite str_app_assoc. apply IH.
Qed.

Lemma peek_pad_not (c : ascii) (n : nat) (d : Z) (rest : string) :
  PyInt.digit c = None →
  Ascii.eqb (datetime.peek (datetime.pad (S n) d +:+ rest)) c = false.
Proof.
  intros Hc. pose proof (peek_pad n d rest) as H. unfold datetime.is_digit in H.
  destruct (Ascii.eqb _ c) eqn:E; [|done].
  apply Ascii.eqb_eq in E. rewrite E, Hc in H. discriminate.
Qed.

Lemma contains_app c a b : PyStr.contains c (a +:+ b) = PyStr.contains c a || PyStr.contains c b.
Proof.
  induction a as [|x a IH]; [done|]. rewrite str_app_cons. simpl. rewrite IH.
  by rewrite orb_assoc.
Qed.

Lemma contains_pad c n d : PyInt.digit c = None → PyStr.contains c (datetime.pad n d) = false.
Proof.
  intros Hc. revert d. induction n as [|n IH]; intros d; [done|].
  cbn [datetime.pad]. rewrite contains_app, IH. simpl.
  by rewrite (digit_char_not c d Hc).
Qed.

Lemma length_app (a b : string) :
  String.length (a +:+ b) = (String.length a + String.length b)%nat.
Proof. induction a as [|x a IH]; simpl; [done|]. by rewrite IH. Qed.

Lemma length_pad n d : String.length (datetime.pad n d) = n.
Proof.
  revert d. induction n as [|n IH]; intros d; [done|].
  cbn [datetime.pad]. rewrite length_app, IH. simpl. lia.
Qed.

Lemma skip_app (a b : string) : datetime.skip (String.length a) (a +:+ b) = b.
Proof. induction a as [|x a IH]; [done|]. exact IH. Qed.

Lemma pad_4 (y : Z) :
  datetime.pad 4 y = datetime.pad 2 (y / 100) +:+ datetime.pad 2 y.
Proof.
  simpl. by rewrite !Z.div_div by lia.
Qed.

Lemma days_in_month_le (y m : Z) : datetime.days_in_month y m ≤ 31.
Proof.
  unfold datetime.days_in_month.
  repeat match goal with |- context [if ?b then _ else _] => destruct b end; lia.
Qed.

Lemma valid_date_bounds (d : datetime.date) :
  datetime.valid_date d = true →
  1 ≤ datetime.year d ≤ 9999 ∧ 1 ≤ datetime.month d ≤ 12 ∧ 1 ≤ datetime.day d ≤ 31.
Proof.
  unfold datetime.valid_date. rewrite !andb_true_iff, !Z.leb_le.
  pose proof (days_in_month_le (datetime.year d) (datetime.month d)). lia.
Qed.

Lemma valid_time_bounds (t : datetime.time) :
  datetime.valid_time t = true →
  0 ≤ datetime.hour t < 24 ∧ 0 ≤ datetime.minute t < 60 ∧
  0 ≤ datetime.second t < 60 ∧ 0 ≤ datetime.microsecond t < 1000000.
Proof.
  unfold datetime.valid_time, datetime.us_per_second.
  rewrite !andb_true_iff, !Z.leb_le, !Z.ltb_lt. lia.
Qed.

(** The checks of the constructor pass on a date and a time in range, and
    only on them. *)
Lemma check_date_args_valid (d : datetime.date) :
  datetime.valid_date d = true → datetime.check_date_args d = Ok ().
Proof.
  unfold datetime.valid_date, datetime.check_date_args.
  rewrite !andb_true_iff, !Z.leb_le. intros Hv.
  repeat match goal with
  | |- context [(?a <? ?b)] => destruct (Z.ltb_spec a b); try lia
  end; reflexivity.
Qed.

Lemma check_time_args_valid (t : datetime.time) :
  datetime.check_time_args t = Ok () ↔ datetime.valid_time t = true.
Proof.
  unfold datetime.valid_time, datetime.check_time_args, datetime.us_per_second.
  rewrite !andb_true_iff, !Z.leb_le, !Z.ltb_lt.
  repeat match goal with
  | |- context [(?a <? ?b)] => destruct (Z.ltb_spec a b); simpl
  end; split; try discriminate; try reflexivity; lia.
Qed.

Lemma length_isoformat_date (d : datetime.date) :
  String.length (datetime.isoformat_date d) = 10%nat.
Proof.
  unfold datetime.isoformat_date. by rewrite !length_app, !length_pad.
Qed.

(** The date [isoformat] prints is ten characters with "-" for fifth and
    a digit for sixth: the date ends at 10. *)
Lemma find_separator_isoformat (d : datetime.date) (rest : string) :
  datetime.find_isoformat_datetime_separator
    (datetime.isoformat_date d +:+ "T" +:+ rest) = 10.
Proof.
  unfold datetime.find_isoformat_datetime_separator, datetime.isoformat_date.
  rewrite !length_app, !length_pad.
  cbn [datetime.pad]. norm_app.
  cbn [datetime.char_at datetime.skip datetime.advance datetime.peek
       String.length Nat.add Nat.eqb Nat.ltb Nat.leb Ascii.eqb Bool.eqb andb].
  by rewrite digit_char_not.
Qed.

Lemma parse_isoformat_date_isoformat (d : datetime.date) (rest : string) :
  datetime.valid_date d = true →
  datetime.parse_isoformat_date (datetime.isoformat_date d +:+ "T" +:+ rest) 10
    = Some d.
Proof.
  intros Hv. pose proof (valid_date_bounds d Hv) as (Hy & Hm & Hd).
  unfold datetime.parse_isoformat_date, datetime.isoformat_date.
  norm_app. rewrite parse_digits_pad by (simpl; lia).
  cbn [mbind option_bind datetime.peek Ascii.eqb Bool.eqb datetime.advance].
  rewrite peek_pad_not by done.
  rewrite parse_digits_pad by (simpl; lia).
  cbn [mbind option_bind datetime.peek Ascii.eqb Bool.eqb datetime.advance andb negb].
  rewrite parse_digits_pad by (simpl; lia).
  cbn [mbind option_bind]. by destruct d.
Qed.

Lemma contains_cons c a s : PyStr.contains c (String a s) = Ascii.eqb a c || PyStr.contains c s.
Proof. reflexivity. Qed.

Lemma contains_isoformat_time (c : ascii) (t : datetime.time) :
  PyInt.digit c = None → c ≠ ":"%char → c ≠ "."%char →
  PyStr.contains c (datetime.isoformat_time t) = false.
Proof.
  intros Hd Hc Hp. unfold datetime.isoformat_time, datetime.isoformat_hms.
  simpl orb. cbv iota.
  assert (Ascii.eqb ":" c = false) as E1 by (apply Ascii.eqb_neq; congruence).
  assert (Ascii.eqb "." c = false) as E2 by (apply Ascii.eqb_neq; congruence).
  destruct (datetime.microsecond t =? 0); norm_app;
    repeat (rewrite ?contains_app, ?contains_cons, ?E1, ?E2; rewrite ?contains_pad by done);
    reflexivity.
Qed.

(** The offset starts where the time of day that [isoformat] prints
    ends. *)
Lemma before_offset_app (a : string) (c : ascii) (r : string) :
  PyStr.contains "Z" a = false →
  PyStr.contains "+" a = false →
  PyStr.contains "-" a = false →
  datetime.starts_offset c = true →
  datetime.before_offset (a +:+ String c r) = String.length a.
Proof.
  intros HZ Hp Hm Hc. induction a as [|x a IH].
  { simpl. by rewrite Hc. }
  rewrite str_app_cons. simpl in *.
  apply orb_false_iff in HZ as [HZ1 HZ2]. apply orb_false_iff in Hp as [Hp1 Hp2].
  apply orb_false_iff in Hm as [Hm1 Hm2].
  unfold datetime.starts_offset at 1. rewrite HZ1, Hp1, Hm1. simpl.
  by rewrite IH.
Qed.

Lemma whole_hours_negative_zero (hh : Z) :
  whole_hours (true && negb (hh =? 0)) hh = whole_hours true hh.
Proof.
  destruct (hh =? 0) eqn:E; [|done]. apply Z.eqb_eq in E. by subst.
Qed.

Lemma length_isoformat_time (t : datetime.time) :
  String.length (datetime.isoformat_time t) =
    if datetime.microsecond t =? 0 then 8%nat else 15%nat.
Proof.
  unfold datetime.isoformat_time, datetime.isoformat_hms. simpl orb. cbv iota.
  destruct (datetime.microsecond t =? 0);
    by rewrite !length_app, !length_pad.
Qed.

(** The time of day [isoformat] prints, read up to the sign of the offset
    that follows it. *)
Lemma parse_hh_mm_ss_ff_isoformat (t : datetime.time) (sign : ascii) (rest : string) :
  datetime.valid_time t = true →
  datetime.is_digit sign = false → sign ≠ datetime.NUL →
  datetime.parse_hh_mm_ss_ff
    (datetime.isoformat_time t +:+ String sign rest)
    (Z.of_nat (String.length (datetime.isoformat_time t))) = Some (true, t).
Proof.
  intros Hv Hsign Hnul. pose proof (valid_time_bounds t Hv) as (Hh & Hm & Hs & Hus).
  assert (Hs0 : Ascii.eqb sign datetime.NUL = false) by (by apply Ascii.eqb_neq).
  rewrite length_isoformat_time.
  unfold datetime.parse_hh_mm_ss_ff, datetime.isoformat_time, datetime.isoformat_hms.
  simpl orb. cbv iota. norm_app.
  destruct (datetime.microsecond t =? 0) eqn:E.
  - apply Z.eqb_eq in E.
    cbn [datetime.parse_hh_mm_ss].
    rewrite parse_digits_pad by (simpl; lia).
    cbn [mbind option_bind datetime.peek datetime.advance Ascii.eqb Bool.eqb
         datetime.set_component andb orb negb].
    change (Z.of_nat 8 - 3 <=? 0) with false. cbv iota.
    rewrite parse_digits_pad by (simpl; lia).
    cbn [mbind option_bind datetime.peek datetime.advance Ascii.eqb Bool.eqb
         datetime.set_component andb orb negb].
    change (Z.of_nat 8 - 3 - 3 <=? 0) with false. cbv iota.
    rewrite parse_digits_pad by (simpl; lia).
    cbn [mbind option_bind datetime.peek datetime.advance
         datetime.set_component].
    change (Z.of_nat 8 - 3 - 3 - 3 <=? 0) with true. cbv iota.
    rewrite str_app_nil. cbn [datetime.peek]. rewrite Hs0.
    destruct t; simpl in *. by subst.
  - cbn [datetime.parse_hh_mm_ss].
    rewrite parse_digits_pad by (simpl; lia).
    cbn [mbind option_bind datetime.peek datetime.advance Ascii.eqb Bool.eqb
         datetime.set_component andb orb negb].
    change (Z.of_nat 15 - 3 <=? 0) with false. cbv iota.
    rewrite parse_digits_pad by (simpl; lia).
    cbn [mbind option_bind datetime.peek datetime.advance Ascii.eqb Bool.eqb
         datetime.set_component andb orb negb].
    change (Z.of_nat 15 - 3 - 3 <=? 0) with false. cbv iota.
    rewrite parse_digits_pad by (simpl; lia). rewrite !str_app_cons.
    cbn [mbind option_bind datetime.peek datetime.advance Ascii.eqb Bool.eqb
         datetime.set_component andb orb negb].
    change (Z.of_nat 15 - 3 - 3 - 3 <=? 0) with false. cbv iota.
    unfold datetime.parse_fraction.
    change (6 <=? Z.of_nat 15 - 3 - 3 - 3) with true. cbv iota.
    rewrite parse_digits_pad by (simpl; lia).
    cbn [mbind option_bind datetime.skip_digits datetime.peek].
    rewrite Hsign. cbn [datetime.peek]. rewrite Hs0.
    change (10 ^ (6 - Z.of_nat 6)) with 1. rewrite Z.mul_1_r.
    by destruct t.
Qed.

Lemma timezone_of_whole_hours_valid (negative : bool) (hh : Z) :
  0 ≤ hh ≤ 23 →
  datetime.timezone (whole_hours negative hh) = Ok (whole_hours negative hh).
Proof.
  intros H. destruct (small_nat_of_Z 24 hh) as (k & Hk & ->); [lia|].
  do 24 (destruct k as [|k]; [destruct negative; vm_compute; reflexivity|]). lia.
Qed.

(** The offset [HH:00] read to its end. *)
Lemma parse_offset_whole_hours (hh : Z) :
  0 ≤ hh ≤ 23 →
  datetime.parse_hh_mm_ss_ff (datetime.pad 2 hh +:+ ":" +:+ datetime.pad 2 0) 5 =
    Some (false, datetime.mkTime hh 0 0 0).
Proof.
  intros H. destruct (small_nat_of_Z 24 hh) as (k & Hk & ->); [lia|].
  do 24 (destruct k as [|k]; [vm_compute; reflexivity|]). lia.
Qed.

Lemma parse_isoformat_time_isoformat (t : datetime.time) (negative : bool) (hh : Z) :
  datetime.valid_time t = true → 0 ≤ hh ≤ 23 →
  datetime.parse_isoformat_time
    (datetime.isoformat_time t +:+ datetime.isoformat_offset (whole_hours negative hh)) =
    Some (t, Some (whole_hours negative hh)).
Proof.
  intros Hv Hhh. rewrite isoformat_offset_whole_hours by done.
  unfold datetime.parse_isoformat_time, offset_string.
  set (sign := if negative && negb (hh =? 0) then "-" else "+").
  assert (Hsign : ∃ c, sign = String c "" ∧ datetime.starts_offset c = true ∧
                        datetime.is_digit c = false ∧ c ≠ datetime.NUL ∧
                        Ascii.eqb c "Z" = false ∧
                        Ascii.eqb c "-" = negative && negb (hh =? 0)).
  { unfold sign. destruct (negative && negb (hh =? 0)); eexists; by repeat split. }
  destruct Hsign as (c & -> & Hstart & Hdig & Hnul & HZ & Hminus).
  norm_app.
  rewrite before_offset_app by (by try apply contains_isoformat_time).
  rewrite parse_hh_mm_ss_ff_isoformat by done.
  rewrite length_app. cbn [String.length].
  replace (String.length (datetime.isoformat_time t) =?
           String.length (datetime.isoformat_time t) + S _)%nat with false
    by (symmetry; apply Nat.eqb_neq; lia).
  rewrite skip_app. cbn [datetime.peek datetime.advance]. rewrite HZ, Hminus.
  rewrite ?length_app, ?length_pad. cbn [String.length Nat.add].
  rewrite ?length_pad. change (Z.of_nat 5) with 5.
  pose proof (parse_offset_whole_hours hh Hhh) as Hoff.
  change (datetime.pad 2 hh +:+ ":" +:+ datetime.pad 2 0)
    with (datetime.pad 2 hh +:+ String ":" (datetime.pad 2 0)) in Hoff.
  rewrite Hoff.
  unfold datetime.time_in_seconds, whole_hours, datetime.us_per_hour.
  cbn [datetime.hour datetime.minute datetime.second datetime.microsecond].
  destruct (hh =? 0) eqn:E0.
  - apply Z.eqb_eq in E0. subst hh. simpl. by destruct negative.
  - apply Z.eqb_neq in E0.
    replace ((hh * 60 + 0) * 60 + 0 =? 0) with false by (symmetry; apply Z.eqb_neq; lia).
    rewrite andb_true_r. do 3 f_equal. destruct negative; lia.
Qed.

Lemma parse_isoformat_isoformat (d : datetime.date) (t : datetime.time)
    (negative : bool) (hh : Z) :
  datetime.valid_date d = true → datetime.valid_time t = true → 0 ≤ hh ≤ 23 →
  datetime.fromisoformat
    (datetime.isoformat
       {| datetime.dt_date := d; datetime.dt_time := t;
          datetime.tzinfo := Some (whole_hours negative hh) |}) =
    Ok {| datetime.dt_date := d; datetime.dt_time := t;
          datetime.tzinfo := Some (whole_hours negative hh) |}.
Proof.
  intros Hd Ht Hhh. unfold datetime.fromisoformat, datetime.parse_isoformat,
    datetime.isoformat. simpl datetime.tzinfo. simpl datetime.dt_date. simpl datetime.dt_time.
  cbv iota.
  set (rest := datetime.isoformat_time t +:+ datetime.isoformat_offset _).
  rewrite find_separator_isoformat, parse_isoformat_date_isoformat by done.
  cbn [mbind option_bind].
  rewrite !length_app, length_isoformat_date. cbn [String.length].
  replace (10 <? Z.of_nat _) with true by (symmetry; apply Z.ltb_lt; lia).
  assert (Hskip : datetime.skip (Z.to_nat 10)
                    (datetime.isoformat_date d +:+ "T" +:+ rest) = String "T" rest).
  { change (Z.to_nat 10) with 10%nat. rewrite <- (length_isoformat_date d).
    by rewrite skip_app. }
  rewrite Hskip.
  change (datetime.skip (datetime.utf8_width (datetime.peek (String "T" rest)))
            (String "T" rest)) with rest.
  unfold rest. rewrite parse_isoformat_time_isoformat by done.
  cbn [mbind option_bind datetime.tzinfo datetime.dt_date datetime.dt_time].
  rewrite timezone_of_whole_hours_valid by done.
  rewrite check_date_args_valid by done.
  rewrite (proj2 (check_time_args_valid t) Ht). reflexivity.
Qed.

(** What [fromisoformat] returns has a time-of-day in range. *)
Lemma fromisoformat_valid_time (s : string) (dt : datetime.datetime) :
  datetime.fromisoformat s = Ok dt →
  datetime.valid_time (datetime.dt_time dt) = true.
Proof.
  unfold datetime.fromisoformat.
  destruct (datetime.parse_isoformat s) as [dt'|]; [|discriminate].
  destruct (match datetime.tzinfo dt' with Some o => _ | None => _ end); [|discriminate].
  destruct (datetime.check_date_args _); [|discriminate].
  destruct (datetime.check_time_args _) eqn:E; [|discriminate].
  simpl. intros [= <-]. apply check_time_args_valid. by destruct a1.
Qed.

(** *** The dict of a create payload *)

Lemma EventDateTime_dict_dateTime (x : EventDateTime) :
  EventDateTime_dict x !! "dateTime" = field_value (dateTime x).
Proof.
  unfold EventDateTime_dict. rewrite !set_field_lookup, lookup_empty.
  repeat case_decide; done.
Qed.

Lemma EventDateTime_dict_timeZone (x : EventDateTime) :
  EventDateTime_dict x !! "timeZone" = field_value (timeZone x).
Proof.
  unfold EventDateTime_dict. rewrite !set_field_lookup, lookup_empty.
  repeat case_decide; done.
Qed.

Lemma CalendarEventCreate_dict_start (e : CalendarEventCreate) :
  CalendarEventCreate_dict e !! "start" = Some (PDict (EventDateTime_dict (start e))).
Proof.
  unfold CalendarEventCreate_dict. rewrite !set_field_lookup.
  repeat case_decide; try done.
  rewrite lookup_insert_ne by done. by rewrite lookup_insert_eq.
Qed.

Lemma CalendarEventCreate_dict_end (e : CalendarEventCreate) :
  CalendarEventCreate_dict e !! "end" = Some (PDict (EventDateTime_dict (end_ e))).
Proof.
  unfold CalendarEventCreate_dict. rewrite !set_field_lookup.
  repeat case_decide; try done. by rewrite lookup_insert_eq.
Qed.

(** Lines 358-362 on the dict of a payload. *)
Lemma adjust_start_run (today : datetime.date) (e : CalendarEventCreate) :
  adjust_start today (CalendarEventCreate_dict e) =
    match field_value (dateTime (start e)) with
    | Some dt =>
        adjusted ← adjust_datetime today dt
                     (default (PStr default_timezone) (field_value (timeZone (start e))));
        Ok (<["start" := PDict (<["dateTime" := PStr adjusted]>
                                  (EventDateTime_dict (start e)))]>
              (CalendarEventCreate_dict e))
    | None => Ok (CalendarEventCreate_dict e)
    end.
Proof.
  unfold adjust_start, sub_dict, dict_get.
  by rewrite CalendarEventCreate_dict_start, EventDateTime_dict_dateTime,
    EventDateTime_dict_timeZone.
Qed.

(** The start adjustment leaves [end] and [start.timeZone] as they were. *)
Lemma adjust_start_frame (today : datetime.date) (e : CalendarEventCreate)
    (d : gmap string pyval) :
  adjust_start today (CalendarEventCreate_dict e) = Ok d →
  d !! "end" = Some (PDict (EventDateTime_dict (end_ e))) ∧
  ∃ st, sub_dict d "start" = Some st ∧
        st !! "timeZone" = field_value (timeZone (start e)).
Proof.
  rewrite adjust_start_run.
  destruct (field_value (dateTime (start e))) as [dt|].
  - destruct (adjust_datetime today dt _) as [adjusted|err]; [|discriminate].
    simpl. intros [= <-]. split.
    + rewrite lookup_insert_ne by done. apply CalendarEventCreate_dict_end.
    + eexists. unfold sub_dict. rewrite lookup_insert_eq. split; [done|].
      rewrite lookup_insert_ne by done. apply EventDateTime_dict_timeZone.
  - intros [= <-]. split; [apply CalendarEventCreate_dict_end|].
    eexists. unfold sub_dict. rewrite CalendarEventCreate_dict_start.
    split; [done|]. apply EventDateTime_dict_timeZone.
Qed.

(** The end adjustment leaves [start] as it was. *)
Lemma adjust_end_frame (today : datetime.date) (d d' : gmap string pyval) :
  adjust_end today d = Ok d' → d' !! "start" = d !! "start".
Proof.
  unfold adjust_end. destruct (sub_dict d "end") as [en|]; [|by intros [= <-]].
  destruct (en !! "dateTime") as [dt|]; [|by intros [= <-]].
  destruct (adjust_datetime today dt _) as [adjusted|err]; [|discriminate].
  simpl. intros [= <-]. by rewrite lookup_insert_ne.
Qed.

(** The one remote call of [create_calendar_event], when it makes one. *)
Lemma create_calendar_event_calls (service : CalendarService)
    (now_utc : datetime.datetime) (e : CalendarEventCreate) (c : calendar_call) :
  In c (calls (create_calendar_event service now_utc e)) →
  ∃ d1 d2,
    adjust_start (datetime.dt_date now_utc) (CalendarEventCreate_dict e) = Ok d1 ∧
    adjust_end (datetime.dt_date now_utc) d1 = Ok d2 ∧
    c = EventsInsert "primary" d2 "all".
Proof.
  unfold create_calendar_event. rewrite calls_try_except_raise.
  destruct (adjust_start _ _) as [d1|err]; [|intros []].
  destruct (adjust_end (datetime.dt_date now_utc) d1) as [d2|err] eqn:Hend.
  - unfold lift. simpl. rewrite Hend. simpl.
    destruct (events_insert service "primary" d2 "all"); simpl;
      (intros [<-|[]]; eauto).
  - unfold lift. simpl. rewrite Hend. intros [].
Qed.

(** C2: when [start.dateTime] parses (a ["Z"] read as ["+00:00"]) to a
    datetime whose offset is a whole number of hours, and [start.timeZone]
    is that offset written [±HH:00], the [start.dateTime] in the body of the
    insert call is the ISO text of the datetime that has the current UTC
    date, the time-of-day of the input and the offset of the input; read
    back, the text gives that date, time-of-day and offset; and the
    [start.timeZone] sent is the one received. *)
Theorem create_calendar_event_adjusts_start (service : CalendarService)
    (now_utc : datetime.datetime) (e : CalendarEventCreate)
    (s : string) (dt : datetime.datetime) (negative : bool) (hh : Z)
    (calendarId sendUpdates : string) (body : gmap string pyval) :
  dateTime (start e) = Some (Some s) →
  timeZone (start e) = Some (Some (offset_string negative hh 0)) →
  0 ≤ hh ≤ 23 →
  datetime.fromisoformat (PyStr.replace_char "Z" "+00:00" s) = Ok dt →
  datetime.tzinfo dt = Some (whole_hours negative hh) →
  In (EventsInsert calendarId body sendUpdates)
     (calls (create_calendar_event service now_utc e)) →
  let adjusted_dt :=
    {| datetime.dt_date := datetime.dt_date now_utc;
       datetime.dt_time := datetime.dt_time dt;
       datetime.tzinfo := datetime.tzinfo dt |} in
  ∃ st,
    body !! "start" = Some (PDict st) ∧
    st !! "dateTime" = Some (PStr (datetime.isoformat adjusted_dt)) ∧
    st !! "timeZone" = Some (PStr (offset_string negative hh 0)) ∧
    (datetime.valid_date (datetime.dt_date now_utc) = true →
     datetime.fromisoformat (datetime.isoformat adjusted_dt) = Ok adjusted_dt).
Proof.
  intros Hdt Htz Hhh Hparse Hoff Hin adjusted_dt.
  apply create_calendar_event_calls in Hin as (d1 & d2 & Hstart & Hend & Hc).
  injection Hc as -> -> ->.
  rewrite adjust_start_run, Hdt, Htz in Hstart. simpl in Hstart.
  rewrite (adjust_datetime_whole_hours _ _ _ _ _ Hparse Hhh) in Hstart.
  simpl in Hstart. injection Hstart as <-.
  apply adjust_end_frame in Hend. rewrite Hend, lookup_insert_eq.
  eexists. split; [done|]. unfold adjusted_dt. rewrite Hoff. split; [|split].
  - by rewrite lookup_insert_eq.
  - rewrite lookup_insert_ne by done.
    by rewrite EventDateTime_dict_timeZone, Htz.
  - intros Hvalid. apply parse_isoformat_isoformat; [done | | done].
    by apply fromisoformat_valid_time in Hparse.
Qed.

(** The scenario of C2: "2025-09-22T09:00:00+08:00" with timezone "+08:00",
    submitted on the UTC date 2025-10-01. *)
Lemma create_calendar_event_adjusts_start_witness :
  ∃ body st,
    calls (create_calendar_event sample_calendar sample_now offset_example) =
      [EventsInsert "primary" body "all"] ∧
    body !! "start" = Some (PDict st) ∧
    st !! "dateTime" = Some (PStr "2025-10-01T09:00:00+08:00").
Proof.
  assert (Hc : ∃ body,
    calls (create_calendar_event sample_calendar sample_now offset_example) =
      [EventsInsert "primary" body "all"])
    by (eexists; vm_compute; reflexivity).
  destruct Hc as [body Hc].
  edestruct (create_calendar_event_adjusts_start sample_calendar sample_now
               offset_example "2025-09-22T09:00:00+08:00"
               {| datetime.dt_date := datetime.mkDate 2025 9 22;
                  datetime.dt_time := datetime.mkTime 9 0 0 0;
                  datetime.tzinfo := Some 28800000000 |}
               false 8 "primary" "all" body) as (st & Hb & Hd & _ & _);
    [reflexivity | reflexivity | lia | vm_compute; reflexivity | reflexivity
    | rewrite Hc; left; reflexivity |].
  exists body, st. split; [exact Hc|]. split; [exact Hb|]. exact Hd.
Defined.

(** *** The timezone of the end adjustment, and named zones *)

(** The first half of C5 holds: the end adjustment takes [end.timeZone]
    when the payload has it, else [start.timeZone] when it has that, else
    the default. *)
Lemma adjust_end_timezone_fallback (today : datetime.date)
    (e : CalendarEventCreate) (d1 : gmap string pyval) (dt : pyval) :
  adjust_start today (CalendarEventCreate_dict e) = Ok d1 →
  field_value (dateTime (end_ e)) = Some dt →
  adjust_end today d1 =
    (adjusted ← adjust_datetime today dt (end_timezone e);
     Ok (<["end" := PDict (<["dateTime" := PStr adjusted]>
                             (EventDateTime_dict (end_ e)))]> d1)).
Proof.
  intros (Hend & st & Hst & Htz)%adjust_start_frame Hdt.
  unfold adjust_end, sub_dict in *. rewrite Hend.
  rewrite EventDateTime_dict_dateTime, Hdt.
  unfold dict_get, end_timezone.
  rewrite EventDateTime_dict_timeZone. rewrite Hst. simpl. rewrite Htz.
  reflexivity.
Qed.

(** A timezone text [int] does not read stops [adjust_datetime] with the
    exception of [int]. *)
Lemma adjust_datetime_named_zone (today : datetime.date) (s z : string)
    (dt : datetime.datetime) (err : exn) :
  datetime.fromisoformat (PyStr.replace_char "Z" "+00:00" s) = Ok dt →
  PyInt.int (PyStr.split_head ":" z) = Raise err →
  adjust_datetime today (PStr s) (PStr z) = Raise err.
Proof.
  intros Hparse Hint. unfold adjust_datetime. simpl as_str.
  unfold mbind, result_bind, rbind at 1. unfold rbind at 1. rewrite Hparse.
  unfold rbind at 1. by rewrite Hint.
Qed.

(** C5 fails on the code in its second half: on the example request of the
    handler's own docstring, whose timezone is the named zone
    "Asia/Kuala_Lumpur", [create_calendar_event] makes no remote call and
    ends in the 500 error that carries the [ValueError] of [int]; no adjusted
    datetime is produced. *)
Theorem create_calendar_event_named_zone_fails (service : CalendarService)
    (now_utc : datetime.datetime) :
  create_calendar_event service now_utc docstring_example =
    ([], Raise (HTTPException 500
                  "invalid literal for int() with base 10: 'Asia/Kuala_Lumpur'")).
Proof. reflexivity. Qed.

(** The default zone is a named zone too: a payload that sets
    [start.dateTime] and no [start.timeZone] fails the same way. *)
Lemma create_calendar_event_default_zone_fails (service : CalendarService)
    (now_utc : datetime.datetime) (e : CalendarEventCreate)
    (s : string) (dt : datetime.datetime) :
  dateTime (start e) = Some (Some s) →
  timeZone (start e) = None →
  datetime.fromisoformat (PyStr.replace_char "Z" "+00:00" s) = Ok dt →
  create_calendar_event service now_utc e =
    ([], Raise (HTTPException 500
                  "invalid literal for int() with base 10: 'Asia/Kuala_Lumpur'")).
Proof.
  intros Hdt Htz Hparse. unfold create_calendar_event.
  rewrite adjust_start_run, Hdt, Htz. simpl field_value. simpl default.
  unfold default_timezone.
  rewrite (adjust_datetime_named_zone _ _ "Asia/Kuala_Lumpur" _
             (PyInt.invalid_literal "Asia/Kuala_Lumpur") Hparse) by reflexivity.
  reflexivity.
Qed.

(** * Further properties of the handlers *)

(** ** Message Normalizer *)

(** Whatever the loop returns in an accumulator is what it started with or
    the value of a header of that name. *)
Lemma scan_headers_sound hs :
  ∀ s f s' f',
    scan_headers hs s f = (s', f') →
    (s' = s ∨ ∃ h, In h hs ∧ header_named "subject" h = true ∧
                    default "" (value h) = s') ∧
    (f' = f ∨ ∃ h, In h hs ∧ header_named "from" h = true ∧
                    default "" (value h) = f').
Proof.
  induction hs as [|h hs IH]; intros s f s' f' Hrun.
  { injection Hrun as <- <-. by split; left. }
  rewrite scan_headers_cons in Hrun.
  destruct (header_named "subject" h) eqn:Esub.
  - destruct (IH _ _ _ _ Hrun) as [[->|(h' & Hin & Hn & Hv)] Hf].
    + split; [right; exists h; simpl; auto|].
      destruct Hf as [->|(h' & Hin & Hn & Hv)]; [by left|].
      right; exists h'; simpl; auto.
    + split; [right; exists h'; simpl; auto|].
      destruct Hf as [->|(h'' & Hin' & Hn' & Hv')]; [by left|].
      right; exists h''; simpl; auto.
  - destruct (header_named "from" h) eqn:Efrom.
    + destruct (PyStr.truthy s && PyStr.truthy (default "" (value h))).
      * injection Hrun as <- <-. split; [by left|]. right; exists h; simpl; auto.
      * destruct (IH _ _ _ _ Hrun) as [Hs Hf]. split.
        -- destruct Hs as [->|(h' & Hin & Hn & Hv)]; [by left|].
           right; exists h'; simpl; auto.
        -- destruct Hf as [->|(h' & Hin & Hn & Hv)];
             right; [exists h | exists h']; simpl; auto.
    + destruct (IH _ _ _ _ Hrun) as [Hs Hf]. split.
      * destruct Hs as [->|(h' & Hin & Hn & Hv)]; [by left|].
        right; exists h'; simpl; auto.
      * destruct Hf as [->|(h' & Hin & Hn & Hv)]; [by left|].
        right; exists h'; simpl; auto.
Qed.

Lemma count_named_zero_not_In n hs h :
  count_named n hs = 0%nat → In h hs → header_named n h = false.
Proof.
  induction hs as [|x hs IH]; [intros _ []|].
  rewrite count_named_cons. intros Hc [<-|Hin].
  - destruct (header_named n x); [lia | done].
  - apply IH; [|done]. destruct (header_named n x); lia.
Qed.

(** X1: the subject [get_message_data] returns is the empty string or the
    value of a header of the message named "subject" (in any case), never
    the value of a header of another name, and it is the empty string when
    no header is named "subject"; the same for from and "from". This holds
    for every header list, repeated names included. *)
Theorem get_message_data_values_from_headers (m : Message) (r : EmailSummary) :
  get_message_data m = Ok r →
  (subject r = "" ∨
   ∃ h, In h (message_headers m) ∧ header_named "subject" h = true ∧
        default "" (value h) = subject r) ∧
  (from_ r = "" ∨
   ∃ h, In h (message_headers m) ∧ header_named "from" h = true ∧
        default "" (value h) = from_ r) ∧
  (count_named "subject" (message_headers m) = 0%nat → subject r = "") ∧
  (count_named "from" (message_headers m) = 0%nat → from_ r = "").
Proof.
  unfold get_message_data.
  destruct (scan_headers (message_headers m) "" "") as [s f] eqn:Hscan.
  destruct (id m) as [i|]; [|discriminate]. simpl. intros [= <-]. simpl.
  destruct (scan_headers_sound _ _ _ _ _ Hscan) as [Hs Hf].
  repeat split; try done.
  - intros H0. destruct Hs as [->|(h & Hin & Hn & _)]; [done|].
    by rewrite (count_named_zero_not_In _ _ _ H0 Hin) in Hn.
  - intros H0. destruct Hf as [->|(h & Hin & Hn & _)]; [done|].
    by rewrite (count_named_zero_not_In _ _ _ H0 Hin) in Hn.
Qed.

Lemma get_message_data_values_from_headers_witness :
  ∃ r, get_message_data
         {| id := Some "m1"; snippet := None;
            payload := Some {| headers := Some
              [ {| name := Some "To"; value := Some "me@b.c" |};
                {| name := Some "from"; value := Some "a@b.c" |} ] |} |} = Ok r ∧
       subject r = "" ∧ from_ r = "a@b.c".
Proof.
  eexists. split; [reflexivity|].
  destruct (get_message_data_values_from_headers
              {| id := Some "m1"; snippet := None;
                 payload := Some {| headers := Some
                   [ {| name := Some "To"; value := Some "me@b.c" |};
                     {| name := Some "from"; value := Some "a@b.c" |} ] |} |}
              _ eq_refl) as (_ & _ & Hs & _).
  split; [exact (Hs eq_refl) | reflexivity].
Defined.

(** Headers before the first one named "from" only move the subject. *)
Lemma scan_headers_app_no_from hs1 :
  ∀ rest s f,
    count_named "from" hs1 = 0%nat →
    scan_headers (hs1 ++ rest) s f =
      scan_headers rest (fst (scan_headers hs1 s f)) f ∧
    snd (scan_headers hs1 s f) = f.
Proof.
  induction hs1 as [|h hs1 IH]; intros rest s f H0; [done|].
  rewrite count_named_cons in H0. simpl app. rewrite !scan_headers_cons.
  destruct (header_named "subject" h); [apply IH; lia|].
  destruct (header_named "from" h); [lia|]. apply IH; lia.
Qed.

(** X2: the loop stops at the first header named "from" once a subject has
    been read: when the headers before it name no "from" and leave a
    non-empty subject, and its own value is not empty, every header after
    it is ignored, whatever its name. *)
Theorem scan_headers_stops_at_from (hs1 hs2 : list Header) (h : Header)
    (s : string) :
  count_named "from" hs1 = 0%nat →
  fst (scan_headers hs1 "" "") = s → s ≠ "" →
  header_named "from" h = true →
  default "" (value h) ≠ "" →
  scan_headers (hs1 ++ h :: hs2) "" "" = (s, default "" (value h)).
Proof.
  intros H0 Hs Hne Hfrom Hv.
  destruct (scan_headers_app_no_from hs1 (h :: hs2) "" "" H0) as [-> _].
  rewrite Hs, scan_headers_cons, Hfrom.
  assert (header_named "subject" h = false) as ->.
  { destruct (header_named "subject" h) eqn:E; [|done].
    by rewrite (header_named_subject_from h E) in Hfrom. }
  destruct s; [done|]. by destruct (default "" (value h)).
Qed.

Lemma scan_headers_stops_at_from_witness :
  scan_headers
    ([ {| name := Some "Subject"; value := Some "Hi" |} ] ++
     {| name := Some "From"; value := Some "a@b.c" |} ::
     [ {| name := Some "Subject"; value := Some "Later" |};
       {| name := Some "From"; value := Some "z@b.c" |} ]) "" ""
  = ("Hi", "a@b.c").
Proof.
  apply (scan_headers_stops_at_from
           [ {| name := Some "Subject"; value := Some "Hi" |} ]);
    [reflexivity | reflexivity | discriminate | reflexivity | discriminate].
Defined.

(** X3: only the id is required of a raw message: without an id
    [get_message_data] raises [KeyError], whatever else the message holds;
    with one, a message that has no payload, or a payload without a header
    list, and no snippet gives the summary with three empty strings. *)
Theorem get_message_data_missing_keys (m : Message) :
  (id m = None → get_message_data m = Raise (KeyError "id")) ∧
  (∀ i, id m = Some i → snippet m = None →
        payload m = None ∨ payload m = Some {| headers := None |} →
        get_message_data m =
          Ok {| email_id := i; es_snippet := ""; subject := ""; from_ := "" |}).
Proof.
  split.
  - intros Hid. unfold get_message_data.
    destruct (scan_headers _ "" "") as [s f]. by rewrite Hid.
  - intros i Hid Hsn Hp. unfold get_message_data, message_headers.
    rewrite Hid, Hsn. by destruct Hp as [-> | ->].
Qed.

Lemma get_message_data_missing_keys_witness :
  get_message_data {| id := None; snippet := Some "x"; payload := None |}
    = Raise (KeyError "id") ∧
  get_message_data {| id := Some "m1"; snippet := None; payload := None |}
    = Ok {| email_id := "m1"; es_snippet := ""; subject := ""; from_ := "" |}.
Proof.
  split.
  - exact (proj1 (get_message_data_missing_keys
                    {| id := None; snippet := Some "x"; payload := None |}) eq_refl).
  - exact (proj2 (get_message_data_missing_keys
                    {| id := Some "m1"; snippet := None; payload := None |})
             "m1" eq_refl eq_refl (or_introl eq_refl)).
Defined.

(** ** List emails *)

(** One turn of the [for message in messages] loop. *)
Lemma fetch_details_cons service m rest acc :
  fetch_details service (m :: rest) acc =
    match id m with
    | None => ([], Raise (KeyError "id"))
    | Some i =>
        match messages_get service "me" i (Some "full") with
        | Raise e => ([MessagesGet "me" i (Some "full")], Raise e)
        | Ok msg =>
            match get_message_data msg with
            | Raise e => ([MessagesGet "me" i (Some "full")], Raise e)
            | Ok d =>
                (MessagesGet "me" i (Some "full") ::
                   calls (fetch_details service rest (acc ++ [d])),
                 outcome (fetch_details service rest (acc ++ [d])))
            end
        end
    end.
Proof.
  simpl. destruct (id m) as [i|]; simpl; [|done].
  destruct (messages_get service "me" i (Some "full")) as [msg|e]; simpl; [|done].
  destruct (get_message_data msg) as [d|e]; simpl; [|done].
  by destruct (fetch_details service rest (acc ++ [d])).
Qed.

(** Every run of [get_emails], by the answers it meets. *)
Lemma get_emails_run service label :
  get_emails service label =
    let list_call := MessagesList "me" (label_query label) 10 in
    match messages_list service "me" (label_query label) 10 with
    | Raise e => ([list_call], Raise (gmail_error e))
    | Ok results =>
        match default [] (messages results) with
        | [] => ([list_call], Ok {| emails := []; count := 0 |})
        | msgs =>
            (list_call :: calls (fetch_details service msgs []),
             match outcome (fetch_details service msgs []) with
             | Ok ds => Ok {| emails := ds; count := length ds |}
             | Raise e => Raise (gmail_error e)
             end)
        end
    end.
Proof.
  unfold get_emails, gmail_error. cbv zeta.
  destruct (messages_list service "me" (label_query label) 10) as [results|e];
    [|by simpl; destruct (is_RequestException e)].
  unfold mbind at 1, io_bind at 1, bind at 1, execute. cbv beta iota.
  destruct (default [] (messages results)) as [|m ms]; [reflexivity|].
  generalize (fetch_details service (m :: ms) []). intros [t [ds|e]]; simpl;
    [by rewrite app_nil_r | by destruct (is_RequestException e); rewrite app_nil_r].
Qed.

(** What a completed loop has done: one get call per listed message, in
    order, and one summary per message appended, in order. *)
Lemma fetch_details_Ok service msgs :
  ∀ acc out,
    outcome (fetch_details service msgs acc) = Ok out →
    ∃ ds, out = acc ++ ds ∧
          Forall2 (fetched_as service) msgs ds ∧
          calls (fetch_details service msgs acc) = detail_call <$> msgs.
Proof.
  induction msgs as [|m rest IH]; intros acc out Hrun.
  { injection Hrun as <-. exists []. by rewrite app_nil_r. }
  rewrite fetch_details_cons in Hrun |- *.
  destruct (id m) as [i|] eqn:Hid; [|discriminate].
  destruct (messages_get service "me" i (Some "full")) as [msg|e] eqn:Hget;
    [|discriminate].
  destruct (get_message_data msg) as [d|e] eqn:Hd; [|discriminate].
  destruct (IH _ _ Hrun) as (ds & -> & Hall & Hcalls).
  exists (d :: ds). rewrite <- app_assoc. split; [done|]. split.
  - constructor; [|done]. by exists i, msg.
  - unfold calls at 1. simpl. rewrite Hcalls. unfold detail_call at 2.
    by rewrite Hid.
Qed.

(** X4: when the list call answers with no messages, be it an empty list
    or no [messages] key, [get_emails] returns no emails and the count 0
    after that one call: it fetches nothing and raises nothing. *)
Theorem get_emails_empty_result (service : GmailService) (label : option string)
    (results : ListResponse) :
  messages_list service "me" (label_query label) 10 = Ok results →
  messages results = None ∨ messages results = Some [] →
  get_emails service label =
    ([MessagesList "me" (label_query label) 10],
     Ok {| emails := []; count := 0 |}).
Proof.
  intros Hlist Hempty. rewrite get_emails_run. cbv zeta. rewrite Hlist.
  by destruct Hempty as [-> | ->].
Qed.

Lemma get_emails_empty_result_witness :
  get_emails sample_gmail (Some "Work") =
    ([MessagesList "me" "label:Work" 10], Ok {| emails := []; count := 0 |}).
Proof.
  exact (get_emails_empty_result sample_gmail (Some "Work")
           {| messages := Some [] |} eq_refl (or_intror eq_refl)).
Defined.

(** X5: a successful [get_emails] has made the list call and then one get
    call, with [format="full"], for each listed message in the order of the
    list; its emails are the normalised fetched messages in that same order,
    and its count is their number, which is the number of listed messages. *)
Theorem get_emails_success_shape (service : GmailService) (label : option string)
    (results : ListResponse) (response : EmailsResponse) :
  messages_list service "me" (label_query label) 10 = Ok results →
  outcome (get_emails service label) = Ok response →
  let msgs := default [] (messages results) in
  calls (get_emails service label) =
    MessagesList "me" (label_query label) 10 :: (detail_call <$> msgs) ∧
  Forall2 (fetched_as service) msgs (emails response) ∧
  count response = length (emails response) ∧
  count response = length msgs.
Proof.
  intros Hlist. rewrite get_emails_run. cbv zeta. rewrite Hlist.
  destruct (default [] (messages results)) as [|m ms] eqn:Hmsgs.
  { intros [= <-]. repeat split. constructor. }
  destruct (fetch_details service (m :: ms) []) as [t [ds|e]] eqn:Hfd;
    [|discriminate].
  intros [= <-].
  assert (Hrun : outcome (fetch_details service (m :: ms) []) = Ok ds)
    by (by rewrite Hfd).
  destruct (fetch_details_Ok _ _ _ _ Hrun) as (ds' & -> & Hall & Hc).
  rewrite Hfd in Hc. simpl in Hc. subst t.
  repeat split; [done|]. simpl count. simpl app.
  symmetry. exact (Forall2_length _ _ _ Hall).
Qed.

Lemma get_emails_success_shape_witness :
  calls (get_emails inbox_gmail None) =
    [ MessagesList "me" "" 10;
      MessagesGet "me" "m1" (Some "full");
      MessagesGet "me" "m2" (Some "full") ] ∧
  (emails <$> outcome (get_emails inbox_gmail None)) =
    Ok [ {| email_id := "m1"; es_snippet := "preview";
            subject := "About m1"; from_ := "a@b.c" |};
         {| email_id := "m2"; es_snippet := "preview";
            subject := "About m2"; from_ := "a@b.c" |} ].
Proof.
  split; [|reflexivity].
  exact (proj1 (get_emails_success_shape inbox_gmail None _ _ eq_refl eq_refl)).
Defined.

(** X6: [get_emails] raises nothing but an [HTTPException] of status 500,
    and its detail names the exception that ended the request, the one the
    list call was answered with or the one that ended the loop over the
    listed messages: "Gmail API error: " and the text of the exception for
    a [RequestException], "Unexpected error: " and the text of the
    exception for every other one, an [HttpError] of the remote API and a
    [KeyError] included. *)
Theorem get_emails_raises_only_500 (service : GmailService)
    (label : option string) :
  (∀ cause text,
     get_emails_ended_by service label cause →
     cause = RequestException text →
     outcome (get_emails service label) =
       Raise (HTTPException 500 ("Gmail API error: " +:+ text))) ∧
  (∀ cause,
     get_emails_ended_by service label cause →
     is_RequestException cause = false →
     outcome (get_emails service label) =
       Raise (HTTPException 500 ("Unexpected error: " +:+ str_exn cause))) ∧
  (∀ e,
     outcome (get_emails service label) = Raise e →
     ∃ cause, get_emails_ended_by service label cause ∧
              e = HTTPException 500
                    ((if is_RequestException cause
                      then "Gmail API error: " else "Unexpected error: ")
                     +:+ str_exn cause)).
Proof.
  assert (Hrun : ∀ cause, get_emails_ended_by service label cause →
            outcome (get_emails service label) = Raise (gmail_error cause)).
  { intros cause Hc. rewrite get_emails_run. cbv zeta.
    destruct Hc as [Hl|(results & Hl & Hloop)]; rewrite Hl; [done|].
    destruct (default [] (messages results)) as [|m ms]; [discriminate Hloop|].
    revert Hloop. generalize (fetch_details service (m :: ms) []).
    intros [t r]. unfold outcome. simpl. by intros ->. }
  split; [|split].
  - intros cause text Hc ->. by rewrite (Hrun _ Hc).
  - intros cause Hc Hne. rewrite (Hrun _ Hc). unfold gmail_error. by rewrite Hne.
  - intros e. rewrite get_emails_run. cbv zeta.
    destruct (messages_list service "me" (label_query label) 10) as [results|e0] eqn:Hl.
    + destruct (default [] (messages results)) as [|m ms] eqn:Hm; [discriminate|].
      assert (Hloop : ∀ e0, outcome (fetch_details service (m :: ms) []) = Raise e0 →
                get_emails_ended_by service label e0).
      { intros e0 He0. right. exists results. by rewrite Hl, Hm. }
      revert Hloop. generalize (fetch_details service (m :: ms) []).
      intros [t [ds|e0]] Hloop; unfold outcome; simpl; [discriminate|].
      intros [= <-]. exists e0. split.
      * by apply Hloop.
      * unfold gmail_error. by destruct (is_RequestException e0).
    + intros [= <-]. exists e0. split; [by left|].
      unfold gmail_error. by destruct (is_RequestException e0).
Qed.

Lemma get_emails_raises_only_500_witness :
  outcome (get_emails timed_out_gmail None) =
    Raise (HTTPException 500 "Gmail API error: timed out") ∧
  outcome (get_emails failing_gmail None) =
    Raise (HTTPException 500 "Unexpected error: backend error") ∧
  outcome (get_emails broken_inbox_gmail None) =
    Raise (HTTPException 500 "Unexpected error: not found").
Proof.
  split; [|split].
  - exact (proj1 (get_emails_raises_only_500 timed_out_gmail None)
             _ "timed out" (or_introl eq_refl) eq_refl).
  - exact (proj1 (proj2 (get_emails_raises_only_500 failing_gmail None))
             (HttpError 503 "backend error") (or_introl eq_refl) eq_refl).
  - exact (proj1 (proj2 (get_emails_raises_only_500 broken_inbox_gmail None))
             (HttpError 404 "not found")
             (or_intror (ex_intro _ _ (conj eq_refl eq_refl))) eq_refl).
Defined.

(** A message whose get call fails ends the loop in an exception,
    wherever it stands in the list. *)
Lemma fetch_details_aborts service msgs :
  ∀ acc m i e,
    In m msgs → id m = Some i →
    messages_get service "me" i (Some "full") = Raise e →
    ∃ e', outcome (fetch_details service msgs acc) = Raise e'.
Proof.
  induction msgs as [|x rest IH]; intros acc m i e Hin Hid Hget; [destruct Hin|].
  rewrite fetch_details_cons.
  destruct Hin as [->|Hin].
  - rewrite Hid, Hget. eauto.
  - destruct (id x) as [j|]; [|eauto].
    destruct (messages_get service "me" j (Some "full")) as [msg|e0]; [|eauto].
    destruct (get_message_data msg) as [d|e0]; [|eauto].
    exact (IH _ m i e Hin Hid Hget).
Qed.

(** X7: one listed message that cannot be fetched fails the whole request:
    [get_emails] then raises (an [HTTPException] of status 500) and returns
    no partial list, wherever the message stands in the list. *)
Theorem get_emails_no_partial_result (service : GmailService)
    (label : option string) (results : ListResponse) (m : Message)
    (i : string) (e : exn) :
  messages_list service "me" (label_query label) 10 = Ok results →
  In m (default [] (messages results)) →
  id m = Some i →
  messages_get service "me" i (Some "full") = Raise e →
  ∃ detail, outcome (get_emails service label) = Raise (HTTPException 500 detail).
Proof.
  intros Hlist Hin Hid Hget. rewrite get_emails_run. cbv zeta. rewrite Hlist.
  destruct (default [] (messages results)) as [|x ms] eqn:Hmsgs; [destruct Hin|].
  destruct (fetch_details_aborts service (x :: ms) [] m i e Hin Hid Hget) as [e' He'].
  destruct (fetch_details service (x :: ms) []) as [t r]. simpl in He'. subst r.
  unfold gmail_error. simpl. destruct (is_RequestException e'); eauto.
Qed.

Lemma get_emails_no_partial_result_witness :
  ∃ detail, outcome (get_emails broken_inbox_gmail None) =
              Raise (HTTPException 500 detail).
Proof.
  exact (get_emails_no_partial_result broken_inbox_gmail None _
           {| id := Some "m2"; snippet := None; payload := None |} "m2"
           (HttpError 404 "not found")
           eq_refl (or_intror (or_introl eq_refl)) eq_refl eq_refl).
Defined.

(** ** Reply *)

(** X8: [reply_to_email] swallows only an [HttpError]: any other exception
    a remote call is answered with, a transport failure for one, leaves the
    handler as it is, for the get call and for the send call alike. *)
Theorem reply_to_email_propagates_other_errors (library : EmailLibrary)
    (service : GmailService) (req : ReplyRequest) (e : exn) :
  is_HttpError e = false →
  (∀ u i f,
     In (MessagesGet u i f) (calls (reply_to_email library service req)) →
     messages_get service u i f = Raise e →
     outcome (reply_to_email library service req) = Raise e) ∧
  (∀ u b,
     In (MessagesSend u b) (calls (reply_to_email library service req)) →
     messages_send service u b = Raise e →
     outcome (reply_to_email library service req) = Raise e).
Proof.
  intros He. rewrite reply_to_email_run. cbv zeta. unfold swallow_HttpError.
  destruct (refused_before_fetch library req) as [e0|];
    [|destruct (messages_get service "me" (message_id req) None) as [msg|e0] eqn:Hget;
      [destruct (snippet msg) as [s|];
       [destruct (refused_after_fetch library req s) as [e0|];
        [|destruct (messages_send service "me" _) as [res|e0] eqn:Hsnd;
          [destruct (res !! "id") as [i|] eqn:Hid|]]|]|]];
    split; intros; in_calls; simpl; try congruence.
  - replace e0 with e by congruence. by rewrite He.
  - replace e0 with e by congruence. by rewrite He.
Qed.

Lemma reply_to_email_propagates_other_errors_witness :
  outcome (reply_to_email sample_email unreachable_gmail sample_reply) =
    Raise (TransportError "connection refused").
Proof.
  exact (proj1 (reply_to_email_propagates_other_errors sample_email unreachable_gmail
                  sample_reply (TransportError "connection refused") eq_refl)
           "me" "abc123" None (or_introl eq_refl) eq_refl).
Defined.

(** X9: the remote calls of [reply_to_email] are none, or the get call of
    the original message alone, or that get call followed by one send call
    with the request's [message_id] for [threadId]: nothing is sent before
    the original was fetched and nothing is sent twice. The get call is
    made exactly when the [email] library accepts the body, the recipient
    and the sender; when it refuses one of them, as the default policy
    refuses the recipient "<" with an [IndexError], no call is made and the
    exception leaves the handler, unless it is an [HttpError]. *)
Theorem reply_to_email_call_order (library : EmailLibrary) (service : GmailService)
    (req : ReplyRequest) :
  let get := MessagesGet "me" (message_id req) None in
  (calls (reply_to_email library service req) = [] ∨
   calls (reply_to_email library service req) = [get] ∨
   ∃ b, calls (reply_to_email library service req) = [get; MessagesSend "me" b] ∧
        threadId b = message_id req) ∧
  (∀ e, refused_before_fetch library req = Some e →
        reply_to_email library service req = ([], swallow_HttpError e)) ∧
  (refused_before_fetch library req = None →
   ∃ rest, calls (reply_to_email library service req) = get :: rest).
Proof.
  rewrite reply_to_email_run. cbv zeta.
  destruct (refused_before_fetch library req) as [e0|].
  { split; [by left|]. split; [by intros e [= <-]|discriminate]. }
  split; [|split; [discriminate|intros _]].
  - destruct (messages_get service "me" (message_id req) None) as [msg|e];
      [|by right; left].
    destruct (snippet msg) as [s|]; [|by right; left].
    destruct (refused_after_fetch library req s); [by right; left|].
    right; right.
    exists {| raw := composed_reply req s; threadId := message_id req |}.
    split; [|reflexivity].
    destruct (messages_send service "me" _) as [res|e]; [by destruct (res !! "id")|done].
  - destruct (messages_get service "me" (message_id req) None) as [msg|e];
      [|by eexists].
    destruct (snippet msg) as [s|]; [|by eexists].
    destruct (refused_after_fetch library req s); [by eexists|].
    destruct (messages_send service "me" _) as [res|e];
      [destruct (res !! "id")|]; by eexists.
Qed.

Lemma reply_to_email_call_order_witness :
  reply_to_email sample_email sample_gmail malformed_recipient_reply
  = ([], Raise (IndexError "string index out of range")).
Proof.
  exact (proj1 (proj2 (reply_to_email_call_order sample_email sample_gmail
                         malformed_recipient_reply)) _ eq_refl).
Defined.

(** X10: whatever the snippet, the subject of a reply starts with "re:"
    when lowercased, and it is the snippet itself or the snippet with "Re: "
    before it: the rule never changes or drops a character of the
    snippet. *)
Theorem reply_subject_starts_with_re (s : string) :
  PyStr.startswith (PyStr.lower (reply_subject s)) "re:" = true ∧
  (reply_subject s = s ∨ reply_subject s = "Re: " +:+ s).
Proof.
  unfold reply_subject.
  destruct (PyStr.startswith (PyStr.lower s) "re:") eqn:E; simpl.
  - split; [exact E | by left].
  - split; [reflexivity | by right].
Qed.

(** ** List events *)

(** The list call of [get_calendar_events]. *)
Lemma get_calendar_events_run service today :
  get_calendar_events service today =
    let tmin := datetime.isoformat (replace_time today 0 0 0 0) in
    let tmax := datetime.isoformat (replace_time today 23 59 59 999999) in
    ([EventsList "primary" tmin tmax 10 true "startTime"],
     match events_list service "primary" tmin tmax 10 true "startTime" with
     | Raise e => Raise (HTTPException 500 (str_exn e))
     | Ok events_result =>
         match default [] (items events_result) with
         | [] => Ok []
         | events =>
             match simplify_events today events [] with
             | Ok response => Ok response
             | Raise e => Raise (HTTPException 500 (str_exn e))
             end
         end
     end).
Proof.
  unfold get_calendar_events. cbv zeta.
  change (replace_time (replace_time today 0 0 0 0) 23 59 59 999999)
    with (replace_time today 23 59 59 999999).
  destruct (events_list service "primary" _ _ 10 true "startTime") as [er|e];
    [|reflexivity].
  unfold mbind at 1, io_bind at 1, bind at 1, execute. cbv beta iota.
  destruct (default [] (items er)) as [|ev evs]; [reflexivity|].
  unfold lift. by destruct (simplify_events today (ev :: evs) []).
Qed.

Lemma get_calendar_events_outcome service today :
  outcome (get_calendar_events service today) =
    match events_list service "primary"
            (datetime.isoformat (replace_time today 0 0 0 0))
            (datetime.isoformat (replace_time today 23 59 59 999999))
            10 true "startTime" with
    | Raise e => Raise (HTTPException 500 (str_exn e))
    | Ok events_result =>
        match default [] (items events_result) with
        | [] => Ok []
        | events =>
            match simplify_events today events [] with
            | Ok response => Ok response
            | Raise e => Raise (HTTPException 500 (str_exn e))
            end
        end
    end.
Proof. by rewrite get_calendar_events_run. Qed.

(** One turn of the [for event in events] loop. *)
Lemma simplify_events_cons today event rest acc :
  simplify_events today (event :: rest) acc =
    match ev_start event with
    | None => Raise (KeyError "start")
    | Some st =>
        match py_or (et_dateTime st) (et_date st) with
        | None => Raise (AttributeError "'NoneType' object has no attribute 'replace'")
        | Some start =>
            match event_date start with
            | Raise e => Raise e
            | Ok d =>
                if date_eqb d (datetime.dt_date today) then
                  match ev_end event with
                  | None => Raise (KeyError "end")
                  | Some en =>
                      simplify_events today rest (acc ++ [simplified event start en])
                  end
                else simplify_events today rest acc
            end
        end
    end.
Proof.
  simpl. destruct (ev_start event) as [st|]; simpl; [|done].
  destruct (py_or (et_dateTime st) (et_date st)) as [start|]; simpl; [|done].
  destruct (event_date start) as [d|e]; simpl; [|done].
  destruct (date_eqb d (datetime.dt_date today)); [|done].
  by destruct (ev_end event).
Qed.

Lemma date_eqb_refl (d : datetime.date) : date_eqb d d = true.
Proof. unfold date_eqb. by rewrite !Z.eqb_refl. Qed.

(** The loop only appends. *)
Lemma simplify_events_extends today events :
  ∀ acc out, simplify_events today events acc = Ok out → ∃ ds, out = acc ++ ds.
Proof.
  induction events as [|event rest IH]; intros acc out Hrun.
  { injection Hrun as <-. exists []. by rewrite app_nil_r. }
  rewrite simplify_events_cons in Hrun.
  destruct (ev_start event) as [st|]; [|discriminate].
  destruct (py_or _ _) as [start|]; [|discriminate].
  destruct (event_date start) as [d|]; [|discriminate].
  destruct (date_eqb d _); [|by apply IH].
  destruct (ev_end event) as [en|]; [|discriminate].
  destruct (IH _ _ Hrun) as [ds ->]. rewrite <- app_assoc. eauto.
Qed.

(** No event of today is lost. *)
Lemma simplify_events_complete today events :
  ∀ acc out raw st start,
    simplify_events today events acc = Ok out →
    In raw events → ev_start raw = Some st →
    py_or (et_dateTime st) (et_date st) = Some start →
    event_date start = Ok (datetime.dt_date today) →
    ∃ en, ev_end raw = Some en ∧ In (simplified raw start en) out.
Proof.
  induction events as [|event rest IH]; intros acc out raw st start Hrun Hin Hst Hor Hd;
    [destruct Hin|].
  rewrite simplify_events_cons in Hrun.
  destruct Hin as [->|Hin].
  - rewrite Hst, Hor, Hd, date_eqb_refl in Hrun.
    destruct (ev_end raw) as [en|]; [|discriminate].
    exists en. split; [done|].
    destruct (simplify_events_extends _ _ _ _ Hrun) as [ds ->].
    apply in_or_app. left. apply in_or_app. right. by left.
  - destruct (ev_start event) as [st'|]; [|discriminate].
    destruct (py_or (et_dateTime st') _) as [start'|]; [|discriminate].
    destruct (event_date start') as [d|]; [|discriminate].
    destruct (date_eqb d _); [|by eapply IH].
    destruct (ev_end event) as [en'|]; [|discriminate].
    by eapply IH.
Qed.

(** X11: [get_calendar_events] drops no event of today: for every event
    the remote list holds whose start value (the [dateTime], else the
    [date]) computes to the current UTC date, a successful response holds
    its simplified form: its id, its summary or "No Title" without one,
    that start value, and its end's [dateTime], else [date]. *)
Theorem get_calendar_events_keeps_today (service : CalendarService)
    (today : datetime.datetime) (events_result : EventsResult)
    (response : list SimplifiedEvent) (raw : Event) (st : EventTime)
    (start : string) :
  events_list service "primary"
    (datetime.isoformat (replace_time today 0 0 0 0))
    (datetime.isoformat (replace_time today 23 59 59 999999))
    10 true "startTime" = Ok events_result →
  outcome (get_calendar_events service today) = Ok response →
  In raw (default [] (items events_result)) →
  ev_start raw = Some st →
  py_or (et_dateTime st) (et_date st) = Some start →
  event_date start = Ok (datetime.dt_date today) →
  ∃ en, ev_end raw = Some en ∧
        In {| se_eventId := ev_id raw;
              se_summary := default "No Title" (ev_summary raw);
              se_start := start;
              se_end := py_or (et_dateTime en) (et_date en) |} response.
Proof.
  intros Hlist Hrun Hin Hst Hor Hd. rewrite get_calendar_events_outcome, Hlist in Hrun.
  destruct (default [] (items events_result)) as [|ev evs]; [destruct Hin|].
  destruct (simplify_events today (ev :: evs) []) as [out|] eqn:Hs; [|discriminate].
  injection Hrun as <-.
  exact (simplify_events_complete _ _ _ _ _ _ _ Hs Hin Hst Hor Hd).
Qed.

Lemma get_calendar_events_keeps_today_witness :
  ∃ en, Some {| et_dateTime := None; et_date := Some "2025-10-02";
                et_timeZone := None |} = Some en ∧
        In {| se_eventId := Some "e3"; se_summary := "Holiday";
              se_start := "2025-10-01";
              se_end := py_or (et_dateTime en) (et_date en) |}
           [ {| se_eventId := Some "e1"; se_summary := "No Title";
                se_start := "2025-10-01T09:00:00Z";
                se_end := Some "2025-10-01T10:00:00Z" |};
             {| se_eventId := Some "e3"; se_summary := "Holiday";
                se_start := "2025-10-01"; se_end := Some "2025-10-02" |} ].
Proof.
  exact (get_calendar_events_keeps_today sample_calendar sample_now _ _
           {| ev_id := Some "e3"; ev_summary := Some "Holiday";
              ev_start := Some {| et_dateTime := None;
                                  et_date := Some "2025-10-01"; et_timeZone := None |};
              ev_end := Some {| et_dateTime := None;
                                et_date := Some "2025-10-02"; et_timeZone := None |};
              ev_htmlLink := None; ev_status := None;
              ev_created := None; ev_updated := None |}
           _ "2025-10-01"
           eq_refl eq_refl (or_intror (or_intror (or_introl eq_refl)))
           eq_refl eq_refl eq_refl).
Defined.

(** X12: when the list call answers with no events, be it an empty list
    or no [items] key, [get_calendar_events] returns the empty list, not an
    error. *)
Theorem get_calendar_events_empty_result (service : CalendarService)
    (today : datetime.datetime) (events_result : EventsResult) :
  events_list service "primary"
    (datetime.isoformat (replace_time today 0 0 0 0))
    (datetime.isoformat (replace_time today 23 59 59 999999))
    10 true "startTime" = Ok events_result →
  items events_result = None ∨ items events_result = Some [] →
  outcome (get_calendar_events service today) = Ok [].
Proof.
  intros Hlist Hempty. rewrite get_calendar_events_outcome, Hlist.
  by destruct Hempty as [-> | ->].
Qed.

Lemma get_calendar_events_empty_result_witness :
  outcome (get_calendar_events empty_calendar sample_now) = Ok [].
Proof.
  exact (get_calendar_events_empty_result empty_calendar sample_now
           {| items := None |} eq_refl (or_introl eq_refl)).
Defined.

(** A completed loop has read a start value off every event and parsed
    it, and has found an end on every event of today. *)
Lemma simplify_events_all_parsed today events :
  ∀ acc out,
    simplify_events today events acc = Ok out →
    Forall (λ raw, ∃ st start d,
              ev_start raw = Some st ∧
              py_or (et_dateTime st) (et_date st) = Some start ∧
              event_date start = Ok d ∧
              (d = datetime.dt_date today → is_Some (ev_end raw))) events.
Proof.
  induction events as [|event rest IH]; intros acc out Hrun; [constructor|].
  rewrite simplify_events_cons in Hrun.
  destruct (ev_start event) as [st|] eqn:Hst; [|discriminate].
  destruct (py_or _ _) as [start|] eqn:Hor; [|discriminate].
  destruct (event_date start) as [d|] eqn:Hd; [|discriminate].
  destruct (date_eqb d (datetime.dt_date today)) eqn:Heq.
  - destruct (ev_end event) as [en|] eqn:Hen; [|discriminate].
    constructor; [|by eapply IH]. exists st, start, d. eauto.
  - constructor; [|by eapply IH]. exists st, start, d. repeat split; try done.
    intros ->. by rewrite date_eqb_refl in Heq.
Qed.

(** X13: [get_calendar_events] succeeds only when every event the remote
    list holds, those of other days included, has a [start] with a
    [dateTime] or [date] that parses as an ISO datetime, and every event of
    today has an [end]: one event without them fails the whole listing. *)
Theorem get_calendar_events_needs_every_start (service : CalendarService)
    (today : datetime.datetime) (events_result : EventsResult)
    (response : list SimplifiedEvent) (raw : Event) :
  events_list service "primary"
    (datetime.isoformat (replace_time today 0 0 0 0))
    (datetime.isoformat (replace_time today 23 59 59 999999))
    10 true "startTime" = Ok events_result →
  outcome (get_calendar_events service today) = Ok response →
  In raw (default [] (items events_result)) →
  ∃ st start d,
    ev_start raw = Some st ∧
    py_or (et_dateTime st) (et_date st) = Some start ∧
    event_date start = Ok d ∧
    (d = datetime.dt_date today → is_Some (ev_end raw)).
Proof.
  intros Hlist Hrun Hin. rewrite get_calendar_events_outcome, Hlist in Hrun.
  destruct (default [] (items events_result)) as [|ev evs]; [destruct Hin|].
  destruct (simplify_events today (ev :: evs) []) as [out|] eqn:Hs; [|discriminate].
  apply simplify_events_all_parsed in Hs.
  rewrite Forall_forall in Hs. apply Hs. by apply list_elem_of_In.
Qed.

Lemma get_calendar_events_needs_every_start_witness :
  ∃ st start d,
    Some {| et_dateTime := Some "2025-10-02T01:00:00+08:00";
            et_date := None; et_timeZone := None |} = Some st ∧
    py_or (et_dateTime st) (et_date st) = Some start ∧
    event_date start = Ok d ∧
    (d = datetime.mkDate 2025 10 1 →
     is_Some (Some {| et_dateTime := Some "2025-10-02T02:00:00+08:00";
                      et_date := None; et_timeZone := None |})).
Proof.
  exact (get_calendar_events_needs_every_start sample_calendar sample_now _ _
           {| ev_id := Some "e2"; ev_summary := Some "Late call";
              ev_start := Some {| et_dateTime := Some "2025-10-02T01:00:00+08:00";
                                  et_date := None; et_timeZone := None |};
              ev_end := Some {| et_dateTime := Some "2025-10-02T02:00:00+08:00";
                                et_date := None; et_timeZone := None |};
              ev_htmlLink := None; ev_status := None;
              ev_created := None; ev_updated := None |}
           eq_refl eq_refl (or_intror (or_introl eq_refl))).
Defined.

(** The other direction on a sample: one malformed start, on an event of
    another day, and the listing is a 500. *)
Example get_calendar_events_malformed_start :
  outcome (get_calendar_events malformed_calendar sample_now) =
    Raise (HTTPException 500 "Invalid isoformat string: 'tomorrow'").
Proof. reflexivity. Qed.

(** X14: [get_calendar_events] makes exactly one remote call, whatever it
    is answered: the list of the primary calendar, at most 10 single events
    ordered by start time, from 00:00:00 to 23:59:59.999999 of the date of
    the clock at the offset of the clock, whatever the time of day. *)
Theorem get_calendar_events_query_window (service : CalendarService)
    (today : datetime.datetime) :
  calls (get_calendar_events service today) =
    [EventsList "primary"
       (datetime.isoformat_date (datetime.dt_date today) +:+ "T00:00:00" +:+
        offset_text today)
       (datetime.isoformat_date (datetime.dt_date today) +:+ "T23:59:59.999999" +:+
        offset_text today)
       10 true "startTime"].
Proof.
  rewrite get_calendar_events_run. cbv zeta. unfold calls. simpl fst.
  unfold datetime.isoformat, offset_text. simpl datetime.tzinfo.
  simpl datetime.dt_date. simpl datetime.dt_time.
  change (datetime.isoformat_time (datetime.mkTime 0 0 0 0)) with "00:00:00".
  change (datetime.isoformat_time (datetime.mkTime 23 59 59 999999))
    with "23:59:59.999999".
  reflexivity.
Qed.

(** The ids of the events kept are, in order, ids of the events read. *)
Lemma simplify_events_sublist today events :
  ∀ acc out,
    simplify_events today events acc = Ok out →
    ∃ ds, out = acc ++ ds ∧ sublist (se_eventId <$> ds) (ev_id <$> events).
Proof.
  induction events as [|event rest IH]; intros acc out Hrun.
  { injection Hrun as <-. exists []. by rewrite app_nil_r. }
  rewrite simplify_events_cons in Hrun.
  destruct (ev_start event) as [st|]; [|discriminate].
  destruct (py_or _ _) as [start|]; [|discriminate].
  destruct (event_date start) as [d|]; [|discriminate].
  destruct (date_eqb d _).
  - destruct (ev_end event) as [en|]; [|discriminate].
    destruct (IH _ _ Hrun) as (ds & -> & Hsub).
    exists (simplified event start en :: ds). rewrite <- app_assoc.
    split; [done|]. simpl. by constructor.
  - destruct (IH _ _ Hrun) as (ds & -> & Hsub). exists ds. split; [done|].
    simpl. by constructor.
Qed.

(** X15: the response of [get_calendar_events] keeps the order of the
    remote list and repeats nothing: the ids of its events are a
    subsequence of the ids of the events the list call returned, so it never
    holds more events than the remote list. *)
Theorem get_calendar_events_keeps_order (service : CalendarService)
    (today : datetime.datetime) (events_result : EventsResult)
    (response : list SimplifiedEvent) :
  events_list service "primary"
    (datetime.isoformat (replace_time today 0 0 0 0))
    (datetime.isoformat (replace_time today 23 59 59 999999))
    10 true "startTime" = Ok events_result →
  outcome (get_calendar_events service today) = Ok response →
  sublist (se_eventId <$> response) (ev_id <$> default [] (items events_result)) ∧
  (length response ≤ length (default [] (items events_result)))%nat.
Proof.
  intros Hlist Hrun. rewrite get_calendar_events_outcome, Hlist in Hrun.
  assert (Hsub : sublist (se_eventId <$> response)
                         (ev_id <$> default [] (items events_result))).
  { destruct (default [] (items events_result)) as [|ev evs].
    { injection Hrun as <-. constructor. }
    destruct (simplify_events today (ev :: evs) []) as [out|] eqn:Hs; [|discriminate].
    injection Hrun as <-.
    by destruct (simplify_events_sublist _ _ _ _ Hs) as (ds & -> & Hsub). }
  split; [done|]. apply sublist_length in Hsub. by rewrite !length_fmap in Hsub.
Qed.

Lemma get_calendar_events_keeps_order_witness :
  sublist [Some "e1"; Some "e3"] [Some "e1"; Some "e2"; Some "e3"].
Proof.
  exact (proj1 (get_calendar_events_keeps_order sample_calendar sample_now _ _
                  eq_refl eq_refl)).
Defined.

(** ** Event Time Adjuster, further *)

(** [timezone(timedelta(hours=h))] is made for fewer than 24 hours either
    way. *)
Lemma timezone_of_hours_Ok (h off : Z) :
  datetime.timezone_of_hours h = Ok off →
  off = h * datetime.us_per_hour ∧ -24 < h < 24.
Proof.
  unfold datetime.timezone_of_hours, datetime.timedelta_of_hours. cbv zeta.
  destruct (_ || _); [discriminate|].
  destruct (_ <? _); [discriminate|].
  unfold mbind, result_bind, rbind, datetime.timezone.
  destruct (datetime.valid_offset _) eqn:Hv; [|discriminate].
  intros [= <-]. split; [done|].
  unfold datetime.valid_offset, datetime.us_per_hour, datetime.us_per_second in Hv.
  apply andb_true_iff in Hv as [Hv1 Hv2]. apply Z.ltb_lt in Hv1, Hv2. lia.
Qed.

(** What a successful [adjust_datetime] was given and returns. *)
Lemma adjust_datetime_Ok_inv today a b out :
  adjust_datetime today a b = Ok out →
  ∃ s dt z h,
    a = PStr s ∧ b = PStr z ∧
    datetime.fromisoformat (PyStr.replace_char "Z" "+00:00" s) = Ok dt ∧
    PyInt.int (PyStr.split_head ":" z) = Ok h ∧
    -24 < h < 24 ∧
    out = datetime.isoformat
            {| datetime.dt_date := today;
               datetime.dt_time := datetime.dt_time dt;
               datetime.tzinfo := Some (h * datetime.us_per_hour) |}.
Proof.
  unfold adjust_datetime.
  destruct a as [| | |s| |]; try discriminate. simpl as_str.
  unfold mbind, result_bind. unfold rbind at 1. unfold rbind at 1.
  destruct (datetime.fromisoformat _) as [dt|] eqn:Hparse; [|discriminate].
  destruct b as [| | |z| |]; try discriminate. simpl as_str. unfold rbind at 1.
  unfold rbind at 1.
  destruct (PyInt.int _) as [h|] eqn:Hint; [|discriminate].
  destruct (datetime.timezone_of_hours h) as [off|] eqn:Htz; [|discriminate].
  apply timezone_of_hours_Ok in Htz as [-> Hh]. simpl.
  intros [= <-]. exists s, dt, z, h. by repeat split; try lia.
Qed.

Lemma hours_as_whole_hours (h : Z) :
  h * datetime.us_per_hour = whole_hours (h <? 0) (Z.abs h).
Proof.
  unfold whole_hours. destruct (h <? 0) eqn:E.
  - apply Z.ltb_lt in E. f_equal. lia.
  - apply Z.ltb_ge in E. f_equal. lia.
Qed.

Lemma replace_char_absent c t s :
  PyStr.contains c s = false → PyStr.replace_char c t s = s.
Proof.
  induction s as [|a s IH]; simpl; [done|].
  intros [Ha Hs]%orb_false_iff. by rewrite Ha, (IH Hs).
Qed.

Lemma contains_isoformat_Z (d : datetime.date) (t : datetime.time)
    (negative : bool) (hh : Z) :
  0 ≤ hh ≤ 23 →
  PyStr.contains "Z"
    (datetime.isoformat
       {| datetime.dt_date := d; datetime.dt_time := t;
          datetime.tzinfo := Some (whole_hours negative hh) |}) = false.
Proof.
  intros Hhh. unfold datetime.isoformat. simpl datetime.tzinfo.
  simpl datetime.dt_date. simpl datetime.dt_time. cbv iota.
  rewrite isoformat_offset_whole_hours by done.
  unfold datetime.isoformat_date, offset_string.
  rewrite !contains_app, contains_isoformat_time by done.
  rewrite !contains_pad by done.
  by destruct (negative && negb (hh =? 0)).
Qed.

(** The text [adjust_datetime] returns reads back as the datetime it was
    printed from. *)
Lemma adjusted_text_reads_back (today : datetime.date) (t : datetime.time) (h : Z) :
  datetime.valid_date today = true → datetime.valid_time t = true →
  -24 < h < 24 →
  let adjusted_dt :=
    {| datetime.dt_date := today; datetime.dt_time := t;
       datetime.tzinfo := Some (h * datetime.us_per_hour) |} in
  datetime.fromisoformat
    (PyStr.replace_char "Z" "+00:00" (datetime.isoformat adjusted_dt)) = Ok adjusted_dt.
Proof.
  intros Hd Ht Hh adjusted_dt. unfold adjusted_dt. rewrite hours_as_whole_hours.
  rewrite replace_char_absent by (apply contains_isoformat_Z; lia).
  apply parse_isoformat_isoformat; [done | done | lia].
Qed.

Lemma split_head_app (c : ascii) (a b : string) :
  PyStr.contains c a = false → PyStr.split_head c (a +:+ String c b) = a.
Proof.
  induction a as [|x a IH]; simpl.
  - intros _. by rewrite Ascii.eqb_refl.
  - intros [Hx Ha]%orb_false_iff. by rewrite Hx, (IH Ha).
Qed.

Lemma split_head_offset_string (negative : bool) (hh mm : Z) :
  PyStr.split_head ":" (offset_string negative hh mm) =
    (if negative then "-" else "+") +:+ datetime.pad 2 hh.
Proof.
  unfold offset_string. rewrite <- str_app_assoc.
  change (":" +:+ datetime.pad 2 mm) with (String ":" (datetime.pad 2 mm)).
  apply split_head_app. rewrite contains_app, contains_pad by done.
  by destruct negative.
Qed.

(** X16: [adjust_datetime] keeps only the hours of a timezone text
    [±HH:MM]: whatever the minutes, the offset of the result is [±HH:00];
    the date is the current UTC date and the time-of-day that of the
    input. *)
Theorem adjust_datetime_drops_offset_minutes (today : datetime.date) (s : string)
    (dt : datetime.datetime) (negative : bool) (hh mm : Z) :
  datetime.fromisoformat (PyStr.replace_char "Z" "+00:00" s) = Ok dt →
  0 ≤ hh ≤ 23 →
  adjust_datetime today (PStr s) (PStr (offset_string negative hh mm)) =
    Ok (datetime.isoformat_date today +:+ "T" +:+
        datetime.isoformat_time (datetime.dt_time dt) +:+
        offset_string (negative && negb (hh =? 0)) hh 0).
Proof.
  intros Hparse Hhh.
  transitivity (adjust_datetime today (PStr s) (PStr (offset_string negative hh 0))).
  { unfold adjust_datetime, as_str. unfold mbind, result_bind, rbind.
    by rewrite !split_head_offset_string. }
  rewrite (adjust_datetime_whole_hours today s dt negative hh Hparse Hhh).
  by rewrite <- isoformat_offset_whole_hours.
Qed.

Lemma adjust_datetime_drops_offset_minutes_witness :
  adjust_datetime (datetime.mkDate 2025 10 1)
    (PStr "2025-09-22T09:00:00+05:30") (PStr "+05:30")
  = Ok "2025-10-01T09:00:00+05:00".
Proof.
  exact (adjust_datetime_drops_offset_minutes (datetime.mkDate 2025 10 1)
           "2025-09-22T09:00:00+05:30"
           {| datetime.dt_date := datetime.mkDate 2025 9 22;
              datetime.dt_time := datetime.mkTime 9 0 0 0;
              datetime.tzinfo := Some 19800000000 |}
           false 5 30 eq_refl ltac:(lia)).
Defined.

Lemma adjust_datetime_same_time (today : datetime.date)
    (s1 s2 : string) (dt1 dt2 : datetime.datetime) (timezone_str : pyval) :
  datetime.fromisoformat (PyStr.replace_char "Z" "+00:00" s1) = Ok dt1 →
  datetime.fromisoformat (PyStr.replace_char "Z" "+00:00" s2) = Ok dt2 →
  datetime.dt_time dt1 = datetime.dt_time dt2 →
  adjust_datetime today (PStr s1) timezone_str =
  adjust_datetime today (PStr s2) timezone_str.
Proof.
  intros H1 H2 Ht. unfold adjust_datetime. simpl as_str.
  unfold mbind, result_bind. unfold rbind at 1. unfold rbind at 1.
  rewrite H1. symmetry. unfold rbind at 1. unfold rbind at 1. rewrite H2.
  by rewrite Ht.
Qed.

(** X17: [adjust_datetime] reads nothing of its datetime text but the
    time-of-day: two texts of the same time-of-day give the same result,
    whatever their dates and their offsets; the offset of the result comes
    from the timezone text alone. *)
Theorem adjust_datetime_reads_time_of_day_only (today : datetime.date)
    (s1 s2 : string) (dt1 dt2 : datetime.datetime) (timezone_str : pyval) :
  datetime.fromisoformat (PyStr.replace_char "Z" "+00:00" s1) = Ok dt1 →
  datetime.fromisoformat (PyStr.replace_char "Z" "+00:00" s2) = Ok dt2 →
  datetime.dt_time dt1 = datetime.dt_time dt2 →
  adjust_datetime today (PStr s1) timezone_str =
  adjust_datetime today (PStr s2) timezone_str.
Proof. exact (adjust_datetime_same_time today s1 s2 dt1 dt2 timezone_str). Qed.

Lemma adjust_datetime_reads_time_of_day_only_witness :
  adjust_datetime (datetime.mkDate 2025 10 1)
    (PStr "2025-09-22T09:00:00+08:00") (PStr "+08:00") =
  adjust_datetime (datetime.mkDate 2025 10 1)
    (PStr "1999-01-31T09:00:00Z") (PStr "+08:00").
Proof.
  exact (adjust_datetime_reads_time_of_day_only (datetime.mkDate 2025 10 1)
           "2025-09-22T09:00:00+08:00" "1999-01-31T09:00:00Z"
           {| datetime.dt_date := datetime.mkDate 2025 9 22;
              datetime.dt_time := datetime.mkTime 9 0 0 0;
              datetime.tzinfo := Some 28800000000 |}
           {| datetime.dt_date := datetime.mkDate 1999 1 31;
              datetime.dt_time := datetime.mkTime 9 0 0 0;
              datetime.tzinfo := Some 0 |}
           (PStr "+08:00") eq_refl eq_refl eq_refl).
Defined.

(** X18: [adjust_datetime] is idempotent on a day: given back its own
    result with the same timezone text, on the same UTC date, it returns that
    result again. *)
Theorem adjust_datetime_idempotent (today : datetime.date)
    (dt_str timezone_str : pyval) (adjusted : string) :
  datetime.valid_date today = true →
  adjust_datetime today dt_str timezone_str = Ok adjusted →
  adjust_datetime today (PStr adjusted) timezone_str = Ok adjusted.
Proof.
  intros Hd Hrun.
  destruct (adjust_datetime_Ok_inv _ _ _ _ Hrun)
    as (s & dt & z & h & -> & -> & Hparse & Hint & Hh & ->).
  etransitivity; [|exact Hrun].
  apply (adjust_datetime_same_time today _ s
           {| datetime.dt_date := today;
              datetime.dt_time := datetime.dt_time dt;
              datetime.tzinfo := Some (h * datetime.us_per_hour) |} dt (PStr z));
    [|exact Hparse|reflexivity].
  apply (adjusted_text_reads_back today (datetime.dt_time dt) h Hd); [|done].
  by apply fromisoformat_valid_time in Hparse.
Qed.

Lemma adjust_datetime_idempotent_witness :
  adjust_datetime (datetime.mkDate 2025 10 1)
    (PStr "2025-10-01T09:00:00+08:00") (PStr "+08:00")
  = Ok "2025-10-01T09:00:00+08:00".
Proof.
  exact (adjust_datetime_idempotent (datetime.mkDate 2025 10 1)
           (PStr "2025-09-22T09:00:00+08:00") (PStr "+08:00")
           "2025-10-01T09:00:00+08:00" eq_refl eq_refl).
Defined.

(** ** Create event *)

(** Every run of [create_calendar_event], by what the adjustments and the
    insert call give. *)
Lemma create_calendar_event_run service now_utc e :
  create_calendar_event service now_utc e =
    let today := datetime.dt_date now_utc in
    match adjust_start today (CalendarEventCreate_dict e) with
    | Raise err => ([], Raise (HTTPException 500 (str_exn err)))
    | Ok d1 =>
        match adjust_end today d1 with
        | Raise err => ([], Raise (HTTPException 500 (str_exn err)))
        | Ok d2 =>
            ([EventsInsert "primary" d2 "all"],
             match events_insert service "primary" d2 "all" with
             | Ok event => Ok (created_projection event)
             | Raise err => Raise (HTTPException 500 (str_exn err))
             end)
        end
    end.
Proof.
  unfold create_calendar_event. cbv zeta.
  destruct (adjust_start _ _) as [d1|err]; [|reflexivity].
  unfold lift. unfold mbind at 1, io_bind at 1, bind at 1. cbv beta iota.
  destruct (adjust_end (datetime.dt_date now_utc) d1) as [d2|err]; [|reflexivity].
  unfold mbind at 1, io_bind at 1, bind at 1. cbv beta iota.
  by destruct (events_insert service "primary" d2 "all").
Qed.

(** Lines 364-372 on a dict whose [end] is that of the payload. *)
Lemma adjust_end_no_dateTime today (e : CalendarEventCreate) (d : gmap string pyval) :
  d !! "end" = Some (PDict (EventDateTime_dict (end_ e))) →
  dateTime (end_ e) = None →
  adjust_end today d = Ok d.
Proof.
  intros Hend Hdt. unfold adjust_end, sub_dict.
  by rewrite Hend, EventDateTime_dict_dateTime, Hdt.
Qed.

(** X19: an all-day payload, with no [dateTime] in [start] nor in [end],
    is submitted as it was received: the body of the one insert call is the
    dict of the payload, whatever its dates and timezones, and named
    timezones do not fail it. *)
Theorem create_calendar_event_all_day_unchanged (service : CalendarService)
    (now_utc : datetime.datetime) (e : CalendarEventCreate) :
  dateTime (start e) = None →
  dateTime (end_ e) = None →
  calls (create_calendar_event service now_utc e) =
    [EventsInsert "primary" (CalendarEventCreate_dict e) "all"].
Proof.
  intros Hs He. rewrite create_calendar_event_run. cbv zeta.
  rewrite adjust_start_run, Hs. simpl field_value. cbv iota.
  by rewrite (adjust_end_no_dateTime _ e _ (CalendarEventCreate_dict_end e) He).
Qed.

Lemma create_calendar_event_all_day_unchanged_witness :
  calls (create_calendar_event sample_calendar sample_now all_day_example) =
    [EventsInsert "primary" (CalendarEventCreate_dict all_day_example) "all"].
Proof.
  exact (create_calendar_event_all_day_unchanged sample_calendar sample_now
           all_day_example eq_refl eq_refl).
Defined.

(** What the two adjustments may change of a dict: the [dateTime] inside
    [start], the [dateTime] inside [end]. *)
Lemma adjust_start_changes today (d d' : gmap string pyval) :
  adjust_start today d = Ok d' →
  (∀ k, k ≠ "start" → d' !! k = d !! k) ∧
  (d' !! "start" = d !! "start" ∨
   ∃ st adjusted, d !! "start" = Some (PDict st) ∧
                  d' !! "start" = Some (PDict (<["dateTime" := PStr adjusted]> st))).
Proof.
  unfold adjust_start, sub_dict.
  destruct (d !! "start") as [[| | | | |st]|] eqn:Hst;
    try (intros [= <-]; split; [done | by left]).
  destruct (st !! "dateTime") as [dt|]; [|intros [= <-]; split; [done | by left]].
  destruct (adjust_datetime today dt _) as [adjusted|]; [|discriminate].
  simpl. intros [= <-]. split.
  - intros k Hk. by rewrite lookup_insert_ne.
  - right. exists st, adjusted. by rewrite lookup_insert_eq.
Qed.

Lemma adjust_end_changes today (d d' : gmap string pyval) :
  adjust_end today d = Ok d' →
  (∀ k, k ≠ "end" → d' !! k = d !! k) ∧
  (d' !! "end" = d !! "end" ∨
   ∃ en adjusted, d !! "end" = Some (PDict en) ∧
                  d' !! "end" = Some (PDict (<["dateTime" := PStr adjusted]> en))).
Proof.
  unfold adjust_end, sub_dict.
  destruct (d !! "end") as [[| | | | |en]|] eqn:Hen;
    try (intros [= <-]; split; [done | by left]).
  destruct (en !! "dateTime") as [dt|]; [|intros [= <-]; split; [done | by left]].
  destruct (adjust_datetime today dt _) as [adjusted|]; [|discriminate].
  simpl. intros [= <-]. split.
  - intros k Hk. by rewrite lookup_insert_ne.
  - right. exists en, adjusted. by rewrite lookup_insert_eq.
Qed.

(** X20: of a payload [create_calendar_event] changes nothing but the two
    [dateTime] values: in the body of the insert call every key other than
    [start] and [end] (summary, location, description, attendees, reminders,
    recurrence) has the value the payload gave it, and inside [start] and
    inside [end] every key other than [dateTime] has the value the payload
    gave it. *)
Theorem create_calendar_event_frame (service : CalendarService)
    (now_utc : datetime.datetime) (e : CalendarEventCreate)
    (calendarId sendUpdates : string) (body : gmap string pyval) :
  In (EventsInsert calendarId body sendUpdates)
     (calls (create_calendar_event service now_utc e)) →
  (∀ k, k ≠ "start" → k ≠ "end" → body !! k = CalendarEventCreate_dict e !! k) ∧
  (∃ st, body !! "start" = Some (PDict st) ∧
         ∀ k, k ≠ "dateTime" → st !! k = EventDateTime_dict (start e) !! k) ∧
  (∃ en, body !! "end" = Some (PDict en) ∧
         ∀ k, k ≠ "dateTime" → en !! k = EventDateTime_dict (end_ e) !! k).
Proof.
  intros Hin.
  apply create_calendar_event_calls in Hin as (d1 & d2 & Hstart & Hend & Hc).
  injection Hc as -> -> ->.
  apply adjust_start_changes in Hstart as [Hs1 Hs2].
  apply adjust_end_changes in Hend as [He1 He2].
  split; [|split].
  - intros k Hks Hke. by rewrite He1, Hs1.
  - rewrite He1 by done. destruct Hs2 as [->|(st & adjusted & Hst & ->)].
    + rewrite CalendarEventCreate_dict_start. eauto.
    + rewrite CalendarEventCreate_dict_start in Hst. injection Hst as <-.
      eexists. split; [done|]. intros k Hk. by rewrite lookup_insert_ne.
  - assert (Hd1 : d1 !! "end" = Some (PDict (EventDateTime_dict (end_ e))))
      by (by rewrite Hs1, CalendarEventCreate_dict_end).
    destruct He2 as [->|(en & adjusted & Hen & ->)].
    + rewrite Hd1. eauto.
    + rewrite Hd1 in Hen. injection Hen as <-.
      eexists. split; [done|]. intros k Hk. by rewrite lookup_insert_ne.
Qed.

Lemma create_calendar_event_frame_witness :
  ∃ body, In (EventsInsert "primary" body "all")
             (calls (create_calendar_event sample_calendar sample_now offset_example)) ∧
          body !! "summary" = Some (PStr "Test Event") ∧
          body !! "location" = None.
Proof.
  eexists. split; [left; reflexivity|].
  destruct (create_calendar_event_frame sample_calendar sample_now offset_example
              "primary" "all" _ (or_introl eq_refl)) as (Hk & _ & _).
  split; [exact (Hk "summary" ltac:(discriminate) ltac:(discriminate))
         | exact (Hk "location" ltac:(discriminate) ltac:(discriminate))].
Defined.

(** X21: a [dateTime] set to null in [start] is not skipped: the handler
    calls [adjust_datetime] on it, which raises, and the request ends in a
    500 with no remote call. *)
Theorem create_calendar_event_null_dateTime (service : CalendarService)
    (now_utc : datetime.datetime) (e : CalendarEventCreate) :
  dateTime (start e) = Some None →
  create_calendar_event service now_utc e =
    ([], Raise (HTTPException 500 "'NoneType' object has no attribute 'replace'")).
Proof.
  intros Hdt. rewrite create_calendar_event_run. cbv zeta.
  by rewrite adjust_start_run, Hdt.
Qed.

Lemma create_calendar_event_null_dateTime_witness :
  create_calendar_event sample_calendar sample_now null_start_example =
    ([], Raise (HTTPException 500 "'NoneType' object has no attribute 'replace'")).
Proof.
  exact (create_calendar_event_null_dateTime sample_calendar sample_now
           null_start_example eq_refl).
Defined.

(** [int] does not read a text that starts with a letter. *)
Lemma int_of_zone_name (z : string) :
  starts_with_letter z = true →
  PyInt.int (PyStr.split_head ":" z) =
    Raise (PyInt.invalid_literal (PyStr.split_head ":" z)).
Proof.
  destruct z as [|c z]; [discriminate|].
  unfold starts_with_letter.
  destruct c as [[] [] [] [] [] [] [] []]; try discriminate; intros _;
    cbn [PyStr.split_head Ascii.eqb Bool.eqb];
    unfold PyInt.int, PyInt.leading_digits, PyInt.parse;
    cbn [PyInt.lstrip PyInt.is_space PyInt.count_digits PyInt.digit];
    simpl; by destruct (PyInt.rstrip (PyStr.split_head ":" z)).
Qed.

(** X22: a [start.timeZone] that is a zone name, a text of ASCII characters
    that starts with a letter, or no [start.timeZone] at all, which brings
    in the default "Asia/Kuala_Lumpur", fails every request that has a
    [start.dateTime]: the handler makes no remote call and raises the 500
    that carries the [ValueError] of [int], which shows the name up to its
    first colon. *)
Theorem create_calendar_event_rejects_zone_names (service : CalendarService)
    (now_utc : datetime.datetime) (e : CalendarEventCreate)
    (s z : string) (dt : datetime.datetime) :
  dateTime (start e) = Some (Some s) →
  datetime.fromisoformat (PyStr.replace_char "Z" "+00:00" s) = Ok dt →
  timeZone (start e) = Some (Some z) ∨
  (timeZone (start e) = None ∧ z = default_timezone) →
  starts_with_letter z = true →
  PyStr.isascii z = true →
  create_calendar_event service now_utc e =
    ([], Raise (HTTPException 500
                  ("invalid literal for int() with base 10: " +:+
                   String.substring 0 200 (PyStr.repr (PyStr.split_head ":" z))))).
Proof.
  intros Hdt Hparse Htz Hname _. rewrite create_calendar_event_run. cbv zeta.
  rewrite adjust_start_run, Hdt. simpl field_value. cbv iota.
  assert (default (PStr default_timezone) (field_value (timeZone (start e))) = PStr z)
    as -> by (by destruct Htz as [-> | [-> ->]]).
  by rewrite (adjust_datetime_named_zone _ _ _ _ _ Hparse (int_of_zone_name z Hname)).
Qed.

Lemma create_calendar_event_rejects_zone_names_witness :
  create_calendar_event sample_calendar sample_now
    {| summary := "No zone"; location := None; description := None;
       start := {| date := None;
                   dateTime := Some (Some "2025-09-22T09:00:00+08:00");
                   timeZone := None |};
       end_ := {| date := None; dateTime := None; timeZone := None |};
       attendees := None; reminders := None; recurrence := None |}
  = ([], Raise (HTTPException 500
                  "invalid literal for int() with base 10: 'Asia/Kuala_Lumpur'")).
Proof.
  exact (create_calendar_event_rejects_zone_names sample_calendar sample_now
           {| summary := "No zone"; location := None; description := None;
              start := {| date := None;
                          dateTime := Some (Some "2025-09-22T09:00:00+08:00");
                          timeZone := None |};
              end_ := {| date := None; dateTime := None; timeZone := None |};
              attendees := None; reminders := None; recurrence := None |}
           "2025-09-22T09:00:00+08:00" "Asia/Kuala_Lumpur"
           {| datetime.dt_date := datetime.mkDate 2025 9 22;
              datetime.dt_time := datetime.mkTime 9 0 0 0;
              datetime.tzinfo := Some 28800000000 |}
           eq_refl eq_refl (or_intror (conj eq_refl eq_refl)) eq_refl eq_refl).
Defined.

(** X23: [create_calendar_event] makes at most one remote call, the
    insert with notifications to all attendees, and makes it only once both
    adjustments have succeeded: when the adjustment of [start] or of [end]
    raises, nothing is sent to the calendar. *)
Theorem create_calendar_event_inserts_after_adjusting (service : CalendarService)
    (now_utc : datetime.datetime) (e : CalendarEventCreate) :
  let today := datetime.dt_date now_utc in
  (calls (create_calendar_event service now_utc e) = [] ∨
   ∃ d1 body,
     adjust_start today (CalendarEventCreate_dict e) = Ok d1 ∧
     adjust_end today d1 = Ok body ∧
     calls (create_calendar_event service now_utc e) =
       [EventsInsert "primary" body "all"]) ∧
  (∀ err, adjust_start today (CalendarEventCreate_dict e) = Raise err →
          calls (create_calendar_event service now_utc e) = []) ∧
  (∀ d1 err, adjust_start today (CalendarEventCreate_dict e) = Ok d1 →
             adjust_end today d1 = Raise err →
             calls (create_calendar_event service now_utc e) = []).
Proof.
  rewrite create_calendar_event_run. cbv zeta.
  destruct (adjust_start _ _) as [d1|err] eqn:Hs.
  - destruct (adjust_end _ d1) as [d2|err] eqn:He.
    + split; [right; eauto|]. split; [discriminate|].
      intros d1' err [= <-]. congruence.
    + split; [by left|]. split; [discriminate|]. done.
  - split; [by left|]. split; [done|discriminate].
Qed.

Lemma create_calendar_event_inserts_after_adjusting_witness :
  calls (create_calendar_event sample_calendar sample_now null_start_example) = [].
Proof.
  exact (proj1 (proj2 (create_calendar_event_inserts_after_adjusting sample_calendar
                         sample_now null_start_example))
           (AttributeError "'NoneType' object has no attribute 'replace'") eq_refl).
Defined.

(** X24: the [end.dateTime] of the body of the insert call is adjusted
    with [end.timeZone] when the payload has it, else with
    [start.timeZone] when the payload has that, else with the default
    zone. *)
Theorem create_calendar_event_end_timezone (service : CalendarService)
    (now_utc : datetime.datetime) (e : CalendarEventCreate) (dt : pyval)
    (calendarId sendUpdates : string) (body : gmap string pyval) :
  field_value (dateTime (end_ e)) = Some dt →
  In (EventsInsert calendarId body sendUpdates)
     (calls (create_calendar_event service now_utc e)) →
  ∃ en adjusted,
    adjust_datetime (datetime.dt_date now_utc) dt (end_timezone e) = Ok adjusted ∧
    body !! "end" = Some (PDict en) ∧
    en !! "dateTime" = Some (PStr adjusted).
Proof.
  intros Hdt Hin.
  apply create_calendar_event_calls in Hin as (d1 & d2 & Hstart & Hend & Hc).
  injection Hc as -> -> ->.
  rewrite (adjust_end_timezone_fallback _ _ _ _ Hstart Hdt) in Hend.
  destruct (adjust_datetime _ dt (end_timezone e)) as [adjusted|]; [|discriminate].
  simpl in Hend. injection Hend as <-.
  eexists _, adjusted. split; [done|]. rewrite lookup_insert_eq.
  split; [done|]. by rewrite lookup_insert_eq.
Qed.

Lemma create_calendar_event_end_timezone_witness :
  ∃ body en,
    In (EventsInsert "primary" body "all")
       (calls (create_calendar_event sample_calendar sample_now offset_example)) ∧
    body !! "end" = Some (PDict en) ∧
    en !! "dateTime" = Some (PStr "2025-10-01T10:00:00+08:00").
Proof.
  eexists. 
  destruct (create_calendar_event_end_timezone sample_calendar sample_now
              offset_example (PStr "2025-09-22T10:00:00+08:00") "primary" "all" _
              eq_refl (or_introl eq_refl)) as (en & adjusted & Ha & Hb & Hd).
  exists en. split; [left; reflexivity|]. split; [exact Hb|].
  injection Ha as <-. exact Hd.
Defined.

(** X25: the [start.dateTime] the handler submits is a start of today for
    the listing: whenever the payload has a [start.dateTime] and the insert
    call is made, the adjusted text in its body computes, by the rule of
    [get_calendar_events], to the current UTC date. *)
Theorem create_calendar_event_start_is_today (service : CalendarService)
    (now_utc : datetime.datetime) (e : CalendarEventCreate) (dt : pyval)
    (calendarId sendUpdates : string) (body : gmap string pyval) :
  datetime.valid_date (datetime.dt_date now_utc) = true →
  field_value (dateTime (start e)) = Some dt →
  In (EventsInsert calendarId body sendUpdates)
     (calls (create_calendar_event service now_utc e)) →
  ∃ st adjusted,
    body !! "start" = Some (PDict st) ∧
    st !! "dateTime" = Some (PStr adjusted) ∧
    event_date adjusted = Ok (datetime.dt_date now_utc).
Proof.
  intros Hvalid Hdt Hin.
  apply create_calendar_event_calls in Hin as (d1 & d2 & Hstart & Hend & Hc).
  injection Hc as -> -> ->.
  rewrite adjust_start_run, Hdt in Hstart.
  destruct (adjust_datetime _ dt _) as [adjusted|] eqn:Hadj; [|discriminate].
  simpl in Hstart. injection Hstart as <-.
  apply adjust_end_frame in Hend. rewrite Hend, lookup_insert_eq.
  eexists _, adjusted. split; [done|]. rewrite lookup_insert_eq. split; [done|].
  destruct (adjust_datetime_Ok_inv _ _ _ _ Hadj)
    as (s & dt0 & z & h & _ & _ & Hparse & _ & Hh & ->).
  unfold event_date.
  rewrite (adjusted_text_reads_back _ (datetime.dt_time dt0) h Hvalid); [done| |done].
  by apply fromisoformat_valid_time in Hparse.
Qed.

Lemma create_calendar_event_start_is_today_witness :
  ∃ body st adjusted,
    In (EventsInsert "primary" body "all")
       (calls (create_calendar_event sample_calendar sample_now offset_example)) ∧
    body !! "start" = Some (PDict st) ∧
    st !! "dateTime" = Some (PStr adjusted) ∧
    event_date adjusted = Ok (datetime.mkDate 2025 10 1).
Proof.
  eexists.
  destruct (create_calendar_event_start_is_today sample_calendar sample_now
              offset_example (PStr "2025-09-22T09:00:00+08:00") "primary" "all" _
              eq_refl eq_refl (or_introl eq_refl)) as (st & adjusted & Hb & Hd & He).
  exists st, adjusted. split; [left; reflexivity|]. auto.
Defined.

(** ** Update event *)

(** X26: [update_calendar_event] strips nulls at the top level only: a
    null inside [start] is forwarded to the remote update call with the
    [start] that holds it. *)
Theorem update_calendar_event_keeps_nested_null (service : CalendarService)
    (event_id : string) (u : CalendarEventUpdate) (x : EventDateTime) :
  u_start u = Some (Some x) →
  dateTime x = Some None →
  ∃ body st,
    calls (update_calendar_event service event_id u) =
      [EventsUpdate "primary" event_id body] ∧
    body !! "start" = Some (PDict st) ∧
    st !! "dateTime" = Some PNone.
Proof.
  intros Hs Hdt. exists (update_dict u), (EventDateTime_dict x). split; [|split].
  - unfold update_calendar_event. rewrite calls_try_except_raise, calls_execute_bind.
    by destruct (events_update service "primary" event_id (update_dict u)).
  - rewrite update_dict_lookup. unfold CalendarEventUpdate_dict.
    rewrite !set_field_lookup, lookup_empty. repeat case_decide; try done.
    by rewrite Hs.
  - by rewrite EventDateTime_dict_dateTime, Hdt.
Qed.

Lemma update_calendar_event_keeps_nested_null_witness :
  ∃ body st,
    calls (update_calendar_event sample_calendar "evt-1" nested_null_update) =
      [EventsUpdate "primary" "evt-1" body] ∧
    body !! "start" = Some (PDict st) ∧
    st !! "dateTime" = Some PNone.
Proof.
  exact (update_calendar_event_keeps_nested_null sample_calendar "evt-1"
           nested_null_update _ eq_refl eq_refl).
Defined.

(** X27: an update that carries no non-null field is not refused: the
    handler still makes the remote update call, with an empty body. *)
Theorem update_calendar_event_empty_body (service : CalendarService)
    (event_id : string) (u : CalendarEventUpdate) :
  non_null (u_start u) = None → non_null (u_end u) = None →
  non_null (u_summary u) = None → non_null (u_description u) = None →
  non_null (u_location u) = None →
  calls (update_calendar_event service event_id u) =
    [EventsUpdate "primary" event_id ∅].
Proof.
  intros H1 H2 H3 H4 H5.
  assert (update_dict u = ∅) as Hempty.
  { apply map_eq. intros k. rewrite update_dict_lookup, lookup_empty.
    unfold CalendarEventUpdate_dict. rewrite !set_field_lookup, lookup_empty.
    destruct (u_start u) as [[?|]|]; try discriminate;
    destruct (u_end u) as [[?|]|]; try discriminate;
    destruct (u_summary u) as [[?|]|]; try discriminate;
    destruct (u_description u) as [[?|]|]; try discriminate;
    destruct (u_location u) as [[?|]|]; try discriminate;
    repeat case_decide; done. }
  unfold update_calendar_event. rewrite calls_try_except_raise, calls_execute_bind, Hempty.
  by destruct (events_update service "primary" event_id ∅).
Qed.

Lemma update_calendar_event_empty_body_witness :
  calls (update_calendar_event sample_calendar "evt-1" empty_update) =
    [EventsUpdate "primary" "evt-1" ∅].
Proof.
  exact (update_calendar_event_empty_body sample_calendar "evt-1" empty_update
           eq_refl eq_refl eq_refl eq_refl eq_refl).
Defined.

(** ** The calendar handlers and errors *)

(** X28: the three calendar handlers raise nothing but an [HTTPException]
    of status 500; when a remote call of theirs is answered with an
    exception, an error of the remote API included, the detail is the text
    of that exception; [update_calendar_event] raises in no other case, and
    it returns what the remote update call returns, unchanged. *)
Theorem calendar_handlers_raise_only_500 (service : CalendarService)
    (now_utc : datetime.datetime) (e : CalendarEventCreate)
    (event_id : string) (u : CalendarEventUpdate) :
  (∀ calendarId timeMin timeMax maxResults singleEvents orderBy cause,
     In (EventsList calendarId timeMin timeMax maxResults singleEvents orderBy)
        (calls (get_calendar_events service now_utc)) →
     events_list service calendarId timeMin timeMax maxResults singleEvents orderBy
       = Raise cause →
     outcome (get_calendar_events service now_utc) =
       Raise (HTTPException 500 (str_exn cause))) ∧
  (∀ calendarId body sendUpdates cause,
     In (EventsInsert calendarId body sendUpdates)
        (calls (create_calendar_event service now_utc e)) →
     events_insert service calendarId body sendUpdates = Raise cause →
     outcome (create_calendar_event service now_utc e) =
       Raise (HTTPException 500 (str_exn cause))) ∧
  (∀ cause,
     events_update service "primary" event_id (update_dict u) = Raise cause →
     outcome (update_calendar_event service event_id u) =
       Raise (HTTPException 500 (str_exn cause))) ∧
  (∀ err,
     outcome (update_calendar_event service event_id u) = Raise err →
     ∃ cause, events_update service "primary" event_id (update_dict u) = Raise cause ∧
              err = HTTPException 500 (str_exn cause)) ∧
  (∀ event, events_update service "primary" event_id (update_dict u) = Ok event →
            outcome (update_calendar_event service event_id u) = Ok event) ∧
  (∀ err,
     outcome (get_calendar_events service now_utc) = Raise err ∨
     outcome (create_calendar_event service now_utc e) = Raise err ∨
     outcome (update_calendar_event service event_id u) = Raise err →
     ∃ detail, err = HTTPException 500 detail).
Proof.
  split; [|split; [|split; [|split; [|split]]]].
  - intros c tmin tmax n se ob cause. rewrite get_calendar_events_run. cbv zeta.
    unfold calls, outcome. simpl fst. simpl snd.
    intros [[= <- <- <- <- <- <-]|[]] Hl. by rewrite Hl.
  - intros c body su cause. rewrite create_calendar_event_run. cbv zeta.
    destruct (adjust_start _ _) as [d1|c0]; [|intros []].
    destruct (adjust_end _ d1) as [d2|c0]; [|intros []].
    unfold calls, outcome. simpl fst. simpl snd.
    intros [[= <- <- <-]|[]] Hi. by rewrite Hi.
  - intros cause Hu. unfold update_calendar_event. cbv zeta. by rewrite Hu.
  - intros err. unfold update_calendar_event. cbv zeta.
    destruct (events_update service "primary" event_id (update_dict u)) as [ev|c];
      [discriminate|]. simpl. intros [= <-]. eauto.
  - intros event Hev. unfold update_calendar_event. cbv zeta. by rewrite Hev.
  - intros err [H|[H|H]]; revert H.
    + rewrite get_calendar_events_outcome.
      destruct (events_list service _ _ _ _ _ _) as [er|c]; [|intros [= <-]; eauto].
      destruct (default [] (items er)) as [|ev evs]; [discriminate|].
      destruct (simplify_events _ _ _) as [r|c]; [discriminate|intros [= <-]; eauto].
    + rewrite create_calendar_event_run. cbv zeta.
      destruct (adjust_start _ _) as [d1|c]; [|intros [= <-]; eauto].
      destruct (adjust_end _ d1) as [d2|c]; [|intros [= <-]; eauto].
      unfold outcome. simpl snd.
      destruct (events_insert service "primary" d2 "all") as [ev|c];
        [discriminate|intros [= <-]; eauto].
    + unfold update_calendar_event. cbv zeta.
      destruct (events_update service "primary" event_id (update_dict u)) as [ev|c];
        [discriminate|]. simpl. intros [= <-]. eauto.
Qed.

Lemma calendar_handlers_raise_only_500_witness :
  outcome (get_calendar_events failing_calendar sample_now) =
    Raise (HTTPException 500 "forbidden") ∧
  outcome (create_calendar_event failing_calendar sample_now all_day_example) =
    Raise (HTTPException 500 "forbidden") ∧
  outcome (update_calendar_event failing_calendar "evt-1" only_summary) =
    Raise (HTTPException 500 "not found") ∧
  outcome (update_calendar_event sample_calendar "evt-1" only_summary) =
    Ok {| ev_id := Some "evt-1"; ev_summary := None; ev_start := None;
          ev_end := None; ev_htmlLink := None; ev_status := Some "confirmed";
          ev_created := None; ev_updated := None |}.
Proof.
  pose proof (calendar_handlers_raise_only_500 failing_calendar sample_now
                all_day_example "evt-1" only_summary)
    as (Hlist & Hcreate & Hupdate & _).
  split; [|split; [|split]].
  - exact (Hlist _ _ _ _ _ _ (HttpError 403 "forbidden") (or_introl eq_refl) eq_refl).
  - exact (Hcreate _ _ _ (HttpError 403 "forbidden") (or_introl eq_refl) eq_refl).
  - exact (Hupdate (HttpError 404 "not found") eq_refl).
  - exact (proj1 (proj2 (proj2 (proj2 (proj2 (calendar_handlers_raise_only_500
             sample_calendar sample_now offset_example "evt-1" only_summary))))) _ eq_refl).
Defined.
